(** * bundle_firmware: a shallow embedding of the firmware bundler

    The development follows [host/lib/bundle_firmware.py]: the Google Binary
    Block flag decoder, the TEXT_BASE decoder and its reconciliation with the
    device tree, the Exynos BL2 parameter patcher with its checksum, and the
    signed boot stub pipeline.

    Python values are modelled as the code has them: [int] as [Z] (unbounded),
    [str] holding text as [string], [str] holding binary data as [list byte],
    [None]-or-value as [option].  Exceptions and the output object are threaded
    through an error-and-state monad over a world made of the files on disk
    and the messages written so far. *)

From Stdlib Require Import ZArith Lia Ascii String List Bool.
From Stdlib Require Import HexString DecimalString Decimal.
From Stdlib.Strings Require Import Byte.
From stdpp Require Import gmap strings list fin_maps.

Local Open Scope Z_scope.

(** ** Exceptions, output, world *)

Inductive exn : Type :=
| ValueError (msg : string)
| IndexError
| StructError
| IOError (path : string)
| CmdError (msg : string).

(** One message of the [cros_output.Output] object, by level. *)
Inductive event : Type :=
| Notice (msg : string)
| Info (msg : string)
| Warning (msg : string)
| Progress (msg : string).

Abbreviation bytes := (list byte) (only parsing).

Record world : Type := World {
  files : gmap string bytes;
  out : list event
}.

Definition M (A : Type) : Type := world -> world * (exn + A).

Definition ret {A} (a : A) : M A := fun w => (w, inr a).
Definition raise {A} (e : exn) : M A := fun w => (w, inl e).
Definition bind {A B} (m : M A) (k : A -> M B) : M B :=
  fun w => match m w with
           | (w', inr a) => k a w'
           | (w', inl e) => (w', inl e)
           end.
Definition lift {A} (r : exn + A) : M A := fun w => (w, r).

Notation "x <- m ;; k" := (bind m (fun x => k))
  (at level 100, m at next level, right associativity, only parsing).
Notation "m ;;; k" := (bind m (fun _ => k))
  (at level 100, right associativity, only parsing).

Definition emit (e : event) : M unit :=
  fun w => (World (files w) (out w ++ [e]), inr tt).

(** A [for] loop whose body updates the loop variables [S] and may raise. *)
Fixpoint foreach {A S} (l : list A) (body : A -> S -> M S) (s : S) : M S :=
  match l with
  | [] => ret s
  | a :: l' => s' <- body a s ;; foreach l' body s'
  end.

(** ** The Python built-ins the module relies on *)

Module Py.

Definition code (c : ascii) : Z := Z.of_N (N_of_ascii c).

(** Value of a hexadecimal digit, either case. *)
Definition hex_digit (c : ascii) : option Z :=
  let n := code c in
  if (48 <=? n) && (n <=? 57) then Some (n - 48)
  else if (97 <=? n) && (n <=? 102) then Some (n - 87)
  else if (65 <=? n) && (n <=? 70) then Some (n - 55)
  else None.

(** C [isspace]: space, and \t \n \v \f \r. *)
Definition is_space (c : ascii) : bool :=
  let n := code c in (n =? 32) || ((9 <=? n) && (n <=? 13)).

Fixpoint lstrip (s : string) : string :=
  match s with
  | String c r => if is_space c then lstrip r else s
  | EmptyString => EmptyString
  end.

Fixpoint all_space (s : string) : bool :=
  match s with
  | String c r => is_space c && all_space r
  | EmptyString => true
  end.

(** Reads hexadecimal digits as long as there are some. *)
Fixpoint scan_hex (acc : Z) (s : string) : Z * string :=
  match s with
  | String c r =>
      match hex_digit c with
      | Some d => scan_hex (16 * acc + d) r
      | None => (acc, s)
      end
  | EmptyString => (acc, EmptyString)
  end.

Definition starts_with_hex (s : string) : bool :=
  match s with
  | String c _ => match hex_digit c with Some _ => true | None => false end
  | EmptyString => false
  end.

(** An optional [0x] or [0X], dropped only when a digit follows. *)
Definition skip_0x (s : string) : string :=
  match s with
  | String c0 (String c1 r) =>
      if (code c0 =? 48) && ((code c1 =? 120) || (code c1 =? 88))
         && starts_with_hex r
      then r else s
  | _ => s
  end.

(** The digits of [int(s, base=16)], the sign read: an optional [0x], then
    hexadecimal digits, at least one, and nothing but white space after. *)
Definition unsigned16 (s : string) : option Z :=
  let s3 := skip_0x s in
  if starts_with_hex s3 then
    let '(v, rest) := scan_hex 0 s3 in
    if all_space rest then Some v else None
  else None.

(** [int(s, base=16)]: surrounding white space, an optional sign, white
    space again (the C reader of the digits skips it once more), then the
    digits.  [None] stands for the [ValueError]. *)
Definition int16 (s : string) : option Z :=
  match lstrip s with
  | String c r =>
      if code c =? 43 then unsigned16 (lstrip r)
      else if code c =? 45 then option_map Z.opp (unsigned16 (lstrip r))
      else unsigned16 (String c r)
  | EmptyString => None
  end.

(** [s.split(sep)] for a one-character separator: never an empty list. *)
Fixpoint split (sep : ascii) (s : string) : list string :=
  match s with
  | EmptyString => [EmptyString]
  | String c r =>
      if Ascii.eqb c sep then EmptyString :: split sep r
      else match split sep r with
           | t :: ts => String c t :: ts
           | [] => [String c EmptyString]
           end
  end.

(** [sub in s] on text. *)
Fixpoint starts_with (sub s : string) : bool :=
  match sub, s with
  | EmptyString, _ => true
  | String a sub', String b s' => Ascii.eqb a b && starts_with sub' s'
  | String _ _, EmptyString => false
  end.

Fixpoint contains (sub s : string) : bool :=
  starts_with sub s
  || match s with
     | String _ s' => contains sub s'
     | EmptyString => false
     end.

Fixpoint ends_with_slash (s : string) : bool :=
  match s with
  | EmptyString => false
  | String c EmptyString => Ascii.eqb c "/"
  | String _ r => ends_with_slash r
  end.

(** [os.path.join(a, b)] of [posixpath]. *)
Definition path_join (a b : string) : string :=
  if starts_with "/" b then b
  else if String.eqb a "" || ends_with_slash a then a +:+ b
  else a +:+ "/" +:+ b.

(** ['%d' % z], ['%#x' % z] and ['%x' % z]. *)
Definition fmt_d (z : Z) : string := NilZero.string_of_int (Z.to_int z).
Definition fmt_hx (z : Z) : string := HexString.of_Z z.
Definition fmt_x (z : Z) : string :=
  match z with
  | Z0 => "0"
  | Zpos p => HexString.Raw.of_pos p ""
  | Zneg p => "-" +:+ HexString.Raw.of_pos p ""
  end.

(** [ord(ch)] and its inverse on a value taken modulo 256. *)
Definition ord (b : byte) : Z := Z.of_N (Byte.to_N b).
Definition chr (z : Z) : byte :=
  match Byte.of_N (Z.to_N (z mod 256)) with
  | Some b => b
  | None => "000"%byte
  end.

(** A slice bound: a negative index counts from the end, and every index
    is brought back into the sequence. *)
Definition bound (len i : Z) : Z :=
  if i <? 0 then Z.max 0 (len + i) else Z.min i len.

(** [l[lo:hi]], where [None] is an omitted bound. *)
Definition slice {A} (l : list A) (lo hi : option Z) : list A :=
  let len := Z.of_nat (length l) in
  let a := match lo with Some i => bound len i | None => 0 end in
  let b := match hi with Some j => bound len j | None => len end in
  firstn (Z.to_nat (b - a)) (skipn (Z.to_nat a) l).

(** [range(start, stop, step)] for a positive step. *)
Definition range (start stop step : Z) : list Z :=
  if (0 <? step) && (start <? stop)
  then map (fun k => start + step * Z.of_nat k)
           (seq 0 (Z.to_nat ((stop - start + step - 1) / step)))
  else [].

(** Little-endian value of a run of bytes, and the bytes of a value. *)
Fixpoint le_value (l : bytes) : Z :=
  match l with
  | [] => 0
  | b :: r => ord b + 256 * le_value r
  end.

Fixpoint le_bytes (n : nat) (v : Z) : bytes :=
  match n with
  | O => []
  | S n' => chr v :: le_bytes n' (v / 256)
  end.

(** [struct.unpack('<I', word)[0]] and [struct.unpack('<1L', word)[0]]:
    the argument must be four bytes long. *)
Definition unpack_I (word : bytes) : exn + Z :=
  if Nat.eqb (length word) 4 then inr (le_value word) else inl StructError.

(** [struct.unpack('<2L', d)]: eight bytes, two values. *)
Definition unpack_2L (d : bytes) : exn + (Z * Z) :=
  if Nat.eqb (length d) 8
  then inr (le_value (firstn 4 d), le_value (skipn 4 d))
  else inl StructError.

(** [struct.unpack('<%ds' % n, d)[0]]: a negative count is no format, and
    the argument must be [n] bytes long. *)
Definition unpack_s (n : Z) (d : bytes) : exn + bytes :=
  if (0 <=? n) && (Z.of_nat (length d) =? n) then inr d else inl StructError.

(** [struct.pack('<L', v)]: the value must fit 32 bits unsigned. *)
Definition pack_L (v : Z) : exn + bytes :=
  if (0 <=? v) && (v <? 2 ^ 32) then inr (le_bytes 4 v) else inl StructError.

Fixpoint is_prefix (p l : bytes) : bool :=
  match p, l with
  | [], _ => true
  | a :: p', b :: l' => Byte.eqb a b && is_prefix p' l'
  | _ :: _, [] => false
  end.

(** [l.find(sub)] and [l.rfind(sub)], as offsets from [i]; -1 if absent. *)
Fixpoint find_from (sub l : bytes) (i : Z) : Z :=
  if is_prefix sub l then i
  else match l with
       | [] => -1
       | _ :: r => find_from sub r (i + 1)
       end.

Fixpoint rfind_from (sub l : bytes) (i : Z) : Z :=
  match l with
  | [] => if is_prefix sub l then i else -1
  | _ :: r =>
      let later := rfind_from sub r (i + 1) in
      if 0 <=? later then later
      else if is_prefix sub l then i else -1
  end.

Definition find (l sub : bytes) : Z := find_from sub l 0.
Definition rfind (l sub : bytes) : Z := rfind_from sub l 0.

(** [l.index(x)] once [x in l] is known; -1 stands for the [ValueError]. *)
Fixpoint index_from (x : string) (l : list string) (i : Z) : Z :=
  match l with
  | [] => -1
  | y :: r => if String.eqb y x then i else index_from x r (i + 1)
  end.

End Py.

(** ** Google Binary Block flags *)

(** The dictionary [gbb_flag_properties], in the order it is written. *)
Definition gbb_flag_properties : list (string * Z) :=
  [ ("dev-screen-short-delay", 0x00000001);
    ("load-option-roms", 0x00000002);
    ("enable-alternate-os", 0x00000004);
    ("force-dev-switch-on", 0x00000008);
    ("force-dev-boot-usb", 0x00000010);
    ("disable-fw-rollback-check", 0x00000020);
    ("enter-triggers-tonorm", 0x00000040);
    ("force-dev-boot-legacy", 0x00000080) ].

(** [d.get(key)] on a dictionary written as its list of items. *)
Fixpoint dict_get {V} (d : list (string * V)) (key : string) : option V :=
  match d with
  | [] => None
  | (k, v) :: d' => if String.eqb k key then Some v else dict_get d' key
  end.

(** [flag[0] in ['-', '+']], with the operator and the rest of the token. *)
Definition split_oper (flag : string) : exn + (option ascii * string) :=
  match flag with
  | EmptyString => inl IndexError
  | String c r =>
      if Ascii.eqb c "-" || Ascii.eqb c "+" then inr (Some c, r)
      else inr (None, flag)
  end.

(** [oper == c], where [oper] is [None] or a one-character string. *)
Definition oper_is (oper : option ascii) (c : ascii) : bool :=
  match oper with
  | Some o => Ascii.eqb o c
  | None => false
  end.

(** The body of the loop over the tokens; the loop variables are
    [gbb_flags] and [use_base_value]. *)
Definition gbb_token (tok : string) (st : Z * bool) : M (Z * bool) :=
  let '(gbb_flags, use_base_value) := st in
  parts <- lift (split_oper tok) ;;
  let '(oper, flag) := parts in
  match dict_get gbb_flag_properties flag with
  | None => raise (ValueError ("Invalid GBB flag '" +:+ flag +:+ "'"))
  | Some value =>
      if value =? 0
      then raise (ValueError ("Invalid GBB flag '" +:+ flag +:+ "'"))
      else
        if oper_is oper "+" then
          emit (Notice ("Cmdline: Enabling " +:+ flag +:+ ".")) ;;;
          ret (Z.lor gbb_flags value, use_base_value)
        else if oper_is oper "-" then
          emit (Notice ("Cmdline: Disabling " +:+ flag +:+ ".")) ;;;
          ret (Z.land gbb_flags (Z.lnot value), use_base_value)
        else
          st' <- (if use_base_value
                  then emit (Notice "Cmdline: Resetting flags to 0") ;;;
                       ret (0, false)
                  else ret (gbb_flags, use_base_value)) ;;
          emit (Notice ("Cmdline: Enabling " +:+ flag +:+ ".")) ;;;
          ret (Z.lor (fst st') value, snd st')
  end.

Definition DecodeGBBFlagsFromOptions (gbb_flags : Z)
    (adjustments : option string) : M Z :=
  match adjustments with
  | None | Some EmptyString => ret gbb_flags
  | Some adj =>
      match Py.int16 adj with
      | Some v => ret v
      | None =>
          st <- foreach (Py.split "," adj) gbb_token (gbb_flags, true) ;;
          ret (fst st)
      end
  end.


(** ** The collaborators: tools, device tree, external programs *)

(** What the module takes from outside: the output directory and the path
    translation of the tools object, the text of its size reports, the
    programs [bct_dump] and [cbootimage] as functions of the contents of the
    files they read, and the reading and writing of one property of a device
    tree blob. *)
Record Externals : Type := {
  outdir : string;
  Filename : string -> string;
  size_report : string -> string -> Z -> string;
  bct_dump : bytes -> exn + string;
  cbootimage : string -> bytes -> bytes -> exn + bytes;
  dtb_get_int : bytes -> string -> string -> option Z;
  dtb_get_string : bytes -> string -> string -> option string;
  dtb_put_integer : bytes -> string -> string -> Z -> bytes
}.

(** Modelled from the spec: the file helpers of the tools object, which is
    not part of this module (read-all-bytes, write-all-bytes, get-file-size,
    blocking and whole-file).  A file that is not there raises. *)
Definition ReadFile (fname : string) : M bytes :=
  fun w => match files w !! fname with
           | Some data => (w, inr data)
           | None => (w, inl (IOError fname))
           end.

Definition WriteFile (fname : string) (data : bytes) : M unit :=
  fun w => (World (<[fname := data]> (files w)) (out w), inr tt).

Definition getsize (fname : string) : M Z :=
  data <- ReadFile fname ;; ret (Z.of_nat (length data)).

(** Modelled from the spec: a device tree handle of the [Fdt] class, which
    is not part of this module.  A handle is the name of its backing file;
    [getInt] and [getString] take a default, [putInteger] rewrites the
    backing file, [copy] gives an independent handle on a new file. *)
Record Fdt : Type := { fname : string }.

Section Collaborators.

Variable ext : Externals.

Definition OutputSize (label filename : string) : M unit :=
  size <- getsize filename ;;
  emit (Notice (size_report ext label filename size)).

Definition GetInt (fdt : Fdt) (node prop : string) (default : Z) : M Z :=
  blob <- ReadFile (fname fdt) ;;
  ret (match dtb_get_int ext blob node prop with
       | Some v => v
       | None => default
       end).

Definition GetString (fdt : Fdt) (node prop default : string) : M string :=
  blob <- ReadFile (fname fdt) ;;
  ret (match dtb_get_string ext blob node prop with
       | Some v => v
       | None => default
       end).

Definition PutInteger (fdt : Fdt) (node prop : string) (value : Z)
    : M unit :=
  blob <- ReadFile (fname fdt) ;;
  WriteFile (fname fdt) (dtb_put_integer ext blob node prop value).

Definition Copy (fdt : Fdt) (new_name : string) : M Fdt :=
  blob <- ReadFile (fname fdt) ;;
  WriteFile new_name blob ;;;
  ret {| fname := new_name |}.

(** ** TEXT_BASE *)

(** The inner loop of [DecodeTextBase] over the word offsets of one
    window.  [inl v] is the [return value - start]; [inr found] is the
    loop running to its end. *)
Fixpoint scan_window (data : bytes) (start : Z) (offsets : list Z)
    (found : bool) : exn + (Z + bool) :=
  match offsets with
  | [] => inr (inr found)
  | i :: rest =>
      let word := Py.slice data (Some i) (Some (i + 4)) in
      match Py.unpack_I word with
      | inl e => inl e
      | inr value =>
          if found then inr (inl (value - start))
          else if value =? 0x12345678
               then scan_window data start rest true
               else scan_window data start rest found
      end
  end.

(** The outer loop over the window starts; [found] lives across them. *)
Fixpoint scan_starts (data : bytes) (starts : list Z) (found : bool)
    : exn + option Z :=
  match starts with
  | [] => inr None
  | start :: rest =>
      match scan_window data start (Py.range start (start + 160) 4) found
      with
      | inl e => inl e
      | inr (inl v) => inr (Some v)
      | inr (inr found') => scan_starts data rest found'
      end
  end.

Definition DecodeTextBase (data : bytes) : exn + option Z :=
  scan_starts data [0; 0x4000] false.

(** Truth value of an integer-or-[None]. *)
Definition truthy (v : option Z) : bool :=
  match v with
  | Some z => negb (z =? 0)
  | None => false
  end.

Definition text_base_warning (text_base : Z) (name : string)
    (fdt_text_base : Z) : string :=
  "TEXT_BASE " +:+ Py.fmt_x text_base +:+ " in " +:+ name
  +:+ "U-Boot doesn't match fdt value of " +:+ Py.fmt_x fdt_text_base
  +:+ ". Using " +:+ Py.fmt_x text_base.

Definition CalcTextBase (name : string) (fdt : Fdt) (fname : string)
    : M Z :=
  data <- ReadFile fname ;;
  raw <- GetInt fdt "/chromeos-config" "textbase" 0 ;;
  let fdt_text_base := Z.land raw 0xffffffff in
  text_base <- lift (DecodeTextBase data) ;;
  let text_base_str :=
    match text_base with
    | Some t => if truthy text_base then Py.fmt_hx t else "None"
    | None => "None"
    end in
  emit (Info ("TEXT_BASE: fdt says " +:+ Py.fmt_hx fdt_text_base +:+ ", "
              +:+ fname +:+ " says " +:+ text_base_str)) ;;;
  match text_base with
  | Some t =>
      if truthy text_base && negb (t =? fdt_text_base) then
        emit (Warning (text_base_warning t name fdt_text_base)) ;;;
        ret t
      else ret fdt_text_base
  | None => ret fdt_text_base
  end.

(** ** The Exynos BL2 parameter block *)

(** The attributes of a [Bundle] object that the methods below read. *)
Record Bundle : Type := {
  fdt : Fdt;
  uboot_fname : string;
  _fdt_fname : string;
  bct_fname : string;
  spl_source : string
}.

Variable self : Bundle.

Definition not_given : string := "not-given-invalid-value".
Definition mem_types : list string := ["ddr2"; "ddr3"; "lpddr2"; "lpddr3"].
Definition mem_manufs : list string := ["autodetect"; "elpida"; "samsung"].

Definition str_in (x : string) (l : list string) : bool :=
  existsb (String.eqb x) l.

Definition char_str (b : byte) : string :=
  String (ascii_of_byte b) EmptyString.

(** The chain of [if param == ...] in the loop of [_UpdateBl2Parameters]:
    the value to store for one parameter, [value] being the one read. *)
Definition bl2_param (fdt : Fdt) (spl_load_size : Z) (param : byte)
    (value : Z) : M Z :=
  if Byte.eqb param "m" then
    mem_type <- GetString fdt "/dmc" "mem-type" not_given ;;
    mem_type <- (if String.eqb mem_type not_given then
                   emit (Warning "No value for memory type: using 'ddr3'") ;;;
                   ret "ddr3"
                 else ret mem_type) ;;
    if negb (str_in mem_type mem_types) then
      raise (CmdError ("Unknown memory type '" +:+ mem_type +:+ "'"))
    else
      let value := Py.index_from mem_type mem_types 0 in
      emit (Info ("  Memory type: " +:+ mem_type +:+ " ("
                  +:+ Py.fmt_d value +:+ ")")) ;;;
      ret value
  else if Byte.eqb param "M" then
    mem_manuf <- GetString fdt "/dmc" "mem-manuf" not_given ;;
    mem_manuf <- (if String.eqb mem_manuf not_given then
                    emit (Warning
                      "No value for memory manufacturer: using 'samsung'") ;;;
                    ret "samsung"
                  else ret mem_manuf) ;;
    if negb (str_in mem_manuf mem_manufs) then
      raise (CmdError ("Unknown memory manufacturer: '" +:+ mem_manuf
                       +:+ "'"))
    else
      let value := Py.index_from mem_manuf mem_manufs 0 in
      emit (Info ("  Memory manufacturer: " +:+ mem_manuf +:+ " ("
                  +:+ Py.fmt_d value +:+ ")")) ;;;
      ret value
  else if Byte.eqb param "f" then
    mem_freq <- GetInt fdt "/dmc" "clock-frequency" (-1) ;;
    mem_freq <- (if mem_freq =? -1 then
                   emit (Warning
                     "No value for memory frequency: using '800000000'") ;;;
                   ret 800000000
                 else ret mem_freq) ;;
    let mem_freq := mem_freq / 1000000 in
    (if negb ((mem_freq =? 533) || (mem_freq =? 667) || (mem_freq =? 800))
     then emit (Warning ("Unexpected memory speed '" +:+ Py.fmt_d mem_freq
                         +:+ "'"))
     else ret tt) ;;;
    emit (Info ("  Memory speed: " +:+ Py.fmt_d mem_freq)) ;;;
    ret mem_freq
  else if Byte.eqb param "v" then
    emit (Info ("  Memory interleave: " +:+ Py.fmt_hx 31)) ;;;
    ret 31
  else if Byte.eqb param "u" then
    let value := Z.land (spl_load_size + 0xfff) (Z.lnot 0xfff) in
    emit (Info ("  U-Boot size: " +:+ Py.fmt_hx value +:+ " (rounded up from "
                +:+ Py.fmt_hx spl_load_size +:+ ")")) ;;;
    ret value
  else if Byte.eqb param "b" then
    value <- (if String.eqb (spl_source self) "straps" then ret 32
              else if String.eqb (spl_source self) "emmc" then ret 4
              else if String.eqb (spl_source self) "spi" then ret 20
              else if String.eqb (spl_source self) "usb" then ret 33
              else raise (CmdError ("Invalid boot source '"
                                    +:+ spl_source self +:+ "'"))) ;;
    emit (Info ("  Boot source: " +:+ Py.fmt_hx value)) ;;;
    ret value
  else
    emit (Warning ("Unknown machine parameter type '" +:+ char_str param
                   +:+ "'")) ;;;
    emit (Info ("  Unknown value: " +:+ Py.fmt_hx value)) ;;;
    ret value.

(** One turn of the loop; the loop variables are [new_data] and [upto]. *)
Definition bl2_step (fdt : Fdt) (spl_load_size : Z) (data : bytes)
    (pos : Z) (param : byte) (st : bytes * Z) : M (bytes * Z) :=
  let '(new_data, upto) := st in
  value <- lift (Py.unpack_I
                   (Py.slice data (Some (pos + upto))
                      (Some (pos + upto + 4)))) ;;
  value <- bl2_param fdt spl_load_size param value ;;
  packed <- lift (Py.pack_L value) ;;
  ret (new_data ++ packed, upto + 4).

Definition bad_size_message (pos size len : Z) : string :=
  "Machine parameter block size " +:+ Py.fmt_d size +:+ " is invalid: pos="
  +:+ Py.fmt_d pos +:+ ", size=" +:+ Py.fmt_d size +:+ ", space="
  +:+ Py.fmt_d (len - pos) +:+ ", len=" +:+ Py.fmt_d len.

Definition _UpdateBl2Parameters (fdt : Fdt) (spl_load_size : Z)
    (data : bytes) (pos : Z) : M bytes :=
  let len := Z.of_nat (length data) in
  hdr <- lift (Py.unpack_2L
                 (Py.slice data (Some (pos + 4)) (Some (pos + 12)))) ;;
  let '(version, size) := hdr in
  if negb (version =? 1) then
    raise (CmdError ("Cannot update machine parameter block version '"
                     +:+ Py.fmt_d version +:+ "'"))
  else if (size <? 0) || (len <? pos + size) then
    raise (CmdError (bad_size_message pos size len))
  else
    let pos := pos + 12 in
    param_list <- lift (Py.unpack_s (len - pos)
                          (Py.slice data (Some pos) None)) ;;
    let param_len := Py.find param_list ["000"%byte] in
    let param_list := Py.slice param_list None (Some param_len) in
    let pos := pos + Z.land (param_len + 4) (Z.lnot 3) in
    st <- foreach param_list (bl2_step fdt spl_load_size data pos)
            ([], 0) ;;
    let new_data := fst st in
    let data :=
      Py.slice data None (Some pos) ++ new_data
      ++ Py.slice data (Some (pos + Z.of_nat (length new_data))) None in
    emit (Info "BL2 configuration complete") ;;;
    ret data.

Definition byte_sum (l : bytes) : Z :=
  fold_left (fun checksum ch => checksum + Py.ord ch) l 0.

Definition _UpdateChecksum (data : bytes) : exn + bytes :=
  let checksum := byte_sum (Py.slice data None (Some (-4))) in
  match Py.pack_L (Z.land checksum 0xffffffff) with
  | inl e => inl e
  | inr packed => inr (Py.slice data None (Some (-4)) ++ packed)
  end.

Definition updated_spl (name : string) : string :=
  Py.path_join (outdir ext) ("updated-spl" +:+ name +:+ ".bin").

Definition ConfigureExynosBl2 (fdt : Fdt) (spl_load_size : Z)
    (orig_bl2 name : string) : M string :=
  emit (Info "Configuring BL2") ;;;
  let bl2 := updated_spl name in
  data <- ReadFile orig_bl2 ;;
  WriteFile bl2 data ;;;
  data <- ReadFile bl2 ;;
  marker <- lift (Py.pack_L 0xdeadbeef) ;;
  let pos := Py.rfind data marker in
  if pos =? 0 then
    raise (CmdError ("Could not find machine parameter block in '"
                     +:+ orig_bl2 +:+ "'"))
  else
    data <- _UpdateBl2Parameters fdt spl_load_size data pos ;;
    data <- lift (_UpdateChecksum data) ;;
    WriteFile bl2 data ;;;
    ret bl2.

(** ** The signed boot stub *)

Definition nl : string := String (ascii_of_nat 10) EmptyString.

(** The text written to [boot.cfg]. *)
Definition boot_cfg (bct : string) (is_nand : bool) (bootstub : string)
    (text_base : Z) : string :=
  "Version    = 1;" +:+ nl +:+ "Redundancy = 1;" +:+ nl
  +:+ "Bctfile    = " +:+ bct +:+ ";" +:+ nl
  +:+ (if is_nand then "Bctcopy = 1;" +:+ nl else "")
  +:+ "BootLoader = " +:+ bootstub +:+ "," +:+ Py.fmt_hx text_base +:+ ","
  +:+ Py.fmt_hx text_base +:+ ",Complete;" +:+ nl.

(** [Run('bct_dump', [bct])]: the program reads the BCT file. *)
Definition Run_bct_dump (bct : string) : M string :=
  fun w => match files w !! bct with
           | Some d => (w, bct_dump ext d)
           | None => (w, inl (CmdError "bct_dump"))
           end.

(** [Run('cbootimage', [config, signed])]: the program reads the
    configuration file and the two files it names, and writes [signed]. *)
Definition Run_cbootimage (config signed bct bootstub : string) : M unit :=
  fun w =>
    match files w !! config, files w !! bct, files w !! bootstub with
    | Some cfg, Some b, Some bs =>
        match cbootimage ext (String.string_of_list_byte cfg) b bs with
        | inr image => WriteFile signed image w
        | inl e => (w, inl e)
        end
    | _, _, _ => (w, inl (CmdError "cbootimage"))
    end.

Definition _SignBootstub (bct bootstub : string) (text_base : Z)
    : M string :=
  let signed := Py.path_join (outdir ext) "signed.bin" in
  emit (Progress "Signing Bootstub") ;;;
  let config := Py.path_join (outdir ext) "boot.cfg" in
  (* open(config, 'w') empties the file; close() leaves the text in it *)
  WriteFile config [] ;;;
  dump <- Run_bct_dump bct ;;
  let is_nand := Py.contains "NvBootDevType_Nand" dump in
  WriteFile config
    (String.list_byte_of_string (boot_cfg bct is_nand bootstub text_base)) ;;;
  Run_cbootimage config signed bct bootstub ;;;
  OutputSize "BCT" bct ;;;
  OutputSize "Signed image" signed ;;;
  ret signed.

(** What [_CreateBootStub] holds once the boot stub is signed the first
    time: the stub's name, the copy of the device tree, the contents of
    U-Boot, the text base and [data], the first signed buffer. *)
Record signed_once : Type := {
  so_bootstub : string;
  so_fdt : Fdt;
  so_uboot_data : bytes;
  so_text_base : Z;
  so_data : bytes
}.

Definition signed_postload_name : string :=
  Py.path_join (outdir ext) "signed-postload.bin".

(** [_CreateBootStub] up to [data = self._tools.ReadFile(signed)]. *)
Definition sign_first (uboot : string) (base_fdt : Fdt) : M signed_once :=
  let bootstub := Py.path_join (outdir ext) "u-boot-fdt.bin" in
  text_base <- CalcTextBase "" (fdt self) uboot ;;
  uboot_data <- ReadFile uboot ;;
  fdt <- Copy base_fdt (Py.path_join (outdir ext) "bootstub.dtb") ;;
  PutInteger fdt "/config" "postload-text-offset" 0xffffffff ;;;
  fdt_data <- ReadFile (fname fdt) ;;
  WriteFile bootstub (uboot_data ++ fdt_data) ;;;
  OutputSize "U-Boot binary" (uboot_fname self) ;;;
  OutputSize "U-Boot fdt" (_fdt_fname self) ;;;
  OutputSize "Combined binary" bootstub ;;;
  signed <- _SignBootstub (Filename ext (bct_fname self)) bootstub
              text_base ;;
  data <- ReadFile signed ;;
  ret {| so_bootstub := bootstub; so_fdt := fdt;
         so_uboot_data := uboot_data; so_text_base := text_base;
         so_data := data |}.

(** The [if postload:] branch up to the second [_SignBootstub]: the new
    boot stub's name and the name of the newly signed file. *)
Definition sign_again (so : signed_once) (postload : string)
    : M (string * string) :=
  bs_data <- ReadFile (so_bootstub so) ;;
  post <- ReadFile postload ;;
  let bs_data := bs_data ++ post in
  let bootstub := Py.path_join (outdir ext) "u-boot-fdt-postload.bin" in
  WriteFile bootstub bs_data ;;;
  OutputSize "Combined binary with postload" bootstub ;;;
  let postload_bootstub := Py.path_join (outdir ext) "postload.bin" in
  PutInteger (so_fdt so) "/config" "postload-text-offset"
    (Z.of_nat (length (so_data so))) ;;;
  fdt_data <- ReadFile (fname (so_fdt so)) ;;
  WriteFile postload_bootstub (so_uboot_data so ++ fdt_data) ;;;
  signed <- _SignBootstub (Filename ext (bct_fname self)) postload_bootstub
              (so_text_base so) ;;
  ret (bootstub, signed).

Definition size_changed (before after : Z) : string :=
  "Signed file size changed from " +:+ Py.fmt_d before +:+ " to "
  +:+ Py.fmt_d after +:+ " after updating fdt".

(** [if len(data) != os.path.getsize(signed): raise CmdError(...)]. *)
Definition check_signed_size (data : bytes) (signed : string) : M unit :=
  size <- getsize signed ;;
  if negb (Z.of_nat (length data) =? size) then
    size' <- getsize signed ;;
    raise (CmdError (size_changed (Z.of_nat (length data)) size'))
  else ret tt.

(** Truth value of a file name or [None]. *)
Definition given (postload : option string) : option string :=
  match postload with
  | Some EmptyString | None => None
  | Some p => Some p
  end.

Definition _CreateBootStub (uboot : string) (base_fdt : Fdt)
    (postload : option string) : M (string * string) :=
  so <- sign_first uboot base_fdt ;;
  let signed_postload := signed_postload_name in
  r <- match given postload with
       | Some p =>
           names <- sign_again so p ;;
           let '(bootstub, signed) := names in
           check_signed_size (so_data so) signed ;;;
           data <- ReadFile signed ;;
           post <- ReadFile p ;;
           OutputSize "Post-load binary" p ;;;
           ret (bootstub, data ++ post)
       | None => ret (so_bootstub so, so_data so)
       end ;;
  let '(bootstub, data) := r in
  WriteFile signed_postload data ;;;
  OutputSize "Final bootstub with postload" signed_postload ;;;
  ret (bootstub, signed_postload).

End Collaborators.

(** A world with no file and no output yet. *)
Definition w0 : world := World ∅ [].

(** What a call returns or raises, leaving the world aside. *)
Definition result {A} (m : M A) (w : world) : exn + A := snd (m w).

(** ** Notions the statements are written with *)

Definition is_hex_char (c : ascii) : bool :=
  match Py.hex_digit c with Some _ => true | None => false end.

Fixpoint all_hex (s : string) : bool :=
  match s with
  | EmptyString => true
  | String c r => is_hex_char c && all_hex r
  end.

(** A raw hexadecimal bitmask: hexadecimal digits, at least one. *)
Definition is_hex_bitmask (s : string) : bool :=
  match s with
  | EmptyString => false
  | String _ _ => all_hex s
  end.

Definition digit_value (c : ascii) : Z :=
  match Py.hex_digit c with Some d => d | None => 0 end.

(** The number a string of hexadecimal digits denotes, by position. *)
Fixpoint hex_value (s : string) : Z :=
  match s with
  | EmptyString => 0
  | String c r => digit_value c * 16 ^ Z.of_nat (String.length r) + hex_value r
  end.

(** A token of an adjustment list: [+name], [-name] or [name]. *)
Inductive gbb_oper : Type := Plus | Minus | Bare.

Definition gbb_tok : Type := (gbb_oper * string)%type.

Definition render (t : gbb_tok) : string :=
  match fst t with
  | Plus => String "+" (snd t)
  | Minus => String "-" (snd t)
  | Bare => snd t
  end.

Fixpoint join_comma (l : list string) : string :=
  match l with
  | [] => ""
  | [t] => t
  | t :: r => t +:+ "," +:+ join_comma r
  end.

Definition is_known (name : string) : bool :=
  match dict_get gbb_flag_properties name with
  | Some _ => true
  | None => false
  end.

Definition flag_value (name : string) : Z :=
  match dict_get gbb_flag_properties name with
  | Some v => v
  | None => 0
  end.

(** The effect of one token on the working value and on whether the base
    value is still in use. *)
Definition apply_token (st : Z * bool) (t : gbb_tok) : Z * bool :=
  match fst t with
  | Plus => (Z.lor (fst st) (flag_value (snd t)), snd st)
  | Minus => (Z.land (fst st) (Z.lnot (flag_value (snd t))), snd st)
  | Bare => (Z.lor (if snd st then 0 else fst st) (flag_value (snd t)), false)
  end.

Definition apply_tokens (base : Z) (toks : list gbb_tok) : Z :=
  fst (fold_left apply_token toks (base, true)).



Definition invalid_flag (flag : string) : exn :=
  ValueError ("Invalid GBB flag '" +:+ flag +:+ "'").

(** ** Sample data and auxiliary notions *)

Fixpoint has_code (n : Z) (s : string) : bool :=
  match s with
  | EmptyString => false
  | String c r => (Py.code c =? n) || has_code n r
  end.

Definition text_base_marker : Z := 0x12345678.

(** The little-endian word at an offset. *)
Definition word_at (data : bytes) (i : Z) : Z :=
  Py.le_value (Py.slice data (Some i) (Some (i + 4))).

(** The word offsets of a window: [n] of them, four apart. *)
Fixpoint words_from (i : Z) (n : nat) : list Z :=
  match n with
  | O => []
  | S n' => i :: words_from (i + 4) n'
  end.

(** The offset of the first marker among the 40 words of a window. *)
Definition marker_offset (data : bytes) (start : Z) : option Z :=
  List.find (fun i => word_at data i =? text_base_marker)
    (words_from start 40).

Definition zeros (n : nat) : bytes := repeat "000"%byte n.

(** An image with 16 KiB before U-Boot, whose header holds the marker and
    the text base 0x10c000. *)
Definition spl_image : bytes :=
  zeros (Z.to_nat 0x4000) ++ Py.le_bytes 4 0x12345678
  ++ Py.le_bytes 4 0x10c000 ++ zeros 152.

(** Collaborators for the examples: a device tree whose only property is
    a text base of 0x108000, a signer that puts the boot stub after the
    BCT, and a property write that leaves the blob as it is. *)
Definition ext0 : Externals := {|
  outdir := "out";
  Filename := fun name => name;
  size_report := fun label name size =>
    label +:+ ": " +:+ name +:+ "; size: " +:+ Py.fmt_d size;
  bct_dump := fun _ => inr "";
  cbootimage := fun _ bct bootstub => inr (bct ++ bootstub);
  dtb_get_int := fun _ node prop =>
    if String.eqb node "/chromeos-config" && String.eqb prop "textbase"
    then Some 0x108000 else None;
  dtb_get_string := fun _ _ _ => None;
  dtb_put_integer := fun blob _ _ _ => blob
|}.

Definition dtb0 : Fdt := {| fname := "updated.dtb" |}.

(** A U-Boot whose header gives a text base of zero. *)
Definition uboot_base_0 : bytes :=
  Py.le_bytes 4 0x12345678 ++ Py.le_bytes 4 0.

Definition world_base_0 : world :=
  World (<["u-boot.bin" := uboot_base_0]> (<["updated.dtb" := zeros 8]> ∅)) [].

(** The sum of the bytes of a buffer. *)
Fixpoint sum_of_bytes (l : bytes) : Z :=
  match l with
  | [] => 0
  | b :: r => Py.ord b + sum_of_bytes r
  end.

(** [m] leaves every file alone but those whose name satisfies [P]. *)
Definition writes_only {A} (P : string -> Prop) (m : M A) : Prop :=
  forall w q, ~ P q -> files (fst (m w)) !! q = files w !! q.

Definition bl2_marker : bytes := Py.le_bytes 4 0xdeadbeef.

Definition bundle0 : Bundle := {|
  fdt := dtb0;
  uboot_fname := "u-boot.bin";
  _fdt_fname := "board.dts";
  bct_fname := "board.bct";
  spl_source := "straps"
|}.

(** The parameter list [v], one value and the checksum, all zero. *)
Definition block_tail : bytes :=
  ["v"%byte; "000"%byte; "000"%byte; "000"%byte] ++ zeros 4 ++ zeros 4.

(** A BL2 with four bytes of code and then a parameter block. *)
Definition bl2_block_at_4 : bytes :=
  zeros 4 ++ bl2_marker ++ Py.le_bytes 4 1 ++ Py.le_bytes 4 24 ++ block_tail.

(** A BL2 that is nothing but a parameter block. *)
Definition bl2_block_at_0 : bytes :=
  bl2_marker ++ Py.le_bytes 4 1 ++ Py.le_bytes 4 24 ++ block_tail.

(** A blob that does not hold the marker. *)
Definition bl2_no_marker : bytes :=
  zeros 3 ++ Py.le_bytes 4 1 ++ Py.le_bytes 4 0 ++ block_tail.

Definition world_with (name : string) (data : bytes) : world :=
  World (<[name := data]> (<["updated.dtb" := zeros 8]> ∅)) [].

Definition patched_block_at_4 : bytes :=
  zeros 4 ++ bl2_marker ++ Py.le_bytes 4 1 ++ Py.le_bytes 4 24
  ++ ["v"%byte; "000"%byte; "000"%byte; "000"%byte] ++ Py.le_bytes 4 31
  ++ Py.le_bytes 4 0x3e6.

Definition patched_no_marker : bytes :=
  zeros 3 ++ Py.le_bytes 4 1 ++ Py.le_bytes 4 0
  ++ ["v"%byte; "000"%byte; "000"%byte; "000"%byte] ++ Py.le_bytes 4 31
  ++ Py.le_bytes 4 0x96.

Definition not_found (orig : string) : exn :=
  CmdError ("Could not find machine parameter block in '" +:+ orig +:+ "'").

(** The names [_CreateBootStub] writes before the final image. *)
Definition scratch_names (ext : Externals) : list string :=
  map (Py.path_join (outdir ext))
    ["u-boot-fdt.bin"; "bootstub.dtb"; "boot.cfg"; "signed.bin";
     "u-boot-fdt-postload.bin"; "postload.bin"].

Definition scratch (ext : Externals) : string -> Prop :=
  fun q => In q (scratch_names ext).

(** A world with what a build needs: U-Boot with a text base of 0x108000
    in its header, the device tree and its source, a BCT and a post-load
    payload. *)
Definition world_boot : world :=
  World (<["u-boot.bin" := Py.le_bytes 4 0x12345678 ++ Py.le_bytes 4 0x108000]>
         (<["updated.dtb" := zeros 8]>
          (<["board.dts" := zeros 2]>
           (<["board.bct" := zeros 16]>
            (<["u-boot-post.bin" := zeros 5]> ∅))))) [].

(** Collaborators whose device tree grows by a byte when a post-load
    offset other than the sentinel is stored. *)
Definition ext_growing : Externals := {|
  outdir := outdir ext0;
  Filename := Filename ext0;
  size_report := size_report ext0;
  bct_dump := bct_dump ext0;
  cbootimage := cbootimage ext0;
  dtb_get_int := dtb_get_int ext0;
  dtb_get_string := dtb_get_string ext0;
  dtb_put_integer := fun blob _ _ value =>
    if value =? 0xffffffff then blob else blob ++ zeros 1
|}.

(** ** More of the module: flags from the device tree, the GBB *)

(** More of what the module takes from outside: the property names of a
    node of a device tree blob, the writing of a string property, the size
    of a flash part, and the two uses of [gbb_utility], as functions of what
    they are given. *)
Record MoreExternals : Type := {
  dtb_get_props : bytes -> string -> list string;
  dtb_put_string : bytes -> string -> string -> string -> bytes;
  dtb_flash_part_size : bytes -> string -> string -> exn + Z;
  gbb_create : string -> exn + bytes;
  gbb_set : bytes -> string -> string -> bytes -> Z -> exn + bytes
}.

(** The attributes of a [Bundle] object set by [SetDirs], [SetFiles] and
    [SetOptions] that the methods below read. *)
Record Options : Type := {
  _keydir : string;
  bmpblk_fname : string;
  _small : bool;
  _gbb_flags : option string;
  _force_rw : bool
}.

(** [s[n:]] on text. *)
Fixpoint str_from (n : nat) (s : string) : string :=
  match n, s with
  | O, _ => s
  | S n', String _ r => str_from n' r
  | S _, EmptyString => EmptyString
  end.

Section Flags.

Variable ext : Externals.
Variable more : MoreExternals.
Variable self : Bundle.
Variable opts : Options.

(** Modelled from the spec: [getProps] of a device tree handle, the list
    of the property names of a node. *)
Definition GetProps (fdt : Fdt) (node : string) : M (list string) :=
  blob <- ReadFile (fname fdt) ;;
  ret (dtb_get_props more blob node).

(** Modelled from the spec: [putString] of a device tree handle. *)
Definition PutString (fdt : Fdt) (node prop value : string) : M unit :=
  blob <- ReadFile (fname fdt) ;;
  WriteFile (fname fdt) (dtb_put_string more blob node prop value).

(** The body of the loop of [DecodeGBBFlagsFromFdt]; the loop variable is
    [gbb_flags]. *)
Definition gbb_fdt_prop (name : string) (gbb_flags : Z) : M Z :=
  if Py.starts_with "gbb-flag-" name then
    let flag_value := dict_get gbb_flag_properties (str_from 9 name) in
    match flag_value with
    | Some v =>
        if v =? 0 then
          raise (ValueError ("FDT contains invalid GBB flags '" +:+ name
                             +:+ "'"))
        else
          emit (Notice ("FDT: Enabling " +:+ name +:+ ".")) ;;;
          ret (Z.lor gbb_flags v)
    | None =>
        raise (ValueError ("FDT contains invalid GBB flags '" +:+ name
                           +:+ "'"))
    end
  else ret gbb_flags.

Definition DecodeGBBFlagsFromFdt : M Z :=
  chromeos_config <- GetProps (fdt self) "/chromeos-config" ;;
  foreach chromeos_config gbb_fdt_prop 0.

(** [fdt.GetString(node, prop)] with no default: a missing property
    raises. *)
Definition GetString_required (fdt : Fdt) (node prop : string) : M string :=
  blob <- ReadFile (fname fdt) ;;
  match dtb_get_string ext blob node prop with
  | Some v => ret v
  | None => raise (CmdError ("fdtget " +:+ node +:+ " " +:+ prop))
  end.

Definition GetFlashPartSize (fdt : Fdt) (part name : string) : M Z :=
  blob <- ReadFile (fname fdt) ;;
  lift (dtb_flash_part_size more blob part name).

(** [Run('gbb_utility', ['-c', sizes, gbb], cwd=odir)]: a new file. *)
Definition Run_gbb_create (sizes gbb : string) : M unit :=
  image <- lift (gbb_create more sizes) ;;
  WriteFile gbb image.

(** [Run('gbb_utility', ['-s', ...], cwd=odir)]: the file is rewritten
    with the hardware id, the keys of [keydir], the bitmaps and the flags. *)
Definition Run_gbb_set (hwid keydir bmpfv : string) (flags : Z)
    (gbb : string) : M unit :=
  fun w =>
    match files w !! gbb, files w !! bmpfv with
    | Some image, Some bmp =>
        match gbb_set more image hwid keydir bmp flags with
        | inr image' => WriteFile gbb image' w
        | inl e => (w, inl e)
        end
    | _, _ => (w, inl (CmdError "gbb_utility"))
    end.

Definition _CreateGoogleBinaryBlock (hardware_id : option string)
    : M string :=
  hardware_id <- match hardware_id with
                 | None | Some EmptyString =>
                     GetString_required (fdt self) "/config" "hwid"
                 | Some h => ret h
                 end ;;
  gbb_size <- GetFlashPartSize (fdt self) "ro" "gbb" ;;
  let odir := outdir ext in
  gbb_flags <- DecodeGBBFlagsFromFdt ;;
  gbb_flags <- DecodeGBBFlagsFromOptions gbb_flags (_gbb_flags opts) ;;
  emit (Notice ("GBB flags value " +:+ Py.fmt_hx gbb_flags)) ;;;
  emit (Progress "Creating GBB") ;;;
  let sizes := [0x100; 0x1000; gbb_size - 0x2180; 0x1000] in
  let sizes := map Py.fmt_hx sizes in
  let gbb := "gbb.bin" in
  let keydir := Filename ext (_keydir opts) in
  Run_gbb_create (join_comma sizes) (Py.path_join odir gbb) ;;;
  Run_gbb_set hardware_id keydir (Filename ext (bmpblk_fname opts)) gbb_flags
    (Py.path_join odir gbb) ;;;
  ret (Py.path_join odir gbb).

End Flags.

(** No bit above the eight of the flag table. *)
Definition in_flag_mask (v : Z) : Prop := 0 <= v <= 0xff.

(** Whether a property name asks for bit [i] of the GBB flags. *)
Definition asks_for_bit (i : Z) (name : string) : bool :=
  Py.starts_with "gbb-flag-" name
  && Z.testbit (flag_value (str_from 9 name)) i.

Definition invalid_fdt_flag (name : string) : exn :=
  ValueError ("FDT contains invalid GBB flags '" +:+ name +:+ "'").

(** Collaborators for the examples. *)
Definition more0 : MoreExternals := {|
  dtb_get_props := fun _ node =>
    if String.eqb node "/chromeos-config"
    then ["gbb-flag-force-dev-boot-usb"; "textbase";
          "gbb-flag-dev-screen-short-delay"]
    else [];
  dtb_put_string := fun blob _ _ _ => blob;
  dtb_flash_part_size := fun _ _ _ => inr 0x20000;
  gbb_create := fun _ => inr (zeros 4);
  gbb_set := fun image _ _ _ flags => inr (image ++ Py.le_bytes 4 flags)
|}.

(** A property name that is no flag request, or requests a flag of the
    table. *)
Definition valid_fdt_prop (name : string) : Prop :=
  Py.starts_with "gbb-flag-" name = true ->
  is_known (str_from 9 name) = true.

(** Collaborators whose device tree asks for a flag that does not exist. *)
Definition more_bad_flag : MoreExternals := {|
  dtb_get_props := fun _ _ =>
    ["gbb-flag-load-option-roms"; "textbase"; "gbb-flag-no-such-flag";
     "gbb-flag-force-dev-boot-usb"];
  dtb_put_string := dtb_put_string more0;
  dtb_flash_part_size := dtb_flash_part_size more0;
  gbb_create := gbb_create more0;
  gbb_set := gbb_set more0
|}.

(** Whether a token list has a bare name. *)
Definition has_bare (toks : list gbb_tok) : bool :=
  existsb (fun t => match fst t with Bare => true | _ => false end) toks.

Definition gbb_bin (ext : Externals) : string :=
  Py.path_join (outdir ext) "gbb.bin".

Definition opts0 : Options := {|
  _keydir := "keys";
  bmpblk_fname := "bmpblk.bin";
  _small := false;
  _gbb_flags := Some "c2";
  _force_rw := false
|}.

Definition world_gbb : world :=
  World (<["bmpblk.bin" := zeros 6]> (files world_boot)) [].

(** An image whose marker is the last word of the first window; the word
    after it is 0x10c000, the word at 0x4000 is 0x5000. *)
Definition last_word_image : bytes :=
  zeros 156 ++ Py.le_bytes 4 0x12345678 ++ Py.le_bytes 4 0x10c000
  ++ zeros (Z.to_nat 0x4000 - 164) ++ Py.le_bytes 4 0x5000 ++ zeros 156.

(** The text base a device tree blob declares, as [CalcTextBase] reads it:
    0 when there is none, and brought back to 32 bits unsigned. *)
Definition declared_text_base (ext : Externals) (blob : bytes) : Z :=
  Z.land (match dtb_get_int ext blob "/chromeos-config" "textbase" with
          | Some v => v
          | None => 0
          end) 0xffffffff.

(** Collaborators whose device tree stores the text base 0x80108000 as a
    negative number. *)
Definition ext_signed : Externals := {|
  outdir := outdir ext0;
  Filename := Filename ext0;
  size_report := size_report ext0;
  bct_dump := bct_dump ext0;
  cbootimage := cbootimage ext0;
  dtb_get_int := fun _ _ _ => Some (-0x7fef8000);
  dtb_get_string := dtb_get_string ext0;
  dtb_put_integer := dtb_put_integer ext0
|}.

Definition world_no_marker : world :=
  World (<["u-boot.bin" := zeros (Z.to_nat 0x40a0)]>
         (<["updated.dtb" := zeros 8]> ∅)) [].

Definition bad_version (version : Z) : exn :=
  CmdError ("Cannot update machine parameter block version '"
            +:+ Py.fmt_d version +:+ "'").

(** Parameter blocks with a version of 2, and with a size that is too
    large. *)
Definition bl2_version_2 : bytes :=
  zeros 4 ++ bl2_marker ++ Py.le_bytes 4 2 ++ Py.le_bytes 4 24 ++ block_tail.

Definition bl2_size_100 : bytes :=
  zeros 4 ++ bl2_marker ++ Py.le_bytes 4 1 ++ Py.le_bytes 4 100 ++ block_tail.

(** The parameter codes [_UpdateBl2Parameters] has a value for. *)
Definition known_param (param : byte) : bool :=
  existsb (Byte.eqb param)
    ["m"%byte; "M"%byte; "f"%byte; "v"%byte; "u"%byte; "b"%byte].

Definition unknown_param_events (param : byte) (value : Z) : list event :=
  [Warning ("Unknown machine parameter type '" +:+ char_str param +:+ "'");
   Info ("  Unknown value: " +:+ Py.fmt_hx value)].

(** A parameter block whose only parameter, [x], is not known; its value
    is 0x01020304. *)
Definition bl2_param_x : bytes :=
  zeros 4 ++ bl2_marker ++ Py.le_bytes 4 1 ++ Py.le_bytes 4 24
  ++ ["x"%byte; "000"%byte; "000"%byte; "000"%byte]
  ++ Py.le_bytes 4 0x01020304 ++ zeros 4.

(** Every name [_CreateBootStub] writes. *)
Definition bootstub_outputs (ext : Externals) : string -> Prop :=
  fun q => q = signed_postload_name ext \/ scratch ext q.

Definition boot_cfg_name (ext : Externals) : string :=
  Py.path_join (outdir ext) "boot.cfg".

Definition signed_name (ext : Externals) : string :=
  Py.path_join (outdir ext) "signed.bin".

(** Collaborators whose BCT is for a NAND device. *)
Definition ext_nand : Externals := {|
  outdir := outdir ext0;
  Filename := Filename ext0;
  size_report := size_report ext0;
  bct_dump := fun _ => inr "DevType = NvBootDevType_Nand;";
  cbootimage := fun cfg bct bootstub =>
    inr (bct ++ bootstub ++ String.list_byte_of_string cfg);
  dtb_get_int := dtb_get_int ext0;
  dtb_get_string := dtb_get_string ext0;
  dtb_put_integer := dtb_put_integer ext0
|}.

Definition world_to_sign : world :=
  World (<["board.bct" := zeros 16]> (<["stub.bin" := zeros 12]> ∅)) [].

Definition bootstub_name (ext : Externals) : string :=
  Py.path_join (outdir ext) "u-boot-fdt.bin".

(** The device tree of the boot stub: the blob with the mark that says
    there is no post-load offset. *)
Definition bootstub_dtb (ext : Externals) (blob : bytes) : bytes :=
  dtb_put_integer ext blob "/config" "postload-text-offset" 0xffffffff.

(** ** More of the module: enabling nodes *)

(** A value of an option list: an integer or a string. *)
Inductive pyval : Type :=
| VInt (z : Z)
| VStr (s : string).

(** Value of a decimal digit. *)
Definition dec_digit (c : ascii) : option Z :=
  let n := Py.code c in
  if (48 <=? n) && (n <=? 57) then Some (n - 48) else None.

Fixpoint scan_dec (acc : Z) (s : string) : Z * string :=
  match s with
  | String c r =>
      match dec_digit c with
      | Some d => scan_dec (10 * acc + d) r
      | None => (acc, s)
      end
  | EmptyString => (acc, EmptyString)
  end.

(** The digits of [int(s)], the sign read: decimal digits, at least one,
    and nothing but white space after. *)
Definition unsigned10 (s : string) : option Z :=
  match s with
  | String c _ =>
      match dec_digit c with
      | Some _ =>
          let '(v, rest) := scan_dec 0 s in
          if Py.all_space rest then Some v else None
      | None => None
      end
  | EmptyString => None
  end.

(** [int(s)] on text: surrounding white space, an optional sign, white
    space again (the C reader of the digits skips it once more), then the
    digits.  [None] stands for the [ValueError]. *)
Definition int10 (s : string) : option Z :=
  match Py.lstrip s with
  | String c r =>
      if Py.code c =? 43 then unsigned10 (Py.lstrip r)
      else if Py.code c =? 45
           then option_map Z.opp (unsigned10 (Py.lstrip r))
      else unsigned10 (String c r)
  | EmptyString => None
  end.

(** ['%s' % v]. *)
Definition fmt_s (v : pyval) : string :=
  match v with
  | VInt z => Py.fmt_d z
  | VStr s => s
  end.

Definition bad_enable (v : pyval) : exn :=
  CmdError ("Invalid enable option value '" +:+ fmt_s v
            +:+ "' (should be 0 or 1)").

Section Nodes.

Variable ext : Externals.
Variable more : MoreExternals.
Variable self : Bundle.

Definition SetNodeEnabled (node_name : string) (enabled : Z) : M unit :=
  lookup <- (if negb (Py.starts_with "/" node_name) then
               lookup <- GetString ext (fdt self) "/aliases" node_name "" ;;
               if String.eqb lookup "" then
                 emit (Warning ("Cannot find alias '" +:+ node_name
                                +:+ "' - ignoring")) ;;;
                 ret None
               else ret (Some lookup)
             else ret (Some node_name)) ;;
  match lookup with
  | None => ret tt
  | Some node_name =>
      let status := if negb (enabled =? 0) then "okay" else "disabled" in
      PutString more (fdt self) node_name "status" status
  end.

(** The [try] of the loop of [AddEnableList]: the value as 0 or 1, or the
    [CmdError] made from the [ValueError]. *)
Definition enable_value (enabled : pyval) : exn + Z :=
  match (match enabled with
         | VInt z => Some z
         | VStr s => int10 s
         end) with
  | None => inl (bad_enable enabled)
  | Some z =>
      if negb ((z =? 0) || (z =? 1)) then inl (bad_enable (VInt z))
      else inr z
  end.

Definition enable_entry (entry : string * pyval) (_ : unit) : M unit :=
  let '(node_name, enabled) := entry in
  enabled <- lift (enable_value enabled) ;;
  SetNodeEnabled node_name enabled.

Definition AddEnableList (enable_list : list (string * pyval)) : M unit :=
  foreach enable_list enable_entry tt.

End Nodes.

(** Whether a value of an enable list reads as 0 or 1. *)
Definition is_enable_flag (v : pyval) : bool :=
  match (match v with VInt z => Some z | VStr s => int10 s end) with
  | Some z => (z =? 0) || (z =? 1)
  | None => false
  end.

Definition alias_warning (node_name : string) : event :=
  Warning ("Cannot find alias '" +:+ node_name +:+ "' - ignoring").

(** Collaborators for the examples: the device tree has no alias; a
    string written to it is appended to the blob. *)
Definition more_writes : MoreExternals := {|
  dtb_get_props := dtb_get_props more0;
  dtb_put_string := fun blob node prop value =>
    blob ++ String.list_byte_of_string (node +:+ ":" +:+ value +:+ ";");
  dtb_flash_part_size := dtb_flash_part_size more0;
  gbb_create := gbb_create more0;
  gbb_set := gbb_set more0
|}.

(** ** More of the module: the read-only EC image *)

(** [re.sub(pat, rep, data)] for a pattern with no special character:
    every match met from left to right is replaced, and the search goes on
    after it.  [skip] counts the bytes of the last match still ahead. *)
Fixpoint re_sub_from (skip : nat) (pat rep data : bytes) : bytes :=
  match data with
  | [] => []
  | b :: r =>
      match skip with
      | S k => re_sub_from k pat rep r
      | O =>
          if Py.is_prefix pat data
          then rep ++ re_sub_from (length pat - 1) pat rep r
          else b :: re_sub_from 0 pat rep r
      end
  end.

Definition fmap_name : bytes :=
  ["_"; "_"; "F"; "M"; "A"; "P"; "_"; "_"]%byte.

Definition fmap_mangled : bytes :=
  ["_"; "_"; "f"; "M"; "A"; "P"; "_"; "_"]%byte.

(** [re.sub('__FMAP__', '__fMAP__', data)]. *)
Definition mangle_fmap (data : bytes) : bytes :=
  re_sub_from 0 fmap_name fmap_mangled data.

Definition updated_ecro (ext : Externals) : string :=
  Py.path_join (outdir ext) "updated-ecro.bin".

(** The branch of [_BuildBlob] for the blob type [ecro], up to the
    property it adds: the name of the mangled copy. *)
Definition build_ecro (ext : Externals) (ecro_fname : string) : M string :=
  data <- ReadFile ecro_fname ;;
  let data := mangle_fmap data in
  WriteFile (updated_ecro ext) data ;;;
  ret (updated_ecro ext).

(** A byte kept, or a capital F turned into a small one. *)
Definition kept_or_lowered (a b : byte) : Prop :=
  b = a \/ (a = "F"%byte /\ b = "f"%byte).

Definition world_ec : world :=
  World (<["ec.RO.bin" := zeros 3 ++ fmap_name ++ zeros 2]> ∅) [].

(** ** More of the module: the file names and their defaults *)

(** What [os.path] and [re] give to [CheckOptions]. *)
Module OsPath.

(** [s.rfind(c)] for a character, as an offset from [i]; -1 if absent. *)
Fixpoint rfind_from (c : ascii) (s : string) (i : Z) : Z :=
  match s with
  | EmptyString => -1
  | String a r =>
      let later := rfind_from c r (i + 1) in
      if 0 <=? later then later
      else if Ascii.eqb a c then i else -1
  end.

Definition rfind (s : string) (c : ascii) : Z := rfind_from c s 0.

(** [s[:n]] on text. *)
Fixpoint str_to (n : nat) (s : string) : string :=
  match n, s with
  | S n', String a r => String a (str_to n' r)
  | _, _ => EmptyString
  end.

(** The [while] of [splitext]: whether one of the [count] characters from
    [i] on is no dot. *)
Fixpoint has_stem (p : string) (i count : nat) : bool :=
  match count with
  | O => false
  | S k =>
      match String.get i p with
      | Some c => if negb (Ascii.eqb c ".") then true else has_stem p (S i) k
      | None => false
      end
  end.

(** [os.path.splitext(p)]: the extension starts at the last dot, when that
    dot is in the last component and after a character that is no dot. *)
Definition splitext (p : string) : string * string :=
  let sepIndex := rfind p "/" in
  let dotIndex := rfind p "." in
  if (sepIndex <? dotIndex)
     && has_stem p (Z.to_nat (sepIndex + 1))
          (Z.to_nat (dotIndex - (sepIndex + 1)))
  then (str_to (Z.to_nat dotIndex) p, str_from (Z.to_nat dotIndex) p)
  else (p, EmptyString).

Fixpoint all_slashes (s : string) : bool :=
  match s with
  | EmptyString => true
  | String a r => Ascii.eqb a "/" && all_slashes r
  end.

(** [s.rstrip('/')]. *)
Fixpoint rstrip_slashes (s : string) : string :=
  match s with
  | EmptyString => EmptyString
  | String a r => if all_slashes s then EmptyString
                  else String a (rstrip_slashes r)
  end.

(** [os.path.dirname(p)]. *)
Definition dirname (p : string) : string :=
  let i := rfind p "/" + 1 in
  let head := str_to (Z.to_nat i) p in
  if negb (String.eqb head "") && negb (all_slashes head)
  then rstrip_slashes head else head.

(** [re.sub('_', '-', s)]. *)
Fixpoint dashes (s : string) : string :=
  match s with
  | EmptyString => EmptyString
  | String a r => String (if Ascii.eqb a "_" then "-"%char else a) (dashes r)
  end.

End OsPath.

Module Names.

(** The file names of a [Bundle] object; [None] is a name not set. *)
Record t : Type := {
  _board : option string;
  _fdt_fname : option string;
  uboot_fname : option string;
  bct_fname : option string;
  bmpblk_fname : option string;
  exynos_bl1 : option string;
  exynos_bl2 : option string;
  coreboot_fname : option string;
  skeleton_fname : option string;
  seabios_fname : option string;
  ecrw_fname : option string;
  ecro_fname : option string
}.

(** The truth value of a name. *)
Definition is_set (name : option string) : bool :=
  match name with
  | Some (String _ _) => true
  | _ => false
  end.

(** [if not name: name = default]. *)
Definition or_default (name : option string) (default : string)
    : option string :=
  if is_set name then name else Some default.

Definition text (name : option string) : string :=
  match name with Some s => s | None => EmptyString end.

Section CheckOptions.

(** [glob.glob] on the translated pattern: the files that match. *)
Variable glob : string -> list string.
Variable ext : Externals.

Definition build_root (board : string) : string :=
  Py.path_join (Py.path_join (Py.path_join "##" "build") board) "firmware".

Definition dts_dir (board : string) : string :=
  Py.path_join (build_root board) "dts".

Definition CheckOptions (self : t) : exn + t :=
  if negb (is_set (_board self)) then
    inl (ValueError "No board defined - please define a board to use")
  else
    let board := text (_board self) in
    let build_root := build_root board in
    let dir_name := dts_dir board in
    let fdt_fname :=
      if negb (is_set (_fdt_fname self)) then
        let base_name := OsPath.dashes board in
        let wildcard :=
          Py.path_join dir_name ("*" +:+ base_name +:+ "*.dts") in
        let found_list := glob (Filename ext wildcard) in
        match found_list with
        | [found] => found
        | _ => Py.path_join dir_name (base_name +:+ ".dts")
        end
      else text (_fdt_fname self) in
    let '(root, ext') := OsPath.splitext fdt_fname in
    let fdt_fname :=
      if String.eqb ext' "" && String.eqb (OsPath.dirname root) ""
      then Py.path_join dir_name (root +:+ ".dts")
      else fdt_fname in
    inr {|
      _board := _board self;
      _fdt_fname := Some fdt_fname;
      uboot_fname :=
        or_default (uboot_fname self) (Py.path_join build_root "u-boot.bin");
      bct_fname :=
        or_default (bct_fname self)
          (Py.path_join (Py.path_join build_root "bct") "board.bct");
      bmpblk_fname :=
        or_default (bmpblk_fname self) (Py.path_join build_root "bmpblk.bin");
      exynos_bl1 :=
        or_default (exynos_bl1 self)
          (Py.path_join build_root "E5250.nbl1.bin");
      exynos_bl2 :=
        or_default (exynos_bl2 self)
          (Py.path_join build_root "smdk5250-spl.bin");
      coreboot_fname :=
        or_default (coreboot_fname self)
          (Py.path_join build_root "coreboot.rom");
      skeleton_fname :=
        or_default (skeleton_fname self)
          (Py.path_join build_root "coreboot.rom");
      seabios_fname := or_default (seabios_fname self) "seabios.cbfs";
      ecrw_fname :=
        or_default (ecrw_fname self) (Py.path_join build_root "ec.RW.bin");
      ecro_fname :=
        or_default (ecro_fname self) (Py.path_join build_root "ec.RO.bin")
    |}.

End CheckOptions.

End Names.

(** The names [CheckOptions] gives a default to, the device tree's
    apart. *)
Definition defaulted_names (s : Names.t) : list (option string) :=
  [Names.uboot_fname s; Names.bct_fname s; Names.bmpblk_fname s;
   Names.exynos_bl1 s; Names.exynos_bl2 s; Names.coreboot_fname s;
   Names.skeleton_fname s; Names.seabios_fname s; Names.ecrw_fname s;
   Names.ecro_fname s].

Definition kept_if_set (before after : option string) : Prop :=
  Names.is_set after = true
  /\ (Names.is_set before = true -> after = before).

Definition names_daisy : Names.t := {|
  Names._board := Some "daisy";
  Names._fdt_fname := Some "exynos5250-daisy";
  Names.uboot_fname := None;
  Names.bct_fname := Some "my.bct";
  Names.bmpblk_fname := None;
  Names.exynos_bl1 := None;
  Names.exynos_bl2 := Some "";
  Names.coreboot_fname := None;
  Names.skeleton_fname := None;
  Names.seabios_fname := None;
  Names.ecrw_fname := None;
  Names.ecro_fname := None
|}.

Definition no_glob : string -> list string := fun _ => [].

(** ** The names and buffers of the second signing *)

Definition bootstub_dtb_name (ext : Externals) : string :=
  Py.path_join (outdir ext) "bootstub.dtb".

Definition bootstub_postload_name (ext : Externals) : string :=
  Py.path_join (outdir ext) "u-boot-fdt-postload.bin".

Definition postload_stub_name (ext : Externals) : string :=
  Py.path_join (outdir ext) "postload.bin".

(** The device tree of the boot stub that is signed again: the offset of
    the payload stored over the mark. *)
Definition postload_dtb (ext : Externals) (blob : bytes) (offset : Z)
    : bytes :=
  dtb_put_integer ext (bootstub_dtb ext blob) "/config" "postload-text-offset"
    offset.

(** The configuration [_SignBootstub] writes for a boot stub, given what
    [bct_dump] printed. *)
Definition sign_cfg (bct dump bootstub : string) (text_base : Z) : string :=
  boot_cfg bct (Py.contains "NvBootDevType_Nand" dump) bootstub text_base.

(** * Properties *)

(** Case analysis on the integer comparisons of the goal and of the
    hypotheses, then linear arithmetic on what they give. *)
Ltac decide_cmp c :=
  lazymatch c with
  | Z.leb ?a ?b => destruct (Z.leb_spec a b)
  | Z.ltb ?a ?b => destruct (Z.ltb_spec a b)
  | Z.eqb ?a ?b => destruct (Z.eqb_spec a b)
  end.

Ltac find_cmp :=
  match goal with
  | |- context [?c] =>
      lazymatch type of c with bool => decide_cmp c end
  | H : context [?c] |- _ =>
      lazymatch type of c with bool => decide_cmp c end
  end.

Ltac tests := repeat find_cmp; simpl in *; try congruence; try lia.

Ltac run := unfold bind, ret, raise, lift, emit; simpl.

(** ** Google Binary Block flags *)

Example gbb_hex_c2 :
  result (DecodeGBBFlagsFromOptions 0x39 (Some "c2")) w0 = inr 0xc2.
Proof. reflexivity. Qed.

Example gbb_adjust :
  result (DecodeGBBFlagsFromOptions 0x3
            (Some "-load-option-roms,+force-dev-boot-usb")) w0 = inr 0x11.
Proof. reflexivity. Qed.

Example gbb_defined :
  result (DecodeGBBFlagsFromOptions 0x3
            (Some "force-dev-boot-usb,load-option-roms")) w0 = inr 0x12.
Proof. reflexivity. Qed.

Lemma hex_char_plain c :
  is_hex_char c = true ->
  Py.is_space c = false /\ (Py.code c =? 43) = false
  /\ (Py.code c =? 45) = false /\ (Py.code c =? 120) = false
  /\ (Py.code c =? 88) = false.
Proof.
  unfold is_hex_char, Py.hex_digit, Py.is_space.
  generalize (Py.code c) as n. intros n H. repeat split; tests.
Qed.

Lemma scan_hex_all s : forall acc,
  all_hex s = true ->
  Py.scan_hex acc s
  = (acc * 16 ^ Z.of_nat (String.length s) + hex_value s, EmptyString).
Proof.
  induction s as [|c r IH]; intros acc H; simpl in *.
  - f_equal. lia.
  - apply andb_prop in H as [Hc Hr]. unfold is_hex_char in Hc.
    unfold digit_value. destruct (Py.hex_digit c) as [d|]; [|discriminate].
    rewrite IH by assumption. f_equal.
    change (String.length (String c r)) with (S (String.length r)).
    rewrite Nat2Z.inj_succ, Z.pow_succ_r by lia. ring.
Qed.

Lemma unsigned16_hex s :
  is_hex_bitmask s = true -> Py.unsigned16 s = Some (hex_value s).
Proof.
  destruct s as [|c r]; [discriminate|]. intros H. simpl in H.
  pose proof H as Hall. apply andb_prop in H as [Hc Hr].
  assert (Hskip : Py.skip_0x (String c r) = String c r).
  { destruct r as [|c1 r1]; [reflexivity|]. simpl in Hr.
    apply andb_prop in Hr as [Hc1 _].
    destruct (hex_char_plain c1 Hc1) as (_ & _ & _ & Hx & HX).
    unfold Py.skip_0x. rewrite Hx, HX. simpl. rewrite andb_false_r.
    reflexivity. }
  unfold Py.unsigned16. rewrite Hskip.
  unfold Py.starts_with_hex. unfold is_hex_char in Hc.
  destruct (Py.hex_digit c) eqn:E; [|discriminate].
  rewrite (scan_hex_all (String c r) 0) by exact Hall. reflexivity.
Qed.

Lemma int16_hex s :
  is_hex_bitmask s = true -> Py.int16 s = Some (hex_value s).
Proof.
  intros H. pose proof (unsigned16_hex s H) as Hu.
  destruct s as [|c r]; [discriminate|]. simpl in H.
  apply andb_prop in H as [Hc _].
  destruct (hex_char_plain c Hc) as (Hsp & Hp & Hm & _).
  unfold Py.int16. simpl Py.lstrip. rewrite Hsp, Hp, Hm. exact Hu.
Qed.

(** C2: a raw hexadecimal bitmask overrides the base flags whatever they
    are: the decode returns the number the digits denote, and writes no
    message. *)
Theorem gbb_hex_overrides_base (B : Z) (s : string) (w : world) :
  is_hex_bitmask s = true ->
  DecodeGBBFlagsFromOptions B (Some s) w = (w, inr (hex_value s)).
Proof.
  intros H. unfold DecodeGBBFlagsFromOptions.
  destruct s as [|c r]; [discriminate|].
  rewrite (int16_hex _ H). reflexivity.
Qed.

Lemma gbb_hex_overrides_base_witness :
  is_hex_bitmask "c2" = true
  /\ DecodeGBBFlagsFromOptions 0x39 (Some "c2") w0 = (w0, inr 0xc2).
Proof.
  split; [reflexivity|].
  exact (gbb_hex_overrides_base 0x39 "c2" w0 eq_refl).
Defined.

(** White space may follow the sign, not the [0x]. *)
Example int16_space_after_sign :
  Py.int16 "- 12" = Some (-18) /\ Py.int16 " + 0x1f " = Some 31
  /\ Py.int16 "0x 1f" = None /\ Py.int16 "+-12" = None.
Proof. repeat split. Qed.

Example int10_space_after_sign :
  int10 "+ 1" = Some 1 /\ int10 "- 0" = Some 0 /\ int10 "1 0" = None
  /\ is_enable_flag (VStr "+ 1") = true.
Proof. repeat split. Qed.

(** White space is no hexadecimal digit: nothing is stripped from digits. *)
Lemma lstrip_hex h : is_hex_bitmask h = true -> Py.lstrip h = h.
Proof.
  destruct h as [|c r]; [reflexivity|]. intros H. simpl in H.
  apply andb_prop in H as [Hc _].
  destruct (hex_char_plain c Hc) as (Hsp & _).
  cbn [Py.lstrip]. rewrite Hsp. reflexivity.
Qed.

Lemma int16_signed_hex h :
  is_hex_bitmask h = true ->
  Py.int16 (String "+" h) = Some (hex_value h)
  /\ Py.int16 (String "-" h) = Some (- hex_value h).
Proof.
  intros H. pose proof (unsigned16_hex h H) as Hu. unfold Py.int16.
  change (Py.lstrip (String "+" h)) with (String "+" h).
  change (Py.lstrip (String "-" h)) with (String "-" h).
  change (Py.code "+" =? 43) with true.
  change (Py.code "-" =? 43) with false.
  change (Py.code "-" =? 45) with true.
  cbv iota. rewrite (lstrip_hex h H), Hu. split; reflexivity.
Qed.

Lemma hex_value_nonneg s : 0 <= hex_value s.
Proof.
  induction s as [|c r IH]; simpl; [lia|].
  assert (0 <= digit_value c).
  { unfold digit_value, Py.hex_digit. generalize (Py.code c). intros n. tests. }
  assert (0 <= 16 ^ Z.of_nat (String.length r)) by (apply Z.pow_nonneg; lia).
  nia.
Qed.

(** C10: a sign followed by hexadecimal digits is read as a signed
    hexadecimal number, not as a [+name] or [-name] token: with [+] the
    decode returns the number whatever the base is, with [-] it returns the
    opposite number, which is not a bit mask. *)
Theorem gbb_signed_hex_is_an_override (B : Z) (h : string) (w : world) :
  is_hex_bitmask h = true ->
  DecodeGBBFlagsFromOptions B (Some (String "+" h)) w = (w, inr (hex_value h))
  /\ DecodeGBBFlagsFromOptions B (Some (String "-" h)) w
     = (w, inr (- hex_value h))
  /\ - hex_value h <= 0.
Proof.
  intros H. destruct (int16_signed_hex h H) as [Hp Hm].
  unfold DecodeGBBFlagsFromOptions. rewrite Hp, Hm.
  repeat split. pose proof (hex_value_nonneg h). lia.
Qed.

Lemma gbb_signed_hex_is_an_override_witness :
  DecodeGBBFlagsFromOptions 0x39 (Some "+c2") w0 = (w0, inr 0xc2)
  /\ DecodeGBBFlagsFromOptions 0x39 (Some "-12") w0 = (w0, inr (-0x12)).
Proof.
  split.
  - exact (proj1 (gbb_signed_hex_is_an_override 0x39 "c2" w0 eq_refl)).
  - exact (proj1 (proj2 (gbb_signed_hex_is_an_override 0x39 "12" w0 eq_refl))).
Defined.

(** *** Token lists *)

Lemma has_code_app n a b :
  has_code n (a +:+ b) = has_code n a || has_code n b.
Proof.
  induction a as [|c r IH]; simpl; [reflexivity|].
  rewrite IH. apply orb_assoc.
Qed.

Lemma all_space_no_o s : Py.all_space s = true -> has_code 111 s = false.
Proof.
  induction s as [|c r IH]; simpl; [reflexivity|]. intros H.
  apply andb_prop in H as [Hc Hr]. rewrite (IH Hr).
  unfold Py.is_space in Hc. revert Hc. generalize (Py.code c). intros n Hc.
  tests.
Qed.

Lemma scan_hex_no_o s : forall acc v rest,
  Py.scan_hex acc s = (v, rest) -> Py.all_space rest = true ->
  has_code 111 s = false.
Proof.
  induction s as [|c r IH]; intros acc v rest H Hs; simpl in *;
    [reflexivity|].
  destruct (Py.hex_digit c) as [d|] eqn:E.
  - rewrite (IH _ _ _ H Hs). unfold Py.hex_digit in E. revert E.
    generalize (Py.code c). intros n E. tests.
  - inversion H; subst. exact (all_space_no_o (String c r) Hs).
Qed.

Lemma skip_0x_no_o s :
  has_code 111 (Py.skip_0x s) = false -> has_code 111 s = false.
Proof.
  destruct s as [|c0 [|c1 r]]; try (intros H; exact H).
  unfold Py.skip_0x.
  destruct ((Py.code c0 =? 48) && ((Py.code c1 =? 120) || (Py.code c1 =? 88))
            && Py.starts_with_hex r) eqn:E; [|intros H; exact H].
  intros H. simpl. rewrite H.
  apply andb_prop in E as [E _]. apply andb_prop in E as [E0 E1].
  revert E0 E1. generalize (Py.code c0) (Py.code c1). intros n0 n1 E0 E1.
  tests.
Qed.

Lemma unsigned16_no_o s v : Py.unsigned16 s = Some v -> has_code 111 s = false.
Proof.
  unfold Py.unsigned16. intros H. apply skip_0x_no_o.
  destruct (Py.starts_with_hex (Py.skip_0x s)); [|discriminate].
  destruct (Py.scan_hex 0 (Py.skip_0x s)) as [v' rest] eqn:E.
  destruct (Py.all_space rest) eqn:Hs; [|discriminate].
  exact (scan_hex_no_o _ _ _ _ E Hs).
Qed.

Lemma lstrip_no_o s :
  has_code 111 (Py.lstrip s) = false -> has_code 111 s = false.
Proof.
  induction s as [|c r IH]; simpl; [intros H; exact H|].
  destruct (Py.is_space c) eqn:E; [|intros H; exact H].
  intros H. rewrite (IH H). unfold Py.is_space in E. revert E.
  generalize (Py.code c). intros n E. tests.
Qed.

(** What [int(s, 16)] accepts holds no letter [o]. *)
Lemma int16_no_o s v : Py.int16 s = Some v -> has_code 111 s = false.
Proof.
  unfold Py.int16. intros H. apply lstrip_no_o.
  destruct (Py.lstrip s) as [|c r]; [discriminate|].
  destruct (Py.code c =? 43) eqn:Ep.
  { simpl. rewrite (lstrip_no_o _ (unsigned16_no_o _ _ H)). tests. }
  destruct (Py.code c =? 45) eqn:Em.
  { destruct (Py.unsigned16 (Py.lstrip r)) as [u|] eqn:Eu; [|discriminate].
    simpl. rewrite (lstrip_no_o _ (unsigned16_no_o _ _ Eu)). tests. }
  exact (unsigned16_no_o _ _ H).
Qed.

Lemma dict_get_in {V} (d : list (string * V)) k v :
  dict_get d k = Some v -> In (k, v) d.
Proof.
  induction d as [|[k' v'] d IH]; simpl; [discriminate|].
  destruct (String.eqb_spec k' k) as [->|_].
  - intros [= ->]. left. reflexivity.
  - intros H. right. exact (IH H).
Qed.

Lemma known_names n :
  is_known n = true -> In n (map fst gbb_flag_properties).
Proof.
  unfold is_known. intros H.
  destruct (dict_get gbb_flag_properties n) as [v|] eqn:E; [|discriminate].
  apply dict_get_in in E. exact (in_map fst _ _ E).
Qed.

(** Every flag name of the table: no comma, a letter [o], no leading sign,
    and a value that is not zero. *)
Lemma known_shape n :
  is_known n = true ->
  has_code 44 n = false /\ has_code 111 n = true
  /\ split_oper n = inr (None, n)
  /\ dict_get gbb_flag_properties n = Some (flag_value n)
  /\ (flag_value n =? 0) = false.
Proof.
  intros H. apply known_names in H. simpl in H.
  repeat destruct H as [<-|H]; try contradiction;
    (repeat split; try reflexivity; discriminate).
Qed.

Lemma code_eqb c d : (Py.code c =? Py.code d) = Ascii.eqb c d.
Proof.
  destruct (Ascii.eqb_spec c d) as [->|Hne]; [apply Z.eqb_refl|].
  apply Z.eqb_neq. intros H. apply Hne. unfold Py.code in H.
  apply N2Z.inj in H.
  rewrite <- (ascii_N_embedding c), <- (ascii_N_embedding d), H. reflexivity.
Qed.

Lemma split_single t : has_code 44 t = false -> Py.split "," t = [t].
Proof.
  induction t as [|c r IH]; simpl; [reflexivity|]. intros H.
  apply orb_false_elim in H as [Hc Hr].
  change 44 with (Py.code ",") in Hc. rewrite code_eqb in Hc.
  rewrite Hc, (IH Hr). reflexivity.
Qed.

Lemma split_cons t rest :
  has_code 44 t = false ->
  Py.split "," (t +:+ "," +:+ rest) = t :: Py.split "," rest.
Proof.
  induction t as [|c r IH]; simpl; [reflexivity|]. intros H.
  apply orb_false_elim in H as [Hc Hr].
  change 44 with (Py.code ",") in Hc. rewrite code_eqb in Hc.
  rewrite Hc, (IH Hr). reflexivity.
Qed.

Lemma split_join ts :
  ts <> [] -> Forall (fun t => has_code 44 t = false) ts ->
  Py.split "," (join_comma ts) = ts.
Proof.
  induction ts as [|t [|t' r] IH]; intros Hne H; [contradiction| |].
  - inversion H; subst. simpl. apply split_single. assumption.
  - inversion H; subst.
    change (join_comma (t :: t' :: r))
      with (t +:+ "," +:+ join_comma (t' :: r)).
    rewrite split_cons by assumption. f_equal. apply IH; [discriminate|].
    assumption.
Qed.

Lemma render_shape t :
  is_known (snd t) = true ->
  has_code 44 (render t) = false /\ has_code 111 (render t) = true.
Proof.
  intros H. destruct (known_shape _ H) as (Hc & Ho & _).
  destruct t as [[| |] n]; unfold render; simpl in *; rewrite ?Hc, ?Ho;
    split; reflexivity.
Qed.

(** One known token through the loop body: the state the token denotes,
    and nothing written but messages. *)
Lemma gbb_token_known t st w :
  is_known (snd t) = true ->
  exists w', gbb_token (render t) st w = (w', inr (apply_token st t))
             /\ files w' = files w.
Proof.
  intros H. destruct (known_shape _ H) as (_ & _ & Hso & Hget & Hnz).
  destruct st as [g u]. destruct t as [op n]. simpl in *.
  unfold gbb_token, apply_token, render. simpl fst; simpl snd.
  destruct op.
  - change (split_oper (String "+" n)) with (inr (A:=exn) (Some "+"%char, n)).
    run. rewrite Hget, Hnz. run. eexists; split; reflexivity.
  - change (split_oper (String "-" n)) with (inr (A:=exn) (Some "-"%char, n)).
    run. rewrite Hget, Hnz. run. eexists; split; reflexivity.
  - rewrite Hso. run. rewrite Hget, Hnz. run.
    destruct u; run; eexists; split; reflexivity.
Qed.

Lemma foreach_known toks : forall st w,
  Forall (fun t => is_known (snd t) = true) toks ->
  exists w', foreach (map render toks) gbb_token st w
             = (w', inr (fold_left apply_token toks st))
             /\ files w' = files w.
Proof.
  induction toks as [|t r IH]; intros st w H; simpl.
  - exists w. split; reflexivity.
  - inversion H; subst.
    destruct (gbb_token_known t st w) as (w1 & E1 & F1); [assumption|].
    destruct (IH (apply_token st t) w1) as (w2 & E2 & F2); [assumption|].
    exists w2. unfold bind at 1. rewrite E1. split; [exact E2|congruence].
Qed.

(** C3: a comma-separated list of known flag tokens is applied left to
    right: [+name] sets the bit, [-name] clears it, and the first bare name
    drops what was there, the base included, before setting its bit; so
    [+a,-b,+c] on base [B] gives [((B | a) & ~b) | c]. *)
Theorem gbb_tokens_left_to_right (B : Z) (toks : list gbb_tok) (w : world) :
  toks <> [] ->
  Forall (fun t => is_known (snd t) = true) toks ->
  result (DecodeGBBFlagsFromOptions B (Some (join_comma (map render toks)))) w
  = inr (apply_tokens B toks)
  /\ forall a b c, toks = [(Plus, a); (Minus, b); (Plus, c)] ->
       apply_tokens B toks
       = Z.lor (Z.land (Z.lor B (flag_value a)) (Z.lnot (flag_value b)))
           (flag_value c).
Proof.
  intros Hne H. split; [|intros a b c ->; reflexivity].
  set (s := join_comma (map render toks)).
  assert (Ho : has_code 111 s = true).
  { subst s. destruct toks as [|t r]; [contradiction|].
    inversion H; subst. destruct (render_shape t) as [_ Ht]; [assumption|].
    destruct r as [|t' r']; [exact Ht|].
    change (join_comma (map render (t :: t' :: r')))
      with (render t +:+ "," +:+ join_comma (map render (t' :: r'))).
    rewrite has_code_app, Ht. reflexivity. }
  assert (Hint : Py.int16 s = None).
  { destruct (Py.int16 s) as [v|] eqn:E; [|reflexivity].
    apply int16_no_o in E. congruence. }
  assert (Hsplit : Py.split "," s = map render toks).
  { subst s. apply split_join.
    - destruct toks; [contradiction|discriminate].
    - apply Forall_map. eapply Forall_impl; [exact H|].
      intros t Ht. exact (proj1 (render_shape t Ht)). }
  unfold result, DecodeGBBFlagsFromOptions.
  destruct s as [|c r] eqn:Es; [discriminate|]. rewrite Hint, Hsplit.
  destruct (foreach_known toks (B, true) w H) as (w' & E & _).
  unfold bind. rewrite E. reflexivity.
Qed.

Lemma gbb_tokens_left_to_right_witness :
  result (DecodeGBBFlagsFromOptions 0x23
            (Some "+load-option-roms,-disable-fw-rollback-check,+force-dev-boot-usb"))
    w0
  = inr 0x13.
Proof.
  exact (proj1 (gbb_tokens_left_to_right 0x23
                  [(Plus, "load-option-roms");
                   (Minus, "disable-fw-rollback-check");
                   (Plus, "force-dev-boot-usb")] w0
                  ltac:(discriminate)
                  ltac:(repeat constructor))).
Defined.

(** *** Unknown flags *)

Lemma table_values_nonzero n v :
  dict_get gbb_flag_properties n = Some v -> (v =? 0) = false.
Proof.
  intros H. apply dict_get_in in H. simpl in H.
  repeat destruct H as [[= <- <-]|H]; try contradiction; reflexivity.
Qed.








(** The messages of the tokens before the unknown one are written all the
    same; only the flags value is withheld. *)
Example gbb_notice_before_error :
  DecodeGBBFlagsFromOptions 0x3 (Some "+force-dev-boot-usb,not-a-flag") w0
  = (World ∅ [Notice "Cmdline: Enabling force-dev-boot-usb."],
     inl (invalid_flag "not-a-flag")).
Proof. reflexivity. Qed.

(** ** TEXT_BASE *)

Lemma slice_word_length (data : bytes) i :
  0 <= i -> i + 4 <= Z.of_nat (length data) ->
  length (Py.slice data (Some i) (Some (i + 4))) = 4%nat.
Proof.
  intros H0 H1. unfold Py.slice, Py.bound.
  destruct (Z.ltb_spec i 0); [lia|]. destruct (Z.ltb_spec (i + 4) 0); [lia|].
  rewrite length_firstn, length_skipn. lia.
Qed.

Lemma unpack_word (data : bytes) i :
  0 <= i -> i + 4 <= Z.of_nat (length data) ->
  Py.unpack_I (Py.slice data (Some i) (Some (i + 4))) = inr (word_at data i).
Proof.
  intros H0 H1. unfold Py.unpack_I.
  rewrite (slice_word_length data i H0 H1). reflexivity.
Qed.

(** The inner loop once the marker is met: the next word, if the window has
    one left. *)
Lemma scan_window_found data start i n :
  0 <= i -> i + 4 * Z.of_nat n <= Z.of_nat (length data) ->
  scan_window data start (words_from i n) true
  = inr (match n with
         | O => inr true
         | S _ => inl (word_at data i - start)
         end).
Proof.
  intros H0 H1. destruct n as [|n]; [reflexivity|].
  simpl. rewrite unpack_word by lia. reflexivity.
Qed.

Lemma find_words_from_bound (P : Z -> bool) n : forall i j,
  List.find P (words_from i n) = Some j -> i <= j.
Proof.
  induction n as [|n IH]; intros i j; simpl; [discriminate|].
  destruct (P i); [intros [= ->]; lia|].
  intros H. apply IH in H. lia.
Qed.

(** The inner loop before the marker, no marker in the window: [found]
    stays false. *)
Lemma scan_window_none data start n : forall i,
  0 <= i -> i + 4 * Z.of_nat n <= Z.of_nat (length data) ->
  List.find (fun j => word_at data j =? text_base_marker) (words_from i n)
  = None ->
  scan_window data start (words_from i n) false = inr (inr false).
Proof.
  induction n as [|n IH]; intros i H0 H1; [reflexivity|].
  cbn [words_from scan_window List.find]. rewrite unpack_word by lia.
  fold text_base_marker.
  destruct (word_at data i =? text_base_marker); [discriminate|].
  intros H. apply IH; [lia|lia|exact H].
Qed.

(** The inner loop before the marker, the first marker at [j] and not in
    the last word: it returns the word after it, less [start]. *)
Lemma scan_window_some data start n : forall i j,
  0 <= i -> j + 8 <= Z.of_nat (length data) ->
  List.find (fun j => word_at data j =? text_base_marker) (words_from i n)
  = Some j ->
  j < i + 4 * (Z.of_nat n - 1) ->
  scan_window data start (words_from i n) false
  = inr (inl (word_at data (j + 4) - start)).
Proof.
  induction n as [|n IH]; intros i j H0 H1; [discriminate|].
  cbn [words_from List.find]. intros Hf Hlt.
  assert (Hij : i <= j).
  { destruct (word_at data i =? text_base_marker).
    - injection Hf as ->. lia.
    - apply find_words_from_bound in Hf. lia. }
  cbn [scan_window]. rewrite unpack_word by lia. fold text_base_marker.
  destruct (word_at data i =? text_base_marker).
  - injection Hf as ->. destruct n as [|n]; [lia|].
    cbn [words_from scan_window]. rewrite unpack_word by lia. reflexivity.
  - apply IH; [lia|lia|exact Hf|lia].
Qed.

Lemma window_0 : Py.range 0 (0 + 160) 4 = words_from 0 40.
Proof. reflexivity. Qed.

Lemma window_4000 : Py.range 0x4000 (0x4000 + 160) 4 = words_from 0x4000 40.
Proof. reflexivity. Qed.

(** Over a buffer that holds every word the scan reads, the decoder looks
    for the marker in the 40 words at 0, then in the 40 words at 0x4000; it
    returns the word after the first marker, less the start of the window
    the marker is in, when the marker is not the last word of its window,
    and [None] when neither window has the marker. *)
Lemma text_base_decoded_from_first_marker (data : bytes) :
  (forall i, marker_offset data 0 = Some i -> i < 156 ->
             i + 8 <= Z.of_nat (length data) ->
             DecodeTextBase data = inr (Some (word_at data (i + 4) - 0)))
  /\ (forall i, marker_offset data 0 = None ->
                marker_offset data 0x4000 = Some i -> i < 0x4000 + 156 ->
                i + 8 <= Z.of_nat (length data) ->
                DecodeTextBase data
                = inr (Some (word_at data (i + 4) - 0x4000)))
  /\ (marker_offset data 0 = None -> marker_offset data 0x4000 = None ->
      0x40a0 <= Z.of_nat (length data) ->
      DecodeTextBase data = inr None).
Proof.
  unfold DecodeTextBase, marker_offset. cbn [scan_starts].
  rewrite window_0, window_4000. repeat split.
  - intros i Hf Hlt Hlen.
    rewrite (scan_window_some data 0 40 0 i) by (assumption || lia).
    reflexivity.
  - intros i Hn Hf Hlt Hlen.
    pose proof (find_words_from_bound _ _ _ _ Hf) as Hge.
    rewrite (scan_window_none data 0 40 0) by (assumption || lia).
    rewrite (scan_window_some data 0x4000 40 0x4000 i) by (assumption || lia).
    reflexivity.
  - intros Hn0 Hn1 Hlen.
    rewrite (scan_window_none data 0 40 0) by (assumption || lia).
    rewrite (scan_window_none data 0x4000 40 0x4000) by (assumption || lia).
    reflexivity.
Qed.

(** A marker at 0x4000 followed by 0x10c000 gives 0x108000. *)
Example text_base_decoded_in_second_window :
  DecodeTextBase spl_image = inr (Some 0x108000).
Proof.
  refine (proj1 (proj2 (text_base_decoded_from_first_marker spl_image))
            0x4000 _ _ _ _).
  - vm_compute. reflexivity.
  - vm_compute. reflexivity.
  - reflexivity.
  - vm_compute. discriminate.
Qed.

(** A word cut short by the end of the buffer has no four bytes. *)
Lemma slice_word_short (data : bytes) (i : Z) :
  0 <= i -> Z.of_nat (length data) < i + 4 ->
  Z.of_nat (length (Py.slice data (Some i) (Some (i + 4)))) < 4.
Proof.
  intros H0 H1. unfold Py.slice, Py.bound.
  destruct (Z.ltb_spec i 0); [lia|]. destruct (Z.ltb_spec (i + 4) 0); [lia|].
  rewrite length_firstn, length_skipn. lia.
Qed.

(** The inner loop before the marker, over words the buffer does not hold
    to the end and with no marker among them: the first word cut short
    makes [struct.unpack] raise. *)
Lemma scan_window_short data start n : forall i,
  0 <= i -> Z.of_nat (length data) < i + 4 * Z.of_nat (S n) ->
  List.find (fun j => word_at data j =? text_base_marker)
    (words_from i (S n)) = None ->
  scan_window data start (words_from i (S n)) false = inl StructError.
Proof.
  induction n as [|n IH]; intros i H0 H1 Hf;
    cbn [words_from scan_window List.find] in *;
    destruct (Z.le_gt_cases (i + 4) (Z.of_nat (length data))) as [Hin|Hout].
  - lia.
  - unfold Py.unpack_I.
    pose proof (slice_word_short data i H0 ltac:(lia)) as Hs.
    destruct (Nat.eqb_spec
                (length (Py.slice data (Some i) (Some (i + 4)))) 4);
      [lia|reflexivity].
  - rewrite unpack_word by lia. fold text_base_marker.
    destruct (word_at data i =? text_base_marker); [discriminate|].
    apply IH; [lia|lia|exact Hf].
  - unfold Py.unpack_I.
    pose proof (slice_word_short data i H0 ltac:(lia)) as Hs.
    destruct (Nat.eqb_spec
                (length (Py.slice data (Some i) (Some (i + 4)))) 4);
      [lia|reflexivity].
Qed.

(** C5, the defect: on a buffer shorter than 0x40a0 bytes with no marker
    in either window the decoder does not return [None]: the first word
    cut short by the end of the buffer makes [struct.unpack] raise. *)
Theorem text_base_short_buffer_raises (data : bytes) :
  Z.of_nat (length data) < 0x40a0 ->
  marker_offset data 0 = None ->
  marker_offset data 0x4000 = None ->
  DecodeTextBase data = inl StructError.
Proof.
  unfold DecodeTextBase, marker_offset. cbn [scan_starts].
  rewrite window_0, window_4000. intros Hlen Hn0 Hn1.
  destruct (Z.le_gt_cases 160 (Z.of_nat (length data))) as [Hin|Hout].
  - rewrite (scan_window_none data 0 40 0) by (assumption || lia).
    rewrite (scan_window_short data 0x4000 39 0x4000) by (assumption || lia).
    reflexivity.
  - rewrite (scan_window_short data 0 39 0) by (assumption || lia).
    reflexivity.
Qed.

Lemma text_base_short_buffer_raises_witness :
  marker_offset (zeros 160) 0 = None
  /\ marker_offset (zeros 160) 0x4000 = None
  /\ DecodeTextBase (zeros 160) = inl StructError.
Proof.
  assert (H0 : marker_offset (zeros 160) 0 = None)
    by (vm_compute; reflexivity).
  assert (H1 : marker_offset (zeros 160) 0x4000 = None)
    by (vm_compute; reflexivity).
  split; [exact H0|]. split; [exact H1|].
  apply (text_base_short_buffer_raises (zeros 160)); [|exact H0|exact H1].
  vm_compute. reflexivity.
Defined.

(** A marker in the last word of the first window is carried into the
    second one: the word returned is the one at 0x4000, less 0x4000. *)
Example text_base_marker_in_last_word :
  let data := zeros 156 ++ Py.le_bytes 4 0x12345678
              ++ Py.le_bytes 4 0x10c000
              ++ zeros (Z.to_nat 0x4000 - 164) ++ Py.le_bytes 4 0x5000 in
  marker_offset data 0 = Some 156
  /\ word_at data 160 = 0x10c000
  /\ DecodeTextBase data = inr (Some 0x1000).
Proof. repeat split; vm_compute; reflexivity. Qed.

(** *** Reconciliation with the device tree *)

(** A decoded text base that is not zero and differs from the device
    tree's wins, and a warning says so. *)
Lemma CalcTextBase_decoded_wins ext name fdt uboot w data blob t :
  files w !! uboot = Some data ->
  files w !! fname fdt = Some blob ->
  DecodeTextBase data = inr (Some t) ->
  t <> 0 ->
  let fdt_text_base :=
    Z.land (match dtb_get_int ext blob "/chromeos-config" "textbase" with
            | Some v => v
            | None => 0
            end) 0xffffffff in
  t <> fdt_text_base ->
  exists info,
    CalcTextBase ext name fdt uboot w
    = (World (files w)
         (out w ++ [Info info]
          ++ [Warning (text_base_warning t name fdt_text_base)]),
       inr t).
Proof.
  intros Hu Hf Hd Ht fdt_text_base Hne. unfold CalcTextBase, GetInt, ReadFile.
  unfold bind at 1. rewrite Hu. unfold bind at 1. unfold bind at 1.
  rewrite Hf. unfold ret at 1. unfold bind at 1, lift. rewrite Hd.
  fold fdt_text_base. unfold truthy.
  destruct (Z.eqb_spec t 0) as [|_]; [contradiction|].
  destruct (Z.eqb_spec t fdt_text_base) as [|_]; [contradiction|].
  run. rewrite <- app_assoc. eexists. reflexivity.
Qed.

(** C6 at the failing input: the image gives a text base of 0, the device
    tree gives 0x108000; the device tree's value is returned and the only
    message is the information line, no warning. *)
Theorem CalcTextBase_keeps_fdt_against_decoded_zero :
  DecodeTextBase uboot_base_0 = inr (Some 0)
  /\ CalcTextBase ext0 "" dtb0 "u-boot.bin" world_base_0
     = (World (files world_base_0)
          [Info "TEXT_BASE: fdt says 0x108000, u-boot.bin says None"],
        inr 0x108000).
Proof. split; vm_compute; reflexivity. Qed.

(** ** The BL2 checksum *)

Lemma byte_sum_from (l : bytes) : forall acc,
  fold_left (fun checksum ch => checksum + Py.ord ch) l acc
  = acc + sum_of_bytes l.
Proof.
  induction l as [|b r IH]; intros acc; simpl; [lia|]. rewrite IH. lia.
Qed.

Lemma byte_sum_total (l : bytes) : byte_sum l = sum_of_bytes l.
Proof. unfold byte_sum. rewrite byte_sum_from. lia. Qed.

Lemma ord_chr z : Py.ord (Py.chr z) = z mod 256.
Proof.
  unfold Py.ord, Py.chr.
  assert (Hb : 0 <= z mod 256 < 256) by (apply Z.mod_pos_bound; lia).
  destruct (Byte.of_N (Z.to_N (z mod 256))) as [b|] eqn:E.
  - apply Byte.to_of_N in E. rewrite E. lia.
  - apply Byte.of_N_None_iff in E. lia.
Qed.

Lemma le_value_le_bytes n : forall v,
  Py.le_value (Py.le_bytes n v) = v mod 256 ^ Z.of_nat n.
Proof.
  induction n as [|n IH]; intros v.
  - simpl. rewrite Z.mod_1_r. reflexivity.
  - cbn [Py.le_bytes Py.le_value]. rewrite ord_chr, IH.
    rewrite Nat2Z.inj_succ, Z.pow_succ_r by lia.
    rewrite Z.rem_mul_r; [reflexivity|lia|].
    apply Z.pow_pos_nonneg; lia.
Qed.

Lemma length_le_bytes n : forall v, length (Py.le_bytes n v) = n.
Proof. induction n as [|n IH]; intros v; simpl; [|rewrite IH]; reflexivity. Qed.

Lemma mask32 z : Z.land z 0xffffffff = z mod 2 ^ 32.
Proof. change 0xffffffff with (Z.ones 32). apply Z.land_ones. lia. Qed.

Lemma pack_L_masked z :
  Py.pack_L (Z.land z 0xffffffff) = inr (Py.le_bytes 4 (z mod 2 ^ 32)).
Proof.
  rewrite mask32. unfold Py.pack_L.
  assert (0 <= z mod 2 ^ 32 < 2 ^ 32) by (apply Z.mod_pos_bound; lia).
  destruct (Z.leb_spec 0 (z mod 2 ^ 32)); [|lia].
  destruct (Z.ltb_spec (z mod 2 ^ 32) (2 ^ 32)); [|lia]. reflexivity.
Qed.

(** [data[:-4]] and [data[-4:]] of a body followed by four bytes. *)
Lemma slice_body (body tail : bytes) :
  length tail = 4%nat ->
  Py.slice (body ++ tail) None (Some (-4)) = body.
Proof.
  intros H. unfold Py.slice, Py.bound. rewrite length_app, H.
  change (-4 <? 0) with true. cbv iota.
  replace (Z.to_nat (Z.max 0 (Z.of_nat (length body + 4) + -4) - 0))
    with (length body) by lia.
  change (Z.to_nat 0) with 0%nat. cbn [skipn]. apply take_app_length.
Qed.

Lemma slice_tail (body tail : bytes) :
  length tail = 4%nat ->
  Py.slice (body ++ tail) (Some (-4)) None = tail.
Proof.
  intros H. unfold Py.slice, Py.bound. rewrite length_app, H.
  change (-4 <? 0) with true. cbv iota.
  replace (Z.to_nat (Z.max 0 (Z.of_nat (length body + 4) + -4)))
    with (length body) by lia.
  rewrite drop_app_length. apply firstn_all2. lia.
Qed.

(** The checksum update never raises, and what it returns is a body
    followed by the little-endian sum of the body's bytes modulo 2^32. *)
Lemma UpdateChecksum_shape (data : bytes) :
  _UpdateChecksum data
  = inr (Py.slice data None (Some (-4))
         ++ Py.le_bytes 4
              (sum_of_bytes (Py.slice data None (Some (-4))) mod 2 ^ 32)).
Proof.
  unfold _UpdateChecksum. rewrite pack_L_masked, byte_sum_total. reflexivity.
Qed.

Lemma UpdateChecksum_holds (data out : bytes) :
  _UpdateChecksum data = inr out ->
  (4 <= length out)%nat
  /\ Py.unpack_I (Py.slice out (Some (-4)) None)
     = inr (sum_of_bytes (Py.slice out None (Some (-4))) mod 2 ^ 32).
Proof.
  rewrite UpdateChecksum_shape.
  set (body := Py.slice data None (Some (-4))).
  set (tail := Py.le_bytes 4 (sum_of_bytes body mod 2 ^ 32)).
  intros H. assert (Hout : out = body ++ tail) by congruence.
  subst out. clear H.
  assert (Ht : length tail = 4%nat) by apply length_le_bytes.
  rewrite length_app, Ht, slice_tail, slice_body by exact Ht.
  split; [lia|]. unfold Py.unpack_I. rewrite Ht. cbn [Nat.eqb].
  subst tail. rewrite le_value_le_bytes. f_equal.
  change (256 ^ Z.of_nat 4) with (2 ^ 32). apply Z.mod_mod. lia.
Qed.

(** Going through a [bind] that returns. *)
Lemma bind_inr {A B} (m : M A) (k : A -> M B) w w' b :
  bind m k w = (w', inr b) ->
  exists w1 a, m w = (w1, inr a) /\ k a w1 = (w', inr b).
Proof.
  unfold bind. destruct (m w) as [w1 [e|a]]; [discriminate|].
  intros H. exists w1, a. split; [reflexivity|exact H].
Qed.

(** ** Which files a computation writes *)

Lemma writes_ret {A} P (a : A) : writes_only P (ret a).
Proof. intros w q _. reflexivity. Qed.

Lemma writes_raise {A} P e : writes_only P (@raise A e).
Proof. intros w q _. reflexivity. Qed.

Lemma writes_lift {A} P (r : exn + A) : writes_only P (lift r).
Proof. intros w q _. reflexivity. Qed.

Lemma writes_emit P e : writes_only P (emit e).
Proof. intros w q _. reflexivity. Qed.

Lemma writes_ReadFile P name : writes_only P (ReadFile name).
Proof.
  intros w q _. unfold ReadFile. destruct (files w !! name); reflexivity.
Qed.

Lemma writes_WriteFile (P : string -> Prop) name data :
  P name -> writes_only P (WriteFile name data).
Proof.
  intros HP w q Hq. unfold WriteFile. simpl. apply lookup_insert_ne.
  intros ->. contradiction.
Qed.

Lemma writes_bind {A B} P (m : M A) (k : A -> M B) :
  writes_only P m -> (forall a, writes_only P (k a)) ->
  writes_only P (bind m k).
Proof.
  intros Hm Hk w q Hq. unfold bind. specialize (Hm w q Hq).
  destruct (m w) as [w1 [e|a]]; simpl in *; [exact Hm|].
  rewrite (Hk a w1 q Hq). exact Hm.
Qed.

Lemma writes_foreach {A S} P (body : A -> S -> M S) (l : list A) :
  (forall a s, writes_only P (body a s)) ->
  forall s, writes_only P (foreach l body s).
Proof.
  intros Hb. induction l as [|a r IH]; intros s; simpl.
  - apply writes_ret.
  - apply writes_bind; [apply Hb|exact IH].
Qed.

Ltac frame_step :=
  match goal with
  | |- writes_only _ (bind _ _) => apply writes_bind; [|intros ?]
  | |- writes_only _ (ret _) => apply writes_ret
  | |- writes_only _ (raise _) => apply writes_raise
  | |- writes_only _ (lift _) => apply writes_lift
  | |- writes_only _ (emit _) => apply writes_emit
  | |- writes_only _ (ReadFile _) => apply writes_ReadFile
  | |- writes_only _ (WriteFile _ _) => apply writes_WriteFile
  | |- writes_only _ (foreach _ _ _) => apply writes_foreach; intros ? ?
  | |- writes_only _ (if ?b then _ else _) => destruct b
  | |- writes_only _ (match ?x with _ => _ end) => destruct x
  end.

Ltac frame := repeat frame_step.

Section Frames.

Variable ext : Externals.
Variable self : Bundle.
Variable P : string -> Prop.

Lemma writes_getsize name : writes_only P (getsize name).
Proof. unfold getsize. frame. Qed.

Lemma writes_OutputSize label name :
  writes_only P (OutputSize ext label name).
Proof. unfold OutputSize. frame. apply writes_getsize. Qed.

Lemma writes_GetInt fdt node prop default :
  writes_only P (GetInt ext fdt node prop default).
Proof. unfold GetInt. frame. Qed.

Lemma writes_GetString fdt node prop default :
  writes_only P (GetString ext fdt node prop default).
Proof. unfold GetString. frame. Qed.

Lemma writes_PutInteger fdt node prop value :
  P (fname fdt) -> writes_only P (PutInteger ext fdt node prop value).
Proof. intros H. unfold PutInteger. frame. exact H. Qed.

Lemma writes_Copy fdt new_name :
  P new_name -> writes_only P (Copy fdt new_name).
Proof. intros H. unfold Copy. frame. exact H. Qed.

Lemma writes_CalcTextBase name fdt uboot :
  writes_only P (CalcTextBase ext name fdt uboot).
Proof. unfold CalcTextBase. frame. apply writes_GetInt. Qed.

Lemma writes_bl2_param fdt size param value :
  writes_only P (bl2_param ext self fdt size param value).
Proof.
  unfold bl2_param. frame;
    first [apply writes_GetString | apply writes_GetInt].
Qed.

Lemma writes_UpdateBl2Parameters fdt size data pos :
  writes_only P (_UpdateBl2Parameters ext self fdt size data pos).
Proof.
  unfold _UpdateBl2Parameters. frame. unfold bl2_step. frame.
  apply writes_bl2_param.
Qed.

End Frames.

(** ** The BL2 parameter patcher *)

Lemma emit_inv e w w' u : emit e w = (w', inr u) -> files w' = files w.
Proof. unfold emit. intros [= <-]. reflexivity. Qed.

Lemma ReadFile_inv name w w' d :
  ReadFile name w = (w', inr d) -> w' = w /\ files w !! name = Some d.
Proof.
  unfold ReadFile. destruct (files w !! name) as [d'|]; [|discriminate].
  intros H. split; congruence.
Qed.

Lemma WriteFile_inv name d w w' u :
  WriteFile name d w = (w', inr u) -> files w' = <[name := d]> (files w).
Proof. unfold WriteFile. intros H. inversion H. reflexivity. Qed.

Lemma lift_inv {A} (r : exn + A) w w' a :
  lift r w = (w', inr a) -> w' = w /\ r = inr a.
Proof. unfold lift. intros H. split; congruence. Qed.

Lemma ret_inv {A} (a b : A) w w' :
  ret a w = (w', inr b) -> w' = w /\ b = a.
Proof. unfold ret. intros H. split; congruence. Qed.

Lemma pack_marker : Py.pack_L 0xdeadbeef = inr bl2_marker.
Proof. reflexivity. Qed.

(** What a call that returns has gone through. *)
Lemma ConfigureExynosBl2_returns ext self fdt size orig name w w' p :
  ConfigureExynosBl2 ext self fdt size orig name w = (w', inr p) ->
  exists data w1 w2 data1 data2,
    files w !! orig = Some data
    /\ Py.rfind data bl2_marker <> 0
    /\ _UpdateBl2Parameters ext self fdt size data (Py.rfind data bl2_marker)
         w1 = (w2, inr data1)
    /\ _UpdateChecksum data1 = inr data2
    /\ p = updated_spl ext name
    /\ files w' !! p = Some data2.
Proof.
  unfold ConfigureExynosBl2. intros H.
  apply bind_inr in H as (w1 & [] & He & H). apply emit_inv in He.
  apply bind_inr in H as (w2 & data & Hr & H).
  apply ReadFile_inv in Hr as [-> Hr]. rewrite He in Hr.
  apply bind_inr in H as (w3 & [] & Hw & H). apply WriteFile_inv in Hw.
  apply bind_inr in H as (w4 & data' & Hr' & H).
  apply ReadFile_inv in Hr' as [-> Hr'].
  rewrite Hw, lookup_insert_eq in Hr'. injection Hr' as <-.
  apply bind_inr in H as (w5 & marker & Hm & H).
  apply lift_inv in Hm as [-> Hm]. rewrite pack_marker in Hm.
  injection Hm as <-.
  destruct (Z.eqb_spec (Py.rfind data bl2_marker) 0) as [|Hpos];
    [discriminate|].
  apply bind_inr in H as (w6 & data1 & Hu & H).
  apply bind_inr in H as (w7 & data2 & Hc & H).
  apply lift_inv in Hc as [-> Hc].
  apply bind_inr in H as (w8 & [] & Hw' & H). apply WriteFile_inv in Hw'.
  apply ret_inv in H as [-> ->].
  exists data, w3, w6, data1, data2. repeat split; try assumption.
  rewrite Hw'. apply lookup_insert_eq.
Qed.

(** C8: in every blob the patcher writes, the last four bytes are the
    little-endian sum, modulo 2^32, of all the bytes before them. *)
Theorem bl2_checksum_round_trip ext self fdt size orig name w w' p :
  ConfigureExynosBl2 ext self fdt size orig name w = (w', inr p) ->
  exists patched,
    files w' !! p = Some patched
    /\ (4 <= length patched)%nat
    /\ Py.unpack_I (Py.slice patched (Some (-4)) None)
       = inr (sum_of_bytes (Py.slice patched None (Some (-4))) mod 2 ^ 32).
Proof.
  intros H. apply ConfigureExynosBl2_returns in H
    as (data & w1 & w2 & data1 & data2 & _ & _ & _ & Hc & _ & Hf).
  exists data2. split; [exact Hf|]. exact (UpdateChecksum_holds _ _ Hc).
Qed.

Example ConfigureExynosBl2_block_at_4 :
  let r := ConfigureExynosBl2 ext0 bundle0 dtb0 0x50000 "bl2.bin" ""
             (world_with "bl2.bin" bl2_block_at_4) in
  snd r = inr "out/updated-spl.bin"
  /\ files (fst r) !! "out/updated-spl.bin" = Some patched_block_at_4
  /\ files (fst r) !! "bl2.bin" = Some bl2_block_at_4.
Proof. vm_compute. repeat split. Qed.

Lemma bl2_checksum_round_trip_witness :
  exists patched,
    files (fst (ConfigureExynosBl2 ext0 bundle0 dtb0 0x50000 "bl2.bin" ""
                  (world_with "bl2.bin" bl2_block_at_4)))
      !! "out/updated-spl.bin" = Some patched
    /\ (4 <= length patched)%nat
    /\ Py.unpack_I (Py.slice patched (Some (-4)) None)
       = inr (sum_of_bytes (Py.slice patched None (Some (-4))) mod 2 ^ 32).
Proof.
  eapply (bl2_checksum_round_trip ext0 bundle0 dtb0 0x50000 "bl2.bin" ""
            (world_with "bl2.bin" bl2_block_at_4)).
  vm_compute. reflexivity.
Defined.





(** C7 at the failing inputs: a blob without the marker ([rfind] gives -1)
    is parsed from offset -1, patched and written, and no error is raised;
    a blob whose last marker is at offset 0 raises the not-found error. *)
Theorem ConfigureExynosBl2_marker_test :
  Py.rfind bl2_no_marker bl2_marker = -1
  /\ snd (ConfigureExynosBl2 ext0 bundle0 dtb0 0x50000 "bl2.bin" ""
            (world_with "bl2.bin" bl2_no_marker))
     = inr "out/updated-spl.bin"
  /\ files (fst (ConfigureExynosBl2 ext0 bundle0 dtb0 0x50000 "bl2.bin" ""
                   (world_with "bl2.bin" bl2_no_marker)))
       !! "out/updated-spl.bin" = Some patched_no_marker
  /\ Py.rfind bl2_block_at_0 bl2_marker = 0
  /\ snd (ConfigureExynosBl2 ext0 bundle0 dtb0 0x50000 "bl2.bin" ""
            (world_with "bl2.bin" bl2_block_at_0))
     = inl (not_found "bl2.bin").
Proof. vm_compute. repeat split. Qed.

(** ** The signed boot stub *)

Lemma append_cancel (d a b : string) : d +:+ a = d +:+ b -> a = b.
Proof.
  induction d as [|c d IH]; simpl; [intros H; exact H|].
  intros [= H]. exact (IH H).
Qed.

(** Two relative names in one directory are one file only if equal. *)
Lemma path_join_inj d a b :
  Py.starts_with "/" a = false -> Py.starts_with "/" b = false ->
  Py.path_join d a = Py.path_join d b -> a = b.
Proof.
  unfold Py.path_join. intros -> ->.
  destruct (String.eqb d "" || Py.ends_with_slash d); intros H.
  - exact (append_cancel _ _ _ H).
  - apply append_cancel in H. exact (append_cancel "/" _ _ H).
Qed.

Lemma final_image_not_scratch ext :
  ~ In (signed_postload_name ext) (scratch_names ext).
Proof.
  unfold signed_postload_name, scratch_names. simpl. intros H.
  repeat destruct H as [H|H]; try contradiction;
    apply path_join_inj in H; try reflexivity; discriminate.
Qed.

Lemma writes_bind_result {A B} P (m : M A) (k : A -> M B) (Q : A -> Prop) :
  writes_only P m ->
  (forall w w' a, m w = (w', inr a) -> Q a) ->
  (forall a, Q a -> writes_only P (k a)) ->
  writes_only P (bind m k).
Proof.
  intros Hm HQ Hk w q Hq. unfold bind. specialize (Hm w q Hq).
  destruct (m w) as [w1 [e|a]] eqn:E; simpl in *; [exact Hm|].
  rewrite (Hk a (HQ _ _ _ E) w1 q Hq). exact Hm.
Qed.

Lemma Copy_result fdt new_name w w' f :
  Copy fdt new_name w = (w', inr f) -> fname f = new_name.
Proof.
  unfold Copy. intros H.
  apply bind_inr in H as (w1 & blob & _ & H).
  apply bind_inr in H as (w2 & [] & _ & H).
  apply ret_inv in H as [_ ->]. reflexivity.
Qed.

Section BootStubFrames.

Variable ext : Externals.
Variable self : Bundle.

Let P := scratch ext.

Lemma writes_Run_bct_dump bct : writes_only P (Run_bct_dump ext bct).
Proof.
  intros w q _. unfold Run_bct_dump. destruct (files w !! bct); reflexivity.
Qed.

Lemma writes_Run_cbootimage config signed bct bootstub :
  P signed -> writes_only P (Run_cbootimage ext config signed bct bootstub).
Proof.
  intros Hs w q Hq. unfold Run_cbootimage.
  destruct (files w !! config); [|reflexivity].
  destruct (files w !! bct); [|reflexivity].
  destruct (files w !! bootstub); [|reflexivity].
  destruct (cbootimage ext _ _ _); [reflexivity|].
  apply (writes_WriteFile P signed _ Hs w q Hq).
Qed.

Lemma writes_SignBootstub bct bootstub text_base :
  writes_only P (_SignBootstub ext bct bootstub text_base).
Proof.
  unfold _SignBootstub. frame;
    first [ apply writes_OutputSize | apply writes_Run_bct_dump
          | apply writes_Run_cbootimage | idtac ];
    unfold P, scratch, scratch_names; simpl; tauto.
Qed.

Lemma writes_sign_first uboot base_fdt :
  writes_only P (sign_first ext self uboot base_fdt).
Proof.
  unfold sign_first.
  apply writes_bind; [apply writes_CalcTextBase|intros text_base].
  apply writes_bind; [apply writes_ReadFile|intros uboot_data].
  apply (writes_bind_result P _ _
           (fun f => fname f = Py.path_join (outdir ext) "bootstub.dtb")).
  - apply writes_Copy. unfold P, scratch, scratch_names. simpl. tauto.
  - intros w w' f. apply Copy_result.
  - intros f Hf. frame;
      first [ apply writes_OutputSize | apply writes_SignBootstub
            | apply writes_PutInteger; rewrite Hf | idtac ];
      unfold P, scratch, scratch_names; simpl; tauto.
Qed.

Lemma writes_sign_again so postload :
  fname (so_fdt so) = Py.path_join (outdir ext) "bootstub.dtb" ->
  writes_only P (sign_again ext self so postload).
Proof.
  intros Hf. unfold sign_again. frame;
    first [ apply writes_OutputSize | apply writes_SignBootstub
          | apply writes_PutInteger; rewrite Hf | idtac ];
    unfold P, scratch, scratch_names; simpl; tauto.
Qed.

End BootStubFrames.

Lemma bind_returns {A B} (m : M A) (k : A -> M B) w w1 a :
  m w = (w1, inr a) -> bind m k w = k a w1.
Proof. unfold bind. intros ->. reflexivity. Qed.

Lemma bind_raises {A B} (m : M A) (k : A -> M B) w w1 e :
  m w = (w1, inl e) -> bind m k w = (w1, inl e).
Proof. unfold bind. intros ->. reflexivity. Qed.

Lemma getsize_file name w d :
  files w !! name = Some d -> getsize name w = (w, inr (Z.of_nat (length d))).
Proof.
  intros H. unfold getsize, bind, ReadFile. cbv beta. rewrite H. reflexivity.
Qed.

(** The size check raises on a signed file of another length. *)
Lemma check_signed_size_fails data signed w d2 :
  files w !! signed = Some d2 ->
  length d2 <> length data ->
  check_signed_size data signed w
  = (w, inl (CmdError (size_changed (Z.of_nat (length data))
                         (Z.of_nat (length d2))))).
Proof.
  intros Hf Hne. unfold check_signed_size.
  rewrite (bind_returns _ _ _ _ _ (getsize_file _ _ _ Hf)).
  destruct (Z.eqb_spec (Z.of_nat (length data)) (Z.of_nat (length d2)));
    [lia|].
  cbn [negb]. rewrite (bind_returns _ _ _ _ _ (getsize_file _ _ _ Hf)).
  reflexivity.
Qed.

(** The size check passes only on a signed file of the same length. *)
Lemma check_signed_size_passes data signed w w' u :
  check_signed_size data signed w = (w', inr u) ->
  w' = w /\ exists d2, files w !! signed = Some d2 /\ length d2 = length data.
Proof.
  unfold check_signed_size. intros H.
  apply bind_inr in H as (w1 & size & Hs & H). unfold getsize in Hs.
  apply bind_inr in Hs as (w2 & d2 & Hr & Hs).
  apply ReadFile_inv in Hr as [-> Hr]. apply ret_inv in Hs as [-> ->].
  destruct (Z.eqb_spec (Z.of_nat (length data)) (Z.of_nat (length d2)))
    as [Heq|]; cbn [negb] in H.
  - apply ret_inv in H as [-> _]. split; [reflexivity|].
    exists d2. split; [exact Hr|lia].
  - rewrite (bind_returns _ _ _ _ _ (getsize_file _ _ _ Hr)) in H.
    discriminate.
Qed.

Ltac step H :=
  let w := fresh "w" in let a := fresh "a" in let E := fresh "E" in
  apply bind_inr in H as (w & a & E & H).

(** The first pass leaves the copy of the device tree in
    [<outdir>/bootstub.dtb]. *)
Lemma sign_first_fdt ext self uboot base_fdt w w1 so :
  sign_first ext self uboot base_fdt w = (w1, inr so) ->
  fname (so_fdt so) = Py.path_join (outdir ext) "bootstub.dtb".
Proof.
  unfold sign_first. intros H.
  step H. step H. step H. apply Copy_result in E1.
  do 8 step H. apply ret_inv in H as [_ ->]. exact E1.
Qed.

(** With a device tree that grows when the offset is stored, the second
    signed file is a byte longer than the first, and the build stops. *)
Example bootstub_size_changed :
  snd (_CreateBootStub ext_growing bundle0 "u-boot.bin" dtb0
         (Some "u-boot-post.bin") world_boot)
  = inl (CmdError "Signed file size changed from 32 to 33 after updating fdt")
  /\ files (fst (_CreateBootStub ext_growing bundle0 "u-boot.bin" dtb0
                   (Some "u-boot-post.bin") world_boot))
       !! "out/signed-postload.bin" = None.
Proof. vm_compute. split; reflexivity. Qed.

(** Without a payload there is one signing, and the final image is the
    signed buffer. *)
Example bootstub_without_postload :
  snd (_CreateBootStub ext0 bundle0 "u-boot.bin" dtb0 None world_boot)
  = inr ("out/u-boot-fdt.bin", "out/signed-postload.bin")
  /\ files (fst (_CreateBootStub ext0 bundle0 "u-boot.bin" dtb0 None
                   world_boot)) !! "out/signed-postload.bin"
     = files (fst (_CreateBootStub ext0 bundle0 "u-boot.bin" dtb0 None
                     world_boot)) !! "out/signed.bin".
Proof. vm_compute. split; reflexivity. Qed.

(** * More properties *)

(** ** Flags from the device tree *)

Lemma mask_bits v :
  in_flag_mask v <-> 0 <= v /\ forall i, 8 <= i -> Z.testbit v i = false.
Proof.
  unfold in_flag_mask. split.
  - intros [H0 H1]. split; [exact H0|]. intros i Hi.
    destruct (Z.eq_dec v 0) as [->|Hnz]; [apply Z.bits_0|].
    apply Z.bits_above_log2; [exact H0|].
    assert (Z.log2 v < 8) by (apply Z.log2_lt_pow2; lia). lia.
  - intros [H0 Hb]. split; [exact H0|].
    destruct (Z.le_gt_cases v 0xff) as [|Hgt]; [assumption|].
    assert (Hl : 8 <= Z.log2 v) by (apply Z.log2_le_pow2; lia).
    pose proof (Z.bit_log2 v ltac:(lia)) as Hbit.
    rewrite (Hb _ Hl) in Hbit. discriminate.
Qed.

Lemma lor_in_mask a b : in_flag_mask a -> in_flag_mask b ->
  in_flag_mask (Z.lor a b).
Proof.
  rewrite !mask_bits. intros [Ha Ha'] [Hb Hb']. split.
  - apply Z.lor_nonneg. split; assumption.
  - intros i Hi. rewrite Z.lor_spec, Ha', Hb' by assumption. reflexivity.
Qed.

Lemma land_in_mask a b : in_flag_mask a -> in_flag_mask (Z.land a b).
Proof.
  rewrite !mask_bits. intros [Ha Ha']. split.
  - apply Z.land_nonneg. left. exact Ha.
  - intros i Hi. rewrite Z.land_spec, Ha' by assumption. reflexivity.
Qed.

Lemma table_in_mask n : in_flag_mask (flag_value n).
Proof.
  unfold flag_value, in_flag_mask.
  destruct (dict_get gbb_flag_properties n) as [v|] eqn:E; [|lia].
  apply dict_get_in in E. simpl in E.
  repeat destruct E as [[= <- <-]|E]; try contradiction; lia.
Qed.

Lemma gbb_fdt_prop_returns name acc w w1 a :
  gbb_fdt_prop name acc w = (w1, inr a) ->
  files w1 = files w
  /\ a = (if Py.starts_with "gbb-flag-" name
          then Z.lor acc (flag_value (str_from 9 name)) else acc).
Proof.
  unfold gbb_fdt_prop, flag_value.
  destruct (Py.starts_with "gbb-flag-" name).
  - destruct (dict_get gbb_flag_properties (str_from 9 name)) as [v|];
      [|discriminate].
    destruct (v =? 0); [discriminate|]. intros H.
    apply bind_inr in H as (w2 & [] & He & H). apply emit_inv in He.
    apply ret_inv in H as [-> ->]. split; [exact He|reflexivity].
  - intros H. apply ret_inv in H as [-> ->]. split; reflexivity.
Qed.

Lemma foreach_fdt_returns props : forall acc w w' v,
  foreach props gbb_fdt_prop acc w = (w', inr v) ->
  files w' = files w
  /\ (in_flag_mask acc -> in_flag_mask v)
  /\ forall i, Z.testbit v i
               = Z.testbit acc i || existsb (asks_for_bit i) props.
Proof.
  induction props as [|n r IH]; intros acc w w' v H; simpl in H.
  - apply ret_inv in H as [-> ->]. split; [reflexivity|].
    split; [intros Hacc; exact Hacc|].
    intros i. simpl. rewrite orb_false_r. reflexivity.
  - apply bind_inr in H as (w1 & a & H1 & H).
    apply gbb_fdt_prop_returns in H1 as [F1 ->].
    apply IH in H as (F & Hm & Hb). split; [congruence|]. split.
    + intros Hacc. apply Hm.
      destruct (Py.starts_with "gbb-flag-" n); [|exact Hacc].
      apply lor_in_mask; [exact Hacc|apply table_in_mask].
    + intros i. rewrite Hb. cbn [existsb].
      change (asks_for_bit i n)
        with (Py.starts_with "gbb-flag-" n
              && Z.testbit (flag_value (str_from 9 n)) i).
      destruct (Py.starts_with "gbb-flag-" n); cbn [andb orb].
      * rewrite Z.lor_spec, orb_assoc. reflexivity.
      * reflexivity.
Qed.

(** X1: the flags read from the device tree have no bit outside the
    eight of the table, and a bit is set exactly when some property
    [gbb-flag-<name>] of [/chromeos-config] names a flag with that bit;
    the order of the properties and the other properties do not matter. *)
Theorem fdt_flags_are_the_named_bits more self w w' v :
  DecodeGBBFlagsFromFdt more self w = (w', inr v) ->
  exists blob,
    files w !! fname (fdt self) = Some blob
    /\ in_flag_mask v
    /\ forall i,
         Z.testbit v i = true
         <-> exists name,
               In name (dtb_get_props more blob "/chromeos-config")
               /\ asks_for_bit i name = true.
Proof.
  unfold DecodeGBBFlagsFromFdt, GetProps. intros H.
  apply bind_inr in H as (w1 & props & Hp & H).
  apply bind_inr in Hp as (w2 & blob & Hr & Hp).
  apply ReadFile_inv in Hr as [-> Hr]. apply ret_inv in Hp as [-> ->].
  apply foreach_fdt_returns in H as (_ & Hm & Hb).
  exists blob. split; [exact Hr|]. split; [apply Hm; unfold in_flag_mask; lia|].
  intros i. rewrite Hb, Z.bits_0. simpl. rewrite existsb_exists. reflexivity.
Qed.

Lemma fdt_flags_are_the_named_bits_witness :
  exists blob,
    files world_boot !! fname (fdt bundle0) = Some blob
    /\ in_flag_mask 0x11
    /\ forall i,
         Z.testbit 0x11 i = true
         <-> exists name,
               In name (dtb_get_props more0 blob "/chromeos-config")
               /\ asks_for_bit i name = true.
Proof.
  apply (fdt_flags_are_the_named_bits more0 bundle0 world_boot
           (fst (DecodeGBBFlagsFromFdt more0 bundle0 world_boot)) 0x11).
  vm_compute. reflexivity.
Defined.

Lemma gbb_fdt_prop_valid name acc w :
  valid_fdt_prop name ->
  exists w1 a, gbb_fdt_prop name acc w = (w1, inr a) /\ files w1 = files w.
Proof.
  unfold valid_fdt_prop, gbb_fdt_prop, is_known. intros H.
  destruct (Py.starts_with "gbb-flag-" name).
  - specialize (H eq_refl).
    destruct (dict_get gbb_flag_properties (str_from 9 name)) as [v|] eqn:E;
      [|discriminate].
    rewrite (table_values_nonzero _ _ E). run. eauto.
  - exists w, acc. split; reflexivity.
Qed.

Lemma foreach_fdt_stops before bad after : forall acc w,
  Forall valid_fdt_prop before ->
  Py.starts_with "gbb-flag-" bad = true ->
  is_known (str_from 9 bad) = false ->
  exists w', foreach (before ++ bad :: after) gbb_fdt_prop acc w
             = (w', inl (invalid_fdt_flag bad))
             /\ files w' = files w.
Proof.
  induction before as [|n r IH]; intros acc w Hv Hs Hk.
  - exists w. split; [|reflexivity]. cbn [app foreach].
    apply bind_raises. unfold gbb_fdt_prop. rewrite Hs.
    unfold is_known in Hk.
    destruct (dict_get gbb_flag_properties (str_from 9 bad));
      [discriminate|reflexivity].
  - inversion Hv; subst.
    destruct (gbb_fdt_prop_valid n acc w) as (w1 & a & E & F); [assumption|].
    destruct (IH a w1) as (w' & E' & F'); [assumption..|].
    exists w'. split; [|congruence]. cbn [app foreach].
    rewrite (bind_returns _ _ _ _ _ E). exact E'.
Qed.

Lemma fdt_decode_stops more self w blob before bad after :
  files w !! fname (fdt self) = Some blob ->
  dtb_get_props more blob "/chromeos-config" = before ++ bad :: after ->
  Forall valid_fdt_prop before ->
  Py.starts_with "gbb-flag-" bad = true ->
  is_known (str_from 9 bad) = false ->
  exists w', DecodeGBBFlagsFromFdt more self w
             = (w', inl (invalid_fdt_flag bad))
             /\ files w' = files w.
Proof.
  intros Hf Hp Hv Hs Hk. unfold DecodeGBBFlagsFromFdt, GetProps.
  unfold bind at 1. unfold bind at 1. unfold ReadFile. rewrite Hf.
  unfold ret at 1. rewrite Hp. apply foreach_fdt_stops; assumption.
Qed.

(** X2: a property [gbb-flag-<name>] whose name is not in the table is
    fatal: the decode raises [ValueError] for the first such property, the
    valid ones before it notwithstanding, and no file is touched. *)
Theorem fdt_invalid_flag_is_fatal more self w blob before bad after :
  files w !! fname (fdt self) = Some blob ->
  dtb_get_props more blob "/chromeos-config" = before ++ bad :: after ->
  Forall valid_fdt_prop before ->
  Py.starts_with "gbb-flag-" bad = true ->
  is_known (str_from 9 bad) = false ->
  exists w', DecodeGBBFlagsFromFdt more self w
             = (w', inl (invalid_fdt_flag bad))
             /\ files w' = files w.
Proof. exact (fdt_decode_stops more self w blob before bad after). Qed.

Lemma fdt_invalid_flag_is_fatal_witness :
  exists w', DecodeGBBFlagsFromFdt more_bad_flag bundle0 world_boot
             = (w', inl (invalid_fdt_flag "gbb-flag-no-such-flag"))
             /\ files w' = files world_boot.
Proof.
  apply (fdt_invalid_flag_is_fatal more_bad_flag bundle0 world_boot (zeros 8)
           ["gbb-flag-load-option-roms"; "textbase"]
           "gbb-flag-no-such-flag" ["gbb-flag-force-dev-boot-usb"]).
  - reflexivity.
  - reflexivity.
  - repeat constructor; intros H; try reflexivity; discriminate.
  - reflexivity.
  - reflexivity.
Defined.

(** ** Adjustments from the command line *)

(** A comma-separated string whose first token holds a letter [o]: not
    empty, no hexadecimal number, and split back into its tokens. *)
Lemma token_string t0 rest :
  has_code 111 t0 = true ->
  Forall (fun t => has_code 44 t = false) (t0 :: rest) ->
  (exists c r, join_comma (t0 :: rest) = String c r)
  /\ Py.int16 (join_comma (t0 :: rest)) = None
  /\ Py.split "," (join_comma (t0 :: rest)) = t0 :: rest.
Proof.
  intros Ho Hc.
  assert (Hs : has_code 111 (join_comma (t0 :: rest)) = true).
  { destruct rest as [|t1 r]; [exact Ho|].
    change (join_comma (t0 :: t1 :: r))
      with (t0 +:+ "," +:+ join_comma (t1 :: r)).
    rewrite has_code_app, Ho. reflexivity. }
  repeat split.
  - destruct (join_comma (t0 :: rest)) as [|c r]; [discriminate|eauto].
  - destruct (Py.int16 (join_comma (t0 :: rest))) as [v|] eqn:E;
      [|reflexivity].
    apply int16_no_o in E. congruence.
  - apply split_join; [discriminate|exact Hc].
Qed.

Lemma decode_token_loop B t0 rest w :
  has_code 111 t0 = true ->
  Forall (fun t => has_code 44 t = false) (t0 :: rest) ->
  DecodeGBBFlagsFromOptions B (Some (join_comma (t0 :: rest))) w
  = bind (foreach (t0 :: rest) gbb_token (B, true)) (fun st => ret (fst st)) w.
Proof.
  intros Ho Hc. destruct (token_string t0 rest Ho Hc) as ((c & r & E) & Hi & Hs).
  unfold DecodeGBBFlagsFromOptions. rewrite E in *. rewrite Hi, Hs.
  reflexivity.
Qed.

(** The decode of a list of known tokens is the fold of their effects. *)
Lemma decode_known_tokens B toks w :
  toks <> [] ->
  Forall (fun t => is_known (snd t) = true) toks ->
  exists w', DecodeGBBFlagsFromOptions B (Some (join_comma (map render toks))) w
             = (w', inr (apply_tokens B toks))
             /\ files w' = files w.
Proof.
  intros Hne H. destruct toks as [|t r]; [contradiction|].
  cbn [map]. rewrite decode_token_loop.
  - destruct (foreach_known (t :: r) (B, true) w H) as (w' & E & F).
    exists w'. cbn [map] in E. rewrite (bind_returns _ _ _ _ _ E).
    split; [reflexivity|exact F].
  - inversion H; subst. exact (proj2 (render_shape t ltac:(assumption))).
  - change (render t :: map render r) with (map render (t :: r)).
    apply Forall_map. eapply Forall_impl; [exact H|].
    intros t' Ht'. exact (proj1 (render_shape t' Ht')).
Qed.

Lemma apply_token_in_mask st t :
  in_flag_mask (fst st) -> in_flag_mask (fst (apply_token st t)).
Proof.
  intros H. unfold apply_token. destruct (fst t); cbn [fst].
  - apply lor_in_mask; [exact H|apply table_in_mask].
  - apply land_in_mask. exact H.
  - apply lor_in_mask; [|apply table_in_mask].
    destruct (snd st); [unfold in_flag_mask; lia|exact H].
Qed.

Lemma apply_tokens_in_mask toks : forall st,
  in_flag_mask (fst st) -> in_flag_mask (fst (fold_left apply_token toks st)).
Proof.
  induction toks as [|t r IH]; intros st H; [exact H|].
  simpl. apply IH. apply apply_token_in_mask. exact H.
Qed.

(** X3: adjusting by known tokens keeps the flags within the table: from
    a base with no bit outside the eight of the table, the decode returns a
    value with no bit outside them. *)
Theorem gbb_tokens_keep_the_mask (B : Z) (toks : list gbb_tok) (w : world) :
  toks <> [] ->
  Forall (fun t => is_known (snd t) = true) toks ->
  in_flag_mask B ->
  exists v,
    result (DecodeGBBFlagsFromOptions B (Some (join_comma (map render toks))))
      w = inr v
    /\ in_flag_mask v.
Proof.
  intros Hne H HB. destruct (decode_known_tokens B toks w Hne H) as (w' & E & _).
  exists (apply_tokens B toks). unfold result. rewrite E. split; [reflexivity|].
  apply (apply_tokens_in_mask toks (B, true)). exact HB.
Qed.

Lemma gbb_tokens_keep_the_mask_witness :
  exists v,
    result (DecodeGBBFlagsFromOptions 0x81
              (Some "-force-dev-boot-legacy,+load-option-roms")) w0 = inr v
    /\ in_flag_mask v.
Proof.
  apply (gbb_tokens_keep_the_mask 0x81
           [(Minus, "force-dev-boot-legacy"); (Plus, "load-option-roms")] w0).
  - discriminate.
  - repeat constructor.
  - unfold in_flag_mask. lia.
Defined.

Lemma fold_bare toks : forall a a',
  has_bare toks = true ->
  fold_left apply_token toks (a, true) = fold_left apply_token toks (a', true).
Proof.
  induction toks as [|[op n] r IH]; intros a a' H; [discriminate|].
  cbn [fold_left]. unfold apply_token at 2 4. cbn [fst snd].
  destruct op; cbn [has_bare existsb fst orb] in H.
  - apply IH. exact H.
  - apply IH. exact H.
  - reflexivity.
Qed.

(** X4: once a list of known tokens holds a bare name, the base flags do
    not count: any two bases give the same result. *)
Theorem gbb_bare_name_drops_the_base (B B' : Z) (toks : list gbb_tok)
    (w : world) :
  Forall (fun t => is_known (snd t) = true) toks ->
  has_bare toks = true ->
  result (DecodeGBBFlagsFromOptions B (Some (join_comma (map render toks)))) w
  = result (DecodeGBBFlagsFromOptions B'
              (Some (join_comma (map render toks)))) w.
Proof.
  intros H Hb.
  assert (Hne : toks <> []) by (destruct toks; [discriminate|discriminate]).
  destruct (decode_known_tokens B toks w Hne H) as (w1 & E1 & _).
  destruct (decode_known_tokens B' toks w Hne H) as (w2 & E2 & _).
  unfold result. rewrite E1, E2. cbn [snd]. f_equal.
  unfold apply_tokens. rewrite (fold_bare toks B B' Hb). reflexivity.
Qed.

Lemma gbb_bare_name_drops_the_base_witness :
  result (DecodeGBBFlagsFromOptions 0xff
            (Some "+load-option-roms,force-dev-boot-usb")) w0
  = result (DecodeGBBFlagsFromOptions 0
              (Some "+load-option-roms,force-dev-boot-usb")) w0.
Proof.
  apply (gbb_bare_name_drops_the_base 0xff 0
           [(Plus, "load-option-roms"); (Bare, "force-dev-boot-usb")] w0).
  - repeat constructor.
  - reflexivity.
Defined.

Lemma foreach_empty_token toks rest : forall st w,
  Forall (fun t => is_known (snd t) = true) toks ->
  exists w', foreach (map render toks ++ EmptyString :: rest) gbb_token st w
             = (w', inl IndexError)
             /\ files w' = files w.
Proof.
  induction toks as [|t r IH]; intros st w H.
  - exists w. split; [|reflexivity]. cbn [map app foreach].
    apply bind_raises. destruct st. reflexivity.
  - inversion H; subst.
    destruct (gbb_token_known t st w) as (w1 & E1 & F1); [assumption|].
    destruct (IH (apply_token st t) w1) as (w2 & E2 & F2); [assumption|].
    exists w2. split; [|congruence]. cbn [map app foreach].
    rewrite (bind_returns _ _ _ _ _ E1). exact E2.
Qed.

(** X5: an empty token after known ones, as a doubled or a trailing comma
    gives, makes the decode raise [IndexError] on [flag[0]]; no flags value
    is returned. *)
Theorem gbb_empty_token_raises (B : Z) (toks : list gbb_tok)
    (rest : list string) (w : world) :
  toks <> [] ->
  Forall (fun t => is_known (snd t) = true) toks ->
  Forall (fun t => has_code 44 t = false) rest ->
  result (DecodeGBBFlagsFromOptions B
            (Some (join_comma (map render toks ++ EmptyString :: rest)))) w
  = inl IndexError.
Proof.
  intros Hne H Hr. destruct toks as [|t r]; [contradiction|].
  cbn [map app]. unfold result. rewrite decode_token_loop.
  - change (render t :: map render r ++ EmptyString :: rest)
      with (map render (t :: r) ++ EmptyString :: rest).
    destruct (foreach_empty_token (t :: r) rest (B, true) w H) as (w' & E & _).
    rewrite (bind_raises _ _ _ _ _ E). reflexivity.
  - inversion H; subst. exact (proj2 (render_shape t ltac:(assumption))).
  - constructor.
    + inversion H; subst. exact (proj1 (render_shape t ltac:(assumption))).
    + apply Forall_app. split.
      * apply Forall_map. inversion H; subst.
        eapply Forall_impl; [eassumption|].
        intros t' Ht'. exact (proj1 (render_shape t' Ht')).
      * constructor; [reflexivity|exact Hr].
Qed.

Lemma gbb_empty_token_raises_witness :
  result (DecodeGBBFlagsFromOptions 0x3 (Some "+load-option-roms,")) w0
  = inl IndexError.
Proof.
  apply (gbb_empty_token_raises 0x3 [(Plus, "load-option-roms")] [] w0).
  - discriminate.
  - repeat constructor.
  - constructor.
Defined.

(** ** The Google Binary Block *)

(** X6: a flag of the device tree that the table does not have stops the
    GBB build before [gbb_utility] runs, whatever the adjustments of the
    command line are, a hexadecimal override included; no file is
    written. *)
Theorem gbb_build_stops_on_invalid_fdt_flag ext more self opts hwid w blob
    size before bad after :
  hwid <> EmptyString ->
  files w !! fname (fdt self) = Some blob ->
  dtb_flash_part_size more blob "ro" "gbb" = inr size ->
  dtb_get_props more blob "/chromeos-config" = before ++ bad :: after ->
  Forall valid_fdt_prop before ->
  Py.starts_with "gbb-flag-" bad = true ->
  is_known (str_from 9 bad) = false ->
  exists w', _CreateGoogleBinaryBlock ext more self opts (Some hwid) w
             = (w', inl (invalid_fdt_flag bad))
             /\ files w' = files w.
Proof.
  intros Hh Hf Hs Hp Hv Hb Hk. unfold _CreateGoogleBinaryBlock.
  destruct hwid as [|c r]; [contradiction|].
  rewrite (bind_returns _ _ w w (String c r)) by reflexivity.
  assert (Hsize : GetFlashPartSize more (fdt self) "ro" "gbb" w
                  = (w, inr size)).
  { unfold GetFlashPartSize, bind, ReadFile, lift. rewrite Hf, Hs.
    reflexivity. }
  rewrite (bind_returns _ _ _ _ _ Hsize).
  destruct (fdt_decode_stops more self w blob before bad after
              Hf Hp Hv Hb Hk) as (w' & E & F).
  exists w'. rewrite (bind_raises _ _ _ _ _ E). split; [reflexivity|exact F].
Qed.

Lemma gbb_build_stops_on_invalid_fdt_flag_witness :
  exists w', _CreateGoogleBinaryBlock ext0 more_bad_flag bundle0 opts0
               (Some "DAISY TEST A-A 1234") world_boot
             = (w', inl (invalid_fdt_flag "gbb-flag-no-such-flag"))
             /\ files w' = files world_boot.
Proof.
  apply (gbb_build_stops_on_invalid_fdt_flag ext0 more_bad_flag bundle0 opts0
           "DAISY TEST A-A 1234" world_boot (zeros 8) 0x20000
           ["gbb-flag-load-option-roms"; "textbase"]
           "gbb-flag-no-such-flag" ["gbb-flag-force-dev-boot-usb"]).
  - discriminate.
  - reflexivity.
  - reflexivity.
  - reflexivity.
  - repeat constructor; intros H; try reflexivity; discriminate.
  - reflexivity.
  - reflexivity.
Defined.

Lemma writes_gbb_token P tok st : writes_only P (gbb_token tok st).
Proof.
  unfold gbb_token. destruct st as [g u]. frame.
Qed.

Lemma writes_DecodeGBBFlagsFromOptions P B adj :
  writes_only P (DecodeGBBFlagsFromOptions B adj).
Proof.
  unfold DecodeGBBFlagsFromOptions. frame; apply writes_gbb_token.
Qed.

Lemma writes_DecodeGBBFlagsFromFdt P more self :
  writes_only P (DecodeGBBFlagsFromFdt more self).
Proof.
  unfold DecodeGBBFlagsFromFdt, GetProps. frame. unfold gbb_fdt_prop. frame.
Qed.

Lemma writes_CreateGoogleBinaryBlock ext more self opts hardware_id :
  writes_only (fun q => q = gbb_bin ext)
    (_CreateGoogleBinaryBlock ext more self opts hardware_id).
Proof.
  unfold _CreateGoogleBinaryBlock.
  apply writes_bind.
  { destruct hardware_id as [[|c r]|]; try apply writes_ret;
      unfold GetString_required; frame. }
  intros hwid. apply writes_bind; [unfold GetFlashPartSize; frame|].
  intros size. apply writes_bind; [apply writes_DecodeGBBFlagsFromFdt|].
  intros f. apply writes_bind; [apply writes_DecodeGBBFlagsFromOptions|].
  intros flags. frame.
  - unfold Run_gbb_create. frame. reflexivity.
  - intros w q Hq. unfold Run_gbb_set.
    destruct (files w !! _); [|reflexivity].
    destruct (files w !! _); [|reflexivity].
    destruct (gbb_set more _ _ _ _ _); [reflexivity|].
    apply (writes_WriteFile (fun q => q = gbb_bin ext) _ _ eq_refl w q Hq).
Qed.

(** X7: building the GBB writes [<outdir>/gbb.bin] and no other file,
    whether it returns or raises: the device tree, the bitmap block and
    every other file are as they were. *)
Theorem gbb_build_writes_only_gbb_bin ext more self opts hardware_id w q :
  q <> gbb_bin ext ->
  files (fst (_CreateGoogleBinaryBlock ext more self opts hardware_id w)) !! q
  = files w !! q.
Proof.
  intros Hq.
  exact (writes_CreateGoogleBinaryBlock ext more self opts hardware_id w q Hq).
Qed.

Lemma gbb_build_writes_only_gbb_bin_witness :
  snd (_CreateGoogleBinaryBlock ext0 more0 bundle0 opts0 (Some "HWID")
         world_gbb) = inr "out/gbb.bin"
  /\ files (fst (_CreateGoogleBinaryBlock ext0 more0 bundle0 opts0
                   (Some "HWID") world_gbb)) !! "bmpblk.bin"
     = files world_gbb !! "bmpblk.bin".
Proof.
  split; [vm_compute; reflexivity|].
  apply (gbb_build_writes_only_gbb_bin ext0 more0 bundle0 opts0 (Some "HWID")
           world_gbb "bmpblk.bin").
  vm_compute. discriminate.
Defined.

(** ** More on TEXT_BASE *)

Lemma slice_of_prefix (data : bytes) (N : nat) i j :
  0 <= i -> 0 <= j <= Z.of_nat N ->
  Py.slice (firstn N data) (Some i) (Some j) = Py.slice data (Some i) (Some j).
Proof.
  intros Hi Hj. destruct (Nat.le_gt_cases (length data) N) as [Hle|Hgt].
  { rewrite firstn_all2 by exact Hle. reflexivity. }
  unfold Py.slice, Py.bound. rewrite length_firstn.
  replace (Init.Nat.min N (length data)) with N by lia.
  destruct (Z.ltb_spec i 0); [lia|]. destruct (Z.ltb_spec j 0); [lia|].
  replace (Z.min j (Z.of_nat N)) with j by lia.
  replace (Z.min j (Z.of_nat (length data))) with j by lia.
  destruct (Z.le_gt_cases j i) as [Hji|Hij].
  { replace (Z.to_nat (j - Z.min i (Z.of_nat N))) with 0%nat by lia.
    replace (Z.to_nat (j - Z.min i (Z.of_nat (length data)))) with 0%nat
      by lia.
    reflexivity. }
  replace (Z.min i (Z.of_nat N)) with i by lia.
  replace (Z.min i (Z.of_nat (length data))) with i by lia.
  rewrite skipn_firstn_comm, firstn_firstn. f_equal. lia.
Qed.

Lemma scan_window_of_prefix (data : bytes) (N : nat) start n : forall i found,
  0 <= i -> i + 4 * Z.of_nat n <= Z.of_nat N ->
  scan_window (firstn N data) start (words_from i n) found
  = scan_window data start (words_from i n) found.
Proof.
  induction n as [|n IH]; intros i found Hi Hn; [reflexivity|].
  cbn [words_from scan_window]. rewrite slice_of_prefix by lia.
  destruct (Py.unpack_I _) as [e|value]; [reflexivity|].
  rewrite !IH by lia. reflexivity.
Qed.

Lemma DecodeTextBase_of_prefix (data : bytes) :
  DecodeTextBase (firstn (Z.to_nat 0x40a0) data) = DecodeTextBase data.
Proof.
  unfold DecodeTextBase. cbn [scan_starts]. rewrite window_0, window_4000.
  rewrite (scan_window_of_prefix data _ 0 40 0 false) by lia.
  destruct (scan_window data 0 (words_from 0 40) false) as [e|[v|found]];
    try reflexivity.
  rewrite (scan_window_of_prefix data _ 0x4000 40 0x4000 found) by lia.
  reflexivity.
Qed.

(** X8: the decoder reads the first 0x40a0 bytes and nothing else: what
    follows them, the device tree appended to make a boot stub for one,
    does not change what it returns. *)
Theorem text_base_ignores_what_follows (data extra : bytes) :
  0x40a0 <= Z.of_nat (length data) ->
  DecodeTextBase (data ++ extra) = DecodeTextBase data.
Proof.
  intros H. rewrite <- (DecodeTextBase_of_prefix (data ++ extra)).
  rewrite <- (DecodeTextBase_of_prefix data). f_equal.
  rewrite firstn_app.
  replace (Z.to_nat 0x40a0 - length data)%nat with 0%nat by lia.
  cbn [firstn]. apply app_nil_r.
Qed.

Lemma text_base_ignores_what_follows_witness :
  DecodeTextBase (spl_image ++ zeros 8) = DecodeTextBase spl_image.
Proof.
  apply (text_base_ignores_what_follows spl_image (zeros 8)).
  vm_compute. discriminate.
Defined.

Lemma ord_bound b : 0 <= Py.ord b <= 255.
Proof. unfold Py.ord. pose proof (Byte.to_N_bounded b). lia. Qed.

Lemma le_value_bound (l : bytes) :
  0 <= Py.le_value l < 256 ^ Z.of_nat (length l).
Proof.
  induction l as [|b r IH]; [simpl; lia|].
  cbn [Py.le_value length]. rewrite Nat2Z.inj_succ, Z.pow_succ_r by lia.
  pose proof (ord_bound b). lia.
Qed.

Lemma word_at_bound (data : bytes) i :
  0 <= i -> i + 4 <= Z.of_nat (length data) ->
  0 <= word_at data i < 2 ^ 32.
Proof.
  intros H0 H1. unfold word_at.
  pose proof (le_value_bound (Py.slice data (Some i) (Some (i + 4)))) as H.
  rewrite (slice_word_length data i H0 H1) in H. exact H.
Qed.

(** The inner loop over words that are all there: it raises nothing, and
    what it returns is a word of the buffer less [start]. *)
Lemma scan_window_total (data : bytes) start n : forall i found,
  0 <= i -> i + 4 * Z.of_nat n <= Z.of_nat (length data) ->
  exists r, scan_window data start (words_from i n) found = inr r
            /\ forall v, r = inl v -> - start <= v < 2 ^ 32 - start.
Proof.
  induction n as [|n IH]; intros i found H0 H1.
  - eexists. split; [reflexivity|]. discriminate.
  - cbn [words_from scan_window]. rewrite unpack_word by lia.
    destruct found.
    + eexists. split; [reflexivity|]. intros v [= <-].
      pose proof (word_at_bound data i H0 ltac:(lia)). lia.
    + destruct (word_at data i =? 305419896); apply IH; lia.
Qed.

(** X9: on a buffer of 0x40a0 bytes or more the decoder raises nothing,
    and a text base it returns is a 32-bit word less 0 or 0x4000: it lies
    between -0x4000 and 2^32. *)
Theorem text_base_total_on_long_buffers (data : bytes) :
  0x40a0 <= Z.of_nat (length data) ->
  exists r, DecodeTextBase data = inr r
            /\ forall v, r = Some v -> -0x4000 <= v < 2 ^ 32.
Proof.
  intros H. unfold DecodeTextBase. cbn [scan_starts].
  rewrite window_0, window_4000.
  destruct (scan_window_total data 0 40 0 false) as (r0 & E0 & B0); [lia..|].
  rewrite E0. destruct r0 as [v|found].
  - eexists. split; [reflexivity|]. intros v' [= <-].
    specialize (B0 v eq_refl). lia.
  - destruct (scan_window_total data 0x4000 40 0x4000 found)
      as (r1 & E1 & B1); [lia..|].
    rewrite E1. destruct r1 as [v|found'].
    + eexists. split; [reflexivity|]. intros v' [= <-].
      specialize (B1 v eq_refl). lia.
    + eexists. split; [reflexivity|]. discriminate.
Qed.

Lemma text_base_total_on_long_buffers_witness :
  exists r, DecodeTextBase spl_image = inr r
            /\ forall v, r = Some v -> -0x4000 <= v < 2 ^ 32.
Proof.
  apply (text_base_total_on_long_buffers spl_image).
  vm_compute. discriminate.
Defined.

(** The inner loop when the first marker is the last word of the window:
    it ends with [found] set. *)
Lemma scan_window_last (data : bytes) start n : forall i,
  0 <= i -> i + 4 * Z.of_nat n <= Z.of_nat (length data) ->
  List.find (fun j => word_at data j =? text_base_marker) (words_from i n)
  = Some (i + 4 * (Z.of_nat n - 1)) ->
  scan_window data start (words_from i n) false = inr (inr true).
Proof.
  induction n as [|n IH]; intros i H0 H1; [discriminate|].
  cbn [words_from List.find scan_window]. rewrite unpack_word by lia.
  fold text_base_marker.
  destruct (word_at data i =? text_base_marker).
  - intros [= H]. destruct n as [|n]; [reflexivity|lia].
  - intros H.
    replace (i + 4 * (Z.of_nat (S n) - 1))
      with (i + 4 + 4 * (Z.of_nat n - 1)) in H by lia.
    apply IH; [lia|lia|exact H].
Qed.

(** X10: a marker in the last word of a window.  In the first window it is
    carried into the second one, and the decoder returns the word at
    0x4000 less 0x4000, not the word after the marker; in the second
    window it is lost, and the decoder returns [None]. *)
Theorem text_base_marker_in_last_word_of_window (data : bytes) :
  0x40a0 <= Z.of_nat (length data) ->
  (marker_offset data 0 = Some 156 ->
   DecodeTextBase data = inr (Some (word_at data 0x4000 - 0x4000)))
  /\ (marker_offset data 0 = None ->
      marker_offset data 0x4000 = Some (0x4000 + 156) ->
      DecodeTextBase data = inr None).
Proof.
  intros H. unfold DecodeTextBase, marker_offset. cbn [scan_starts].
  rewrite window_0, window_4000. split.
  - intros Hf. rewrite (scan_window_last data 0 40 0) by (lia || exact Hf).
    rewrite (scan_window_found data 0x4000 0x4000 40) by lia. reflexivity.
  - intros Hn Hf.
    rewrite (scan_window_none data 0 40 0) by (lia || exact Hn).
    rewrite (scan_window_last data 0x4000 40 0x4000) by (lia || exact Hf).
    reflexivity.
Qed.

Lemma text_base_marker_in_last_word_of_window_witness :
  DecodeTextBase last_word_image = inr (Some 0x1000).
Proof.
  refine (proj1 (text_base_marker_in_last_word_of_window last_word_image _) _).
  - vm_compute. discriminate.
  - vm_compute. reflexivity.
Defined.

Lemma declared_text_base_range ext blob :
  0 <= declared_text_base ext blob < 2 ^ 32.
Proof.
  unfold declared_text_base. rewrite mask32. apply Z.mod_pos_bound. lia.
Qed.

(** X11: when the image gives no text base, the device tree's value is
    returned brought back to 32 bits unsigned (a value stored as a negative
    number comes back as the address it stands for, a missing one as 0);
    one information line is written, no warning, and no file. *)
Theorem CalcTextBase_falls_back_on_the_device_tree ext name fdt uboot w data
    blob :
  files w !! uboot = Some data ->
  files w !! fname fdt = Some blob ->
  DecodeTextBase data = inr None ->
  CalcTextBase ext name fdt uboot w
  = (World (files w)
       (out w ++ [Info ("TEXT_BASE: fdt says "
                        +:+ Py.fmt_hx (declared_text_base ext blob) +:+ ", "
                        +:+ uboot +:+ " says None")]),
     inr (declared_text_base ext blob))
  /\ 0 <= declared_text_base ext blob < 2 ^ 32.
Proof.
  intros Hu Hf Hd. split; [|apply declared_text_base_range].
  unfold CalcTextBase, GetInt, ReadFile.
  unfold bind at 1. rewrite Hu. unfold bind at 1. unfold bind at 1.
  rewrite Hf. unfold ret at 1. unfold bind at 1, lift. rewrite Hd.
  reflexivity.
Qed.

Lemma CalcTextBase_falls_back_on_the_device_tree_witness :
  snd (CalcTextBase ext_signed "" dtb0 "u-boot.bin" world_no_marker)
  = inr 0x80108000.
Proof.
  refine (f_equal snd
            (proj1 (CalcTextBase_falls_back_on_the_device_tree ext_signed ""
                      dtb0 "u-boot.bin" world_no_marker
                      (zeros (Z.to_nat 0x40a0)) (zeros 8) _ _ _))).
  - reflexivity.
  - reflexivity.
  - vm_compute. reflexivity.
Defined.

(** ** More on the BL2 parameter block *)

Lemma slice_from_start (data : bytes) p :
  0 <= p ->
  Py.slice data None (Some p)
  = firstn (Z.to_nat (Z.min p (Z.of_nat (length data)))) data.
Proof.
  intros H. unfold Py.slice, Py.bound. destruct (Z.ltb_spec p 0); [lia|].
  rewrite Z.sub_0_r. reflexivity.
Qed.

Lemma slice_to_end (data : bytes) p :
  0 <= p ->
  Py.slice data (Some p) None
  = skipn (Z.to_nat (Z.min p (Z.of_nat (length data)))) data.
Proof.
  intros H. unfold Py.slice, Py.bound. destruct (Z.ltb_spec p 0); [lia|].
  apply firstn_all2. rewrite length_skipn. lia.
Qed.

Lemma slice_word_inside (data : bytes) a :
  0 <= a -> length (Py.slice data (Some a) (Some (a + 4))) = 4%nat ->
  a + 4 <= Z.of_nat (length data).
Proof.
  intros H0. unfold Py.slice, Py.bound.
  destruct (Z.ltb_spec a 0); [lia|]. destruct (Z.ltb_spec (a + 4) 0); [lia|].
  rewrite length_firstn, length_skipn. lia.
Qed.

Lemma pack_L_length v packed : Py.pack_L v = inr packed -> length packed = 4%nat.
Proof.
  unfold Py.pack_L. destruct ((0 <=? v) && (v <? 2 ^ 32)); [|discriminate].
  intros H. assert (packed = Py.le_bytes 4 v) as -> by congruence.
  apply length_le_bytes.
Qed.

Lemma unpack_I_inv word v : Py.unpack_I word = inr v -> length word = 4%nat.
Proof.
  unfold Py.unpack_I. destruct (Nat.eqb_spec (length word) 4); [|discriminate].
  intros _. assumption.
Qed.

(** One turn of the loop that returns: four more bytes, read from inside
    the blob. *)
Lemma bl2_step_returns ext self fdt size (data : bytes) P param nd upto w w'
    nd' upto' :
  bl2_step ext self fdt size data P param (nd, upto) w
  = (w', inr (nd', upto')) ->
  0 <= P + upto ->
  length nd' = (length nd + 4)%nat /\ upto' = upto + 4
  /\ P + upto + 4 <= Z.of_nat (length data).
Proof.
  unfold bl2_step. intros H Hp.
  apply bind_inr in H as (w1 & v & Hv & H). apply lift_inv in Hv as [-> Hv].
  apply bind_inr in H as (w2 & v' & _ & H).
  apply bind_inr in H as (w3 & packed & Hk & H).
  apply lift_inv in Hk as [-> Hk]. apply ret_inv in H as [_ [= -> ->]].
  apply unpack_I_inv in Hv. apply pack_L_length in Hk.
  rewrite length_app, Hk. repeat split.
  apply slice_word_inside; assumption.
Qed.

Lemma bl2_loop_returns ext self fdt size (data : bytes) P params :
  forall nd upto w w' nd' upto',
  foreach params (bl2_step ext self fdt size data P) (nd, upto) w
  = (w', inr (nd', upto')) ->
  0 <= P + upto ->
  length nd' = (length nd + 4 * length params)%nat
  /\ (params <> [] ->
      P + upto + 4 * Z.of_nat (length params) <= Z.of_nat (length data)).
Proof.
  induction params as [|p r IH]; intros nd upto w w' nd' upto' H Hp.
  - apply ret_inv in H as [_ [= -> ->]]. split; [simpl; lia|contradiction].
  - cbn [foreach] in H. apply bind_inr in H as (w1 & [nd1 upto1] & H1 & H).
    apply bl2_step_returns in H1 as (L1 & -> & B1); [|exact Hp].
    apply IH in H as (L & B); [|lia]. split.
    + rewrite L, L1. simpl. lia.
    + intros _. destruct r as [|p' r'].
      * simpl. lia.
      * specialize (B ltac:(discriminate)). cbn [length] in *. lia.
Qed.

(** Putting the new values back: the same length, and the same bytes up
    to where the values start. *)
Lemma splice_values (data nd : bytes) P h :
  0 <= h <= P ->
  (nd = [] \/ P + Z.of_nat (length nd) <= Z.of_nat (length data)) ->
  let data' := Py.slice data None (Some P) ++ nd
               ++ Py.slice data (Some (P + Z.of_nat (length nd))) None in
  length data' = length data
  /\ firstn (Z.to_nat h) data' = firstn (Z.to_nat h) data.
Proof.
  intros Hh Hnd data'. subst data'.
  rewrite slice_from_start, slice_to_end by lia.
  destruct Hnd as [->|Hle].
  - cbn [length app]. rewrite Z.add_0_r, firstn_skipn. split; reflexivity.
  - replace (Z.min P (Z.of_nat (length data))) with P by lia.
    replace (Z.min (P + Z.of_nat (length nd)) (Z.of_nat (length data)))
      with (P + Z.of_nat (length nd)) by lia.
    split.
    + rewrite !length_app, length_firstn, length_skipn. lia.
    + rewrite firstn_app, firstn_firstn, length_firstn.
      replace (Init.Nat.min (Z.to_nat h) (Z.to_nat P)) with (Z.to_nat h)
        by lia.
      replace (Z.to_nat h - Init.Nat.min (Z.to_nat P) (length data))%nat
        with 0%nat by lia.
      cbn [firstn]. apply app_nil_r.
Qed.

Lemma find_from_lower (sub l : bytes) : forall i,
  i <= Py.find_from sub l i \/ Py.find_from sub l i = -1.
Proof.
  induction l as [|b r IH]; intros i; cbn [Py.find_from].
  - destruct (Py.is_prefix sub []); [left; lia|right; reflexivity].
  - destruct (Py.is_prefix sub (b :: r)); [left; lia|].
    destruct (IH (i + 1)) as [H|H]; [left; lia|right; exact H].
Qed.

Lemma rounded_offset_nonneg k : -1 <= k -> 0 <= Z.land (k + 4) (Z.lnot 3).
Proof. intros H. apply Z.land_nonneg. left. lia. Qed.

Lemma no_file_written {A} (m : M A) w :
  writes_only (fun _ => False) m -> files (fst (m w)) = files w.
Proof. intros H. apply map_eq. intros q. apply H. tauto. Qed.

Lemma UpdateBl2Parameters_keeps ext self fdt size (data : bytes) pos w w'
    data1 :
  -1 <= pos ->
  _UpdateBl2Parameters ext self fdt size data pos w = (w', inr data1) ->
  length data1 = length data
  /\ firstn (Z.to_nat (pos + 12)) data1 = firstn (Z.to_nat (pos + 12)) data
  /\ files w' = files w.
Proof.
  intros Hpos H.
  assert (F : files w' = files w).
  { pose proof (no_file_written
                  (_UpdateBl2Parameters ext self fdt size data pos) w
                  (writes_UpdateBl2Parameters ext self _ fdt size data pos))
      as F.
    rewrite H in F. exact F. }
  split; [|split; [|exact F]]; unfold _UpdateBl2Parameters in H;
    apply bind_inr in H as (w1 & [version sz] & _ & H);
    destruct (negb (version =? 1)); try discriminate;
    destruct ((sz <? 0) || _); try discriminate;
    apply bind_inr in H as (w2 & plist & _ & H);
    apply bind_inr in H as (w3 & [nd upto] & Hloop & H);
    apply bind_inr in H as (w4 & [] & _ & H);
    apply ret_inv in H as [_ ->]; cbn [fst];
    set (k := Py.find plist ["000"%byte]) in *;
    assert (Hk : -1 <= k)
      by (subst k; unfold Py.find;
          destruct (find_from_lower ["000"%byte] plist 0); lia);
    pose proof (rounded_offset_nonneg k Hk) as Hr;
    apply bl2_loop_returns in Hloop as (L & B); try lia;
    cbn [length] in L;
    (eapply (splice_values data nd _ (pos + 12)); [lia|];
     destruct (Py.slice plist None (Some k)) as [|p r] eqn:E;
     [left; destruct nd; [reflexivity|simpl in L; lia]
     |right; specialize (B ltac:(discriminate)); lia]).
Qed.

(** X12: when the parameter update returns, the blob has the length it
    had, its bytes up to the end of the 12-byte header are the same, and no
    file is written. *)
Theorem bl2_update_keeps_length_and_header ext self fdt size (data : bytes)
    pos w w' data1 :
  -1 <= pos ->
  _UpdateBl2Parameters ext self fdt size data pos w = (w', inr data1) ->
  length data1 = length data
  /\ firstn (Z.to_nat (pos + 12)) data1 = firstn (Z.to_nat (pos + 12)) data
  /\ files w' = files w.
Proof. exact (UpdateBl2Parameters_keeps ext self fdt size data pos w w' data1). Qed.

Lemma bl2_update_keeps_length_and_header_witness :
  exists w' data1,
    _UpdateBl2Parameters ext0 bundle0 dtb0 0x50000 bl2_block_at_4 4
      (world_with "bl2.bin" bl2_block_at_4) = (w', inr data1)
    /\ length data1 = length bl2_block_at_4
    /\ firstn (Z.to_nat (4 + 12)) data1
       = firstn (Z.to_nat (4 + 12)) bl2_block_at_4
    /\ files w' = files (world_with "bl2.bin" bl2_block_at_4).
Proof.
  do 2 eexists. split; [vm_compute; reflexivity|].
  apply (bl2_update_keeps_length_and_header ext0 bundle0 dtb0 0x50000
           bl2_block_at_4 4 (world_with "bl2.bin" bl2_block_at_4)).
  - lia.
  - vm_compute. reflexivity.
Defined.

Lemma slice_inside (data : bytes) a b :
  0 <= a <= b -> b <= Z.of_nat (length data) ->
  Py.slice data (Some a) (Some b)
  = firstn (Z.to_nat (b - a)) (skipn (Z.to_nat a) data).
Proof.
  intros Ha Hb. unfold Py.slice, Py.bound.
  destruct (Z.ltb_spec a 0); [lia|]. destruct (Z.ltb_spec b 0); [lia|].
  replace (Z.min a (Z.of_nat (length data))) with a by lia.
  replace (Z.min b (Z.of_nat (length data))) with b by lia. reflexivity.
Qed.

(** The two words of the header, as [struct.unpack('<2L', ...)] gives
    them. *)
Lemma header_words (data : bytes) a :
  0 <= a -> a + 8 <= Z.of_nat (length data) ->
  Py.unpack_2L (Py.slice data (Some a) (Some (a + 8)))
  = inr (word_at data a, word_at data (a + 4)).
Proof.
  intros H0 H1. unfold Py.unpack_2L, word_at.
  rewrite !slice_inside by lia.
  replace (Z.to_nat (a + 8 - a)) with 8%nat by lia.
  replace (Z.to_nat (a + 4 - a)) with 4%nat by lia.
  replace (Z.to_nat (a + 4 + 4 - (a + 4))) with 4%nat by lia.
  rewrite length_firstn, length_skipn.
  replace (Init.Nat.min 8 (length data - Z.to_nat a)) with 8%nat by lia.
  cbn [Nat.eqb]. rewrite firstn_firstn. cbn [Init.Nat.min].
  rewrite skipn_firstn_comm, skipn_skipn.
  replace (4 + Z.to_nat a)%nat with (Z.to_nat (a + 4)) by lia.
  reflexivity.
Qed.

(** X13: a parameter block whose version is not 1 is refused: the update
    raises [CmdError] with the version it found, and writes no message and
    no file. *)
Theorem bl2_version_is_checked ext self fdt size (data : bytes) pos w :
  0 <= pos + 4 -> pos + 12 <= Z.of_nat (length data) ->
  word_at data (pos + 4) <> 1 ->
  _UpdateBl2Parameters ext self fdt size data pos w
  = (w, inl (bad_version (word_at data (pos + 4)))).
Proof.
  intros H0 H1 Hv. unfold _UpdateBl2Parameters.
  replace (pos + 12) with (pos + 4 + 8) by lia.
  rewrite header_words by lia. unfold bind at 1, lift. cbv iota beta.
  destruct (Z.eqb_spec (word_at data (pos + 4)) 1); [contradiction|].
  reflexivity.
Qed.

Lemma bl2_version_is_checked_witness :
  _UpdateBl2Parameters ext0 bundle0 dtb0 0x50000 bl2_version_2 4 w0
  = (w0, inl (bad_version 2)).
Proof.
  refine (bl2_version_is_checked ext0 bundle0 dtb0 0x50000 bl2_version_2 4 w0
            _ _ _).
  - lia.
  - vm_compute. discriminate.
  - vm_compute. discriminate.
Defined.

(** X14: a parameter block of version 1 whose declared size runs past the
    end of the blob is refused: the update raises [CmdError] with the size,
    the position and the room there is. *)
Theorem bl2_size_is_checked ext self fdt size (data : bytes) pos w :
  0 <= pos + 4 -> pos + 12 <= Z.of_nat (length data) ->
  word_at data (pos + 4) = 1 ->
  Z.of_nat (length data) < pos + word_at data (pos + 8) ->
  _UpdateBl2Parameters ext self fdt size data pos w
  = (w, inl (CmdError (bad_size_message pos (word_at data (pos + 8))
                         (Z.of_nat (length data))))).
Proof.
  intros H0 H1 Hv Hs. unfold _UpdateBl2Parameters.
  replace (pos + 12) with (pos + 4 + 8) by lia.
  rewrite header_words by lia. unfold bind at 1, lift. cbv iota beta.
  replace (pos + 4 + 4) with (pos + 8) by lia. rewrite Hv.
  change (negb (1 =? 1)) with false. cbv iota.
  destruct (Z.ltb_spec (Z.of_nat (length data))
              (pos + word_at data (pos + 8))); [|lia].
  rewrite orb_true_r. reflexivity.
Qed.

Lemma bl2_size_is_checked_witness :
  _UpdateBl2Parameters ext0 bundle0 dtb0 0x50000 bl2_size_100 4 w0
  = (w0, inl (CmdError
                "Machine parameter block size 100 is invalid: pos=4, size=100, space=24, len=28")).
Proof.
  refine (bl2_size_is_checked ext0 bundle0 dtb0 0x50000 bl2_size_100 4 w0
            _ _ _ _).
  - lia.
  - vm_compute. discriminate.
  - vm_compute. reflexivity.
  - vm_compute. reflexivity.
Defined.

Lemma round_up_4k x :
  Z.land (x + 0xfff) (Z.lnot 0xfff) = 4096 * ((x + 4095) / 4096).
Proof.
  rewrite <- Z.ldiff_land. change 0xfff with (Z.ones 12).
  rewrite Z.ldiff_ones_r by lia.
  rewrite Z.shiftl_mul_pow2, Z.shiftr_div_pow2 by lia.
  change (Z.ones 12) with 4095. change (2 ^ 12) with 4096. lia.
Qed.

(** X15: the value stored for the parameter [u] is the size of the U-Boot
    payload rounded up to a multiple of 4 KiB: a multiple of 4096, not
    below the size and less than 4096 above it. *)
Theorem bl2_uboot_size_is_rounded_up ext self fdt size value w :
  exists r,
    snd (bl2_param ext self fdt size "u"%byte value w) = inr r
    /\ r mod 4096 = 0 /\ size <= r < size + 4096.
Proof.
  exists (4096 * ((size + 4095) / 4096)). split.
  - unfold bl2_param. cbn [Byte.eqb]. cbv iota.
    change (Byte.eqb "u" "m") with false. change (Byte.eqb "u" "M") with false.
    change (Byte.eqb "u" "f") with false. change (Byte.eqb "u" "v") with false.
    change (Byte.eqb "u" "u") with true. cbv iota.
    rewrite round_up_4k. reflexivity.
  - split.
    + rewrite Z.mul_comm. apply Z.mod_mul. lia.
    + pose proof (Z.div_mod (size + 4095) 4096 ltac:(lia)).
      pose proof (Z.mod_pos_bound (size + 4095) 4096 ltac:(lia)). lia.
Qed.

Lemma chr_ord_cons b z : Py.chr (Py.ord b + 256 * z) = b.
Proof.
  unfold Py.chr, Py.ord. pose proof (Byte.to_N_bounded b) as Hb.
  replace ((Z.of_N (Byte.to_N b) + 256 * z) mod 256)
    with (Z.of_N (Byte.to_N b)).
  - rewrite N2Z.id, Byte.of_to_N. reflexivity.
  - rewrite (Z.mul_comm 256 z), Z.mod_add by lia.
    symmetry. apply Z.mod_small. lia.
Qed.

(** Packing what was unpacked gives the bytes back. *)
Lemma le_bytes_le_value (l : bytes) : Py.le_bytes (length l) (Py.le_value l) = l.
Proof.
  induction l as [|b r IH]; [reflexivity|].
  cbn [length Py.le_value Py.le_bytes]. rewrite chr_ord_cons. f_equal.
  replace ((Py.ord b + 256 * Py.le_value r) / 256) with (Py.le_value r);
    [exact IH|].
  pose proof (ord_bound b).
  rewrite (Z.mul_comm 256 (Py.le_value r)), Z.div_add by lia.
  rewrite (Z.div_small (Py.ord b) 256) by lia. lia.
Qed.

Lemma pack_unpack_word (word : bytes) :
  length word = 4%nat -> Py.pack_L (Py.le_value word) = inr word.
Proof.
  intros H. unfold Py.pack_L. pose proof (le_value_bound word) as B.
  rewrite H in B. change (256 ^ Z.of_nat 4) with (2 ^ 32) in B.
  destruct (Z.leb_spec 0 (Py.le_value word)); [|lia].
  destruct (Z.ltb_spec (Py.le_value word) (2 ^ 32)); [|lia].
  cbn [andb]. rewrite <- H at 1. rewrite le_bytes_le_value. reflexivity.
Qed.

(** X16: a parameter code that is not known is kept as it is: the turn of
    the loop writes a warning and the value, and appends to the new values
    the very four bytes it read. *)
Theorem bl2_unknown_parameter_is_kept ext self fdt size (data : bytes) P param
    nd upto w :
  known_param param = false ->
  0 <= P + upto -> P + upto + 4 <= Z.of_nat (length data) ->
  bl2_step ext self fdt size data P param (nd, upto) w
  = (World (files w)
       (out w ++ unknown_param_events param (word_at data (P + upto))),
     inr (nd ++ Py.slice data (Some (P + upto)) (Some (P + upto + 4)),
          upto + 4)).
Proof.
  unfold known_param. cbn [existsb]. intros Hk H0 H1.
  repeat (apply orb_false_elim in Hk as [? Hk]).
  unfold bl2_step. rewrite unpack_word by assumption.
  unfold bind at 1, lift. cbv iota beta.
  assert (Hp : bl2_param ext self fdt size param (word_at data (P + upto)) w
               = (World (files w)
                    (out w
                     ++ unknown_param_events param (word_at data (P + upto))),
                  inr (word_at data (P + upto)))).
  { unfold bl2_param.
    repeat match goal with
      | H : Byte.eqb param _ = false |- _ => rewrite H; clear H
      end.
    unfold unknown_param_events. run. rewrite <- app_assoc. reflexivity. }
  rewrite (bind_returns _ _ _ _ _ Hp). unfold word_at at 1.
  rewrite pack_unpack_word by (apply slice_word_length; assumption).
  reflexivity.
Qed.

Lemma bl2_unknown_parameter_is_kept_witness :
  snd (bl2_step ext0 bundle0 dtb0 0x50000 bl2_param_x 20 "x"%byte ([], 0) w0)
  = inr (Py.le_bytes 4 0x01020304, 4).
Proof.
  refine (f_equal snd
            (bl2_unknown_parameter_is_kept ext0 bundle0 dtb0 0x50000
               bl2_param_x 20 "x"%byte [] 0 w0 _ _ _)).
  - reflexivity.
  - lia.
  - vm_compute. discriminate.
Defined.

Lemma slice_body_long (data : bytes) :
  (4 <= length data)%nat ->
  Py.slice data None (Some (-4)) = firstn (length data - 4) data.
Proof.
  intros H. unfold Py.slice, Py.bound. change (-4 <? 0) with true. cbv iota.
  cbn [skipn Z.to_nat]. f_equal. lia.
Qed.

Lemma slice_body_short (data : bytes) :
  (length data < 4)%nat -> Py.slice data None (Some (-4)) = [].
Proof.
  intros H. unfold Py.slice, Py.bound. change (-4 <? 0) with true. cbv iota.
  replace (Z.to_nat (Z.max 0 (Z.of_nat (length data) + -4) - 0)) with 0%nat
    by lia.
  reflexivity.
Qed.

(** X17: the checksum update returns for every buffer; updating again
    changes nothing; a buffer of four bytes or more keeps its length and
    all its bytes but the last four, and a shorter one becomes four
    bytes. *)
Theorem UpdateChecksum_is_idempotent (data : bytes) :
  exists updated,
    _UpdateChecksum data = inr updated
    /\ _UpdateChecksum updated = inr updated
    /\ ((4 <= length data)%nat ->
        length updated = length data
        /\ firstn (length data - 4) updated = firstn (length data - 4) data)
    /\ ((length data < 4)%nat -> length updated = 4%nat).
Proof.
  rewrite UpdateChecksum_shape.
  set (body := Py.slice data None (Some (-4))).
  set (tail := Py.le_bytes 4 (sum_of_bytes body mod 2 ^ 32)).
  assert (Ht : length tail = 4%nat) by apply length_le_bytes.
  exists (body ++ tail). split; [reflexivity|]. split; [|split].
  - rewrite UpdateChecksum_shape, slice_body by exact Ht. reflexivity.
  - intros H. subst body. rewrite slice_body_long by exact H. split.
    + rewrite length_app, length_firstn, Ht. lia.
    + rewrite firstn_app, length_firstn, firstn_firstn.
      replace (length data - 4 - Init.Nat.min (length data - 4) (length data))%nat
        with 0%nat by lia.
      rewrite Nat.min_id. cbn [firstn]. apply app_nil_r.
  - intros H. subst body. rewrite slice_body_short by exact H. exact Ht.
Qed.

Lemma bind_inl {A B} (m : M A) (k : A -> M B) w w' e :
  bind m k w = (w', inl e) ->
  m w = (w', inl e) \/ exists w1 a, m w = (w1, inr a) /\ k a w1 = (w', inl e).
Proof.
  unfold bind. destruct (m w) as [w1 [e1|a]]; intros H.
  - left. injection H as -> ->. reflexivity.
  - right. exists w1, a. split; [reflexivity|exact H].
Qed.

Lemma ConfigureExynosBl2_raises ext self fdt size orig name w w' e data :
  files w !! orig = Some data ->
  ConfigureExynosBl2 ext self fdt size orig name w = (w', inl e) ->
  files w' !! updated_spl ext name = Some data.
Proof.
  intros Hf H. unfold ConfigureExynosBl2 in H.
  apply bind_inl in H as [H|(w1 & [] & He & H)]; [discriminate|].
  apply emit_inv in He.
  apply bind_inl in H as [H|(w2 & data' & Hr & H)].
  { unfold ReadFile in H. rewrite He, Hf in H. discriminate. }
  apply ReadFile_inv in Hr as [-> Hr]. rewrite He, Hf in Hr.
  injection Hr as <-.
  apply bind_inl in H as [H|(w3 & [] & Hw & H)]; [discriminate|].
  apply WriteFile_inv in Hw.
  assert (Hcopy : files w3 !! updated_spl ext name = Some data)
    by (rewrite Hw; apply lookup_insert_eq).
  apply bind_inl in H as [H|(w4 & data' & Hr & H)].
  { unfold ReadFile in H. rewrite Hcopy in H. discriminate. }
  apply ReadFile_inv in Hr as [-> Hr].
  assert (data' = data) as -> by congruence.
  apply bind_inl in H as [H|(w5 & marker & Hm & H)]; [discriminate|].
  apply lift_inv in Hm as [-> Hm]. rewrite pack_marker in Hm.
  injection Hm as <-.
  destruct (Py.rfind data bl2_marker =? 0).
  { injection H as <- _. exact Hcopy. }
  pose proof (no_file_written
                (_UpdateBl2Parameters ext self fdt size data
                   (Py.rfind data bl2_marker)) w3
                (writes_UpdateBl2Parameters ext self _ fdt size data _))
    as F.
  apply bind_inl in H as [H|(w6 & data1 & Hu & H)].
  { rewrite H in F. cbn [fst] in F. rewrite F. exact Hcopy. }
  rewrite Hu in F. cbn [fst] in F.
  apply bind_inl in H as [H|(w7 & data2 & Hc & H)].
  { injection H as <- _. rewrite F. exact Hcopy. }
  apply lift_inv in Hc as [-> _].
  apply bind_inl in H as [H|(w8 & [] & _ & H)]; discriminate.
Qed.

(** X18: a call of the patcher that raises after reading its input leaves
    at the output name a copy of the input, byte for byte, not a blob
    patched in part; and a missing input raises before anything is
    written. *)
Theorem bl2_failure_leaves_a_plain_copy ext self fdt size orig name w :
  (forall data e,
     files w !! orig = Some data ->
     snd (ConfigureExynosBl2 ext self fdt size orig name w) = inl e ->
     files (fst (ConfigureExynosBl2 ext self fdt size orig name w))
       !! updated_spl ext name = Some data)
  /\ (files w !! orig = None ->
      snd (ConfigureExynosBl2 ext self fdt size orig name w)
      = inl (IOError orig)
      /\ files (fst (ConfigureExynosBl2 ext self fdt size orig name w))
         = files w).
Proof.
  split.
  - intros data e Hf He.
    destruct (ConfigureExynosBl2 ext self fdt size orig name w)
      as [w' res] eqn:E.
    cbn [snd] in He. subst res. cbn [fst].
    exact (ConfigureExynosBl2_raises _ _ _ _ _ _ _ _ _ _ Hf E).
  - intros Hf.
    assert (E : ConfigureExynosBl2 ext self fdt size orig name w
                = (World (files w) (out w ++ [Info "Configuring BL2"]),
                   inl (IOError orig))).
    { unfold ConfigureExynosBl2.
      rewrite (bind_returns _ _ w
                 (World (files w) (out w ++ [Info "Configuring BL2"])) tt)
        by reflexivity.
      apply bind_raises. unfold ReadFile. cbn [files]. rewrite Hf.
      reflexivity. }
    rewrite E. split; reflexivity.
Qed.

Lemma bl2_failure_leaves_a_plain_copy_witness :
  files (fst (ConfigureExynosBl2 ext0 bundle0 dtb0 0x50000 "bl2.bin" ""
                (world_with "bl2.bin" bl2_version_2)))
    !! updated_spl ext0 "" = Some bl2_version_2.
Proof.
  refine (proj1 (bl2_failure_leaves_a_plain_copy ext0 bundle0 dtb0 0x50000
                   "bl2.bin" "" (world_with "bl2.bin" bl2_version_2))
            bl2_version_2 (bad_version 2) _ _).
  - reflexivity.
  - vm_compute. reflexivity.
Defined.

(** X19: the blob the patcher writes has the length of its input. *)
Theorem bl2_patched_blob_has_the_same_length ext self fdt size orig name w w'
    p :
  ConfigureExynosBl2 ext self fdt size orig name w = (w', inr p) ->
  exists data patched,
    files w !! orig = Some data
    /\ files w' !! p = Some patched
    /\ length patched = length data.
Proof.
  intros H. apply ConfigureExynosBl2_returns in H
    as (data & w1 & w2 & data1 & data2 & Hf & _ & Hu & Hc & _ & Hp).
  exists data, data2. split; [exact Hf|]. split; [exact Hp|].
  assert (Hpos : -1 <= Py.rfind data bl2_marker).
  { assert (G : forall l i, i <= Py.rfind_from bl2_marker l i
                            \/ Py.rfind_from bl2_marker l i = -1).
    { induction l as [|b r IH]; intros i; cbn [Py.rfind_from].
      - destruct (Py.is_prefix bl2_marker []); [left; lia|right; reflexivity].
      - destruct (Z.leb_spec 0 (Py.rfind_from bl2_marker r (i + 1))).
        + destruct (IH (i + 1)); [left; lia|lia].
        + destruct (Py.is_prefix bl2_marker (b :: r));
            [left; lia|right; reflexivity]. }
    pose proof (G data 0). unfold Py.rfind. lia. }
  pose proof Hu as Hu'.
  apply UpdateBl2Parameters_keeps in Hu as (L1 & _ & _); [|exact Hpos].
  assert (Hlong : (4 <= length data1)%nat).
  { unfold _UpdateBl2Parameters in Hu'.
    apply bind_inr in Hu' as (w3 & hdr & Hh & _).
    apply lift_inv in Hh as [_ Hh]. unfold Py.unpack_2L in Hh.
    destruct (Nat.eqb_spec
                (length (Py.slice data (Some (Py.rfind data bl2_marker + 4))
                           (Some (Py.rfind data bl2_marker + 12)))) 8)
      as [H8|]; [|discriminate].
    unfold Py.slice, Py.bound in H8.
    rewrite length_firstn, length_skipn in H8. lia. }
  rewrite UpdateChecksum_shape in Hc.
  assert (data2 = Py.slice data1 None (Some (-4))
                  ++ Py.le_bytes 4
                       (sum_of_bytes (Py.slice data1 None (Some (-4)))
                        mod 2 ^ 32)) as -> by congruence.
  rewrite length_app, length_le_bytes, slice_body_long, length_firstn
    by exact Hlong.
  lia.
Qed.

Lemma bl2_patched_blob_has_the_same_length_witness :
  exists data patched,
    files (world_with "bl2.bin" bl2_block_at_4) !! "bl2.bin" = Some data
    /\ files (fst (ConfigureExynosBl2 ext0 bundle0 dtb0 0x50000 "bl2.bin" ""
                     (world_with "bl2.bin" bl2_block_at_4)))
         !! "out/updated-spl.bin" = Some patched
    /\ length patched = length data.
Proof.
  apply (bl2_patched_blob_has_the_same_length ext0 bundle0 dtb0 0x50000
           "bl2.bin" "" (world_with "bl2.bin" bl2_block_at_4)).
  vm_compute. reflexivity.
Defined.

(** ** More on the boot stub *)

Lemma writes_mono {A} (P Q : string -> Prop) (m : M A) :
  (forall q, P q -> Q q) -> writes_only P m -> writes_only Q m.
Proof. intros HPQ Hm w q Hq. apply Hm. intros HP. apply Hq, HPQ, HP. Qed.

Lemma writes_check_signed_size P data signed :
  writes_only P (check_signed_size data signed).
Proof. unfold check_signed_size. frame; apply writes_getsize. Qed.

Lemma writes_CreateBootStub ext self uboot base_fdt postload :
  writes_only (bootstub_outputs ext)
    (_CreateBootStub ext self uboot base_fdt postload).
Proof.
  unfold _CreateBootStub.
  apply (writes_bind_result _ _ _
           (fun so => fname (so_fdt so)
                      = Py.path_join (outdir ext) "bootstub.dtb")).
  - apply (writes_mono (scratch ext)); [intros q Hq; right; exact Hq|].
    apply writes_sign_first.
  - intros w w' so. apply sign_first_fdt.
  - intros so Hso. apply writes_bind.
    + destruct (given postload) as [p|]; [|apply writes_ret].
      apply writes_bind.
      { apply (writes_mono (scratch ext)); [intros q Hq; right; exact Hq|].
        apply writes_sign_again. exact Hso. }
      intros [bootstub signed]. frame;
        first [apply writes_check_signed_size | apply writes_OutputSize].
    + intros [bootstub data]. frame;
        first [apply writes_OutputSize | left; reflexivity].
Qed.

(** X20: [_CreateBootStub] writes the final image and its six working
    files in the output directory, and no other file, whether it returns
    or raises: U-Boot, the BCT, the payload and the device tree it was
    given are as they were unless they bear one of those names. *)
Theorem bootstub_writes_only_its_outputs ext self uboot base_fdt postload w q :
  q <> signed_postload_name ext ->
  ~ In q (scratch_names ext) ->
  files (fst (_CreateBootStub ext self uboot base_fdt postload w)) !! q
  = files w !! q.
Proof.
  intros H1 H2. apply (writes_CreateBootStub ext self uboot base_fdt postload).
  intros [H|H]; [exact (H1 H)|exact (H2 H)].
Qed.

Lemma bootstub_writes_only_its_outputs_witness :
  files (fst (_CreateBootStub ext0 bundle0 "u-boot.bin" dtb0
                (Some "u-boot-post.bin") world_boot)) !! "updated.dtb"
  = files world_boot !! "updated.dtb".
Proof.
  apply (bootstub_writes_only_its_outputs ext0 bundle0 "u-boot.bin" dtb0
           (Some "u-boot-post.bin") world_boot "updated.dtb").
  - vm_compute. discriminate.
  - vm_compute. intros H. repeat destruct H as [H|H]; try discriminate.
    exact H.
Defined.

Lemma OutputSize_inv ext label name w w' u :
  OutputSize ext label name w = (w', inr u) -> files w' = files w.
Proof.
  intros H.
  pose proof (no_file_written (OutputSize ext label name) w
                (writes_OutputSize ext _ label name)) as F.
  rewrite H in F. exact F.
Qed.

Lemma Run_cbootimage_inv ext config signed bct bootstub w w' u :
  Run_cbootimage ext config signed bct bootstub w = (w', inr u) ->
  exists cfg b bs image,
    files w !! config = Some cfg /\ files w !! bct = Some b
    /\ files w !! bootstub = Some bs
    /\ cbootimage ext (String.string_of_list_byte cfg) b bs = inr image
    /\ files w' = <[signed := image]> (files w).
Proof.
  unfold Run_cbootimage.
  destruct (files w !! config) as [cfg|]; [|discriminate].
  destruct (files w !! bct) as [b|]; [|discriminate].
  destruct (files w !! bootstub) as [bs|]; [|discriminate].
  destruct (cbootimage ext _ b bs) as [e|image] eqn:E; [discriminate|].
  intros H. apply WriteFile_inv in H. exists cfg, b, bs, image.
  repeat split; assumption.
Qed.

(** What a signing that returns has done. *)
Lemma SignBootstub_returns ext bct bootstub text_base w w' signed :
  _SignBootstub ext bct bootstub text_base w = (w', inr signed) ->
  signed = signed_name ext
  /\ exists b dump b' bs image,
       <[boot_cfg_name ext := []]> (files w) !! bct = Some b
       /\ bct_dump ext b = inr dump
       /\ let cfg := boot_cfg bct (Py.contains "NvBootDevType_Nand" dump)
                       bootstub text_base in
          let files1 :=
            <[boot_cfg_name ext := String.list_byte_of_string cfg]> (files w)
          in
          files1 !! bct = Some b'
          /\ files1 !! bootstub = Some bs
          /\ cbootimage ext cfg b' bs = inr image
          /\ files w' = <[signed_name ext := image]> files1.
Proof.
  unfold _SignBootstub. fold (signed_name ext) (boot_cfg_name ext). intros H.
  apply bind_inr in H as (w1 & [] & He & H). apply emit_inv in He.
  apply bind_inr in H as (w2 & [] & Hw & H). apply WriteFile_inv in Hw.
  apply bind_inr in H as (w3 & dump & Hd & H).
  unfold Run_bct_dump in Hd.
  destruct (files w2 !! bct) as [b|] eqn:Eb; [|discriminate].
  assert (w3 = w2 /\ bct_dump ext b = inr dump) as [-> Hdump]
    by (split; congruence).
  apply bind_inr in H as (w4 & [] & Hw' & H). apply WriteFile_inv in Hw'.
  apply bind_inr in H as (w5 & [] & Hc & H).
  apply Run_cbootimage_inv in Hc
    as (cfg & b' & bs & image & Hcfg & Hb' & Hbs & Hrun & Hf).
  apply bind_inr in H as (w6 & [] & Ho1 & H). apply OutputSize_inv in Ho1.
  apply bind_inr in H as (w7 & [] & Ho2 & H). apply OutputSize_inv in Ho2.
  apply ret_inv in H as [-> ->].
  rewrite Hw, He in Eb. rewrite Hw', Hw, He, insert_insert_eq in *.
  rewrite lookup_insert_eq in Hcfg. injection Hcfg as <-.
  rewrite String.string_of_list_byte_of_string in Hrun.
  split; [reflexivity|]. exists b, dump, b', bs, image.
  split; [exact Eb|]. split; [exact Hdump|]. cbv zeta.
  split; [exact Hb'|]. split; [exact Hbs|]. split; [exact Hrun|congruence].
Qed.

Lemma outdir_names_differ ext a b :
  Py.starts_with "/" a = false -> Py.starts_with "/" b = false -> a <> b ->
  Py.path_join (outdir ext) a <> Py.path_join (outdir ext) b.
Proof. intros Ha Hb Hne H. apply Hne. exact (path_join_inj _ _ _ Ha Hb H). Qed.

(** X21: a signing that returns has run [cbootimage] on a configuration
    naming the BCT and the boot stub, with the text base as load and entry
    address and one BCT copy when [bct_dump] shows a NAND device; the
    configuration is in [<outdir>/boot.cfg], the image in
    [<outdir>/signed.bin], whose name is returned. *)
Theorem signing_runs_cbootimage ext bct bootstub text_base w w' signed b bs :
  bct <> boot_cfg_name ext -> bootstub <> boot_cfg_name ext ->
  files w !! bct = Some b -> files w !! bootstub = Some bs ->
  _SignBootstub ext bct bootstub text_base w = (w', inr signed) ->
  signed = signed_name ext
  /\ exists dump image,
       bct_dump ext b = inr dump
       /\ let cfg := boot_cfg bct (Py.contains "NvBootDevType_Nand" dump)
                       bootstub text_base in
          cbootimage ext cfg b bs = inr image
          /\ files w' !! signed = Some image
          /\ files w' !! boot_cfg_name ext
             = Some (String.list_byte_of_string cfg).
Proof.
  intros Hb Hbs Fb Fbs H. apply SignBootstub_returns in H
    as (-> & b0 & dump & b1 & bs1 & image & E0 & Hdump & H).
  cbv zeta in H. destruct H as (E1 & E2 & Hrun & Hf).
  rewrite lookup_insert_ne in E0, E1, E2 by congruence.
  assert (b0 = b) as -> by congruence. assert (b1 = b) as -> by congruence.
  assert (bs1 = bs) as -> by congruence.
  split; [reflexivity|]. exists dump, image. split; [exact Hdump|]. cbv zeta.
  split; [exact Hrun|]. rewrite Hf. split; [apply lookup_insert_eq|].
  rewrite lookup_insert_ne, lookup_insert_eq; [reflexivity|].
  unfold signed_name, boot_cfg_name.
  apply outdir_names_differ; [reflexivity|reflexivity|discriminate].
Qed.

Lemma signing_runs_cbootimage_witness :
  exists image,
    files (fst (_SignBootstub ext_nand "board.bct" "stub.bin" 0x108000
                  world_to_sign)) !! "out/signed.bin" = Some image
    /\ files (fst (_SignBootstub ext_nand "board.bct" "stub.bin" 0x108000
                     world_to_sign)) !! "out/boot.cfg"
       = Some (String.list_byte_of_string
                 (boot_cfg "board.bct" true "stub.bin" 0x108000)).
Proof.
  destruct (signing_runs_cbootimage ext_nand "board.bct" "stub.bin" 0x108000
              world_to_sign
              (fst (_SignBootstub ext_nand "board.bct" "stub.bin" 0x108000
                      world_to_sign))
              "out/signed.bin" (zeros 16) (zeros 12))
    as (_ & dump & image & Hd & H).
  - vm_compute. discriminate.
  - vm_compute. discriminate.
  - reflexivity.
  - reflexivity.
  - vm_compute. reflexivity.
  - injection Hd as <-. cbv zeta in H. destruct H as (_ & H1 & H2).
    exists image. split; [exact H1|exact H2].
Defined.

Lemma CalcTextBase_inv ext name fdt uboot w w' tb :
  CalcTextBase ext name fdt uboot w = (w', inr tb) -> files w' = files w.
Proof.
  intros H.
  pose proof (no_file_written (CalcTextBase ext name fdt uboot) w
                (writes_CalcTextBase ext _ name fdt uboot)) as F.
  rewrite H in F. exact F.
Qed.

(** What the first pass leaves: the boot stub, U-Boot and then the device
    tree with the mark, and the signed image just read. *)
Lemma sign_first_returns ext self uboot base_fdt w w1 so u blob :
  files w !! uboot = Some u ->
  files w !! fname base_fdt = Some blob ->
  sign_first ext self uboot base_fdt w = (w1, inr so) ->
  so_bootstub so = bootstub_name ext
  /\ files w1 !! bootstub_name ext = Some (u ++ bootstub_dtb ext blob)
  /\ files w1 !! signed_name ext = Some (so_data so).
Proof.
  intros Fu Fb H. unfold sign_first in H. fold (bootstub_name ext) in H.
  apply bind_inr in H as (wa & tb & Hc & H). apply CalcTextBase_inv in Hc.
  apply bind_inr in H as (wb & u' & Hr & H).
  apply ReadFile_inv in Hr as [-> Hr]. rewrite Hc, Fu in Hr.
  injection Hr as <-.
  apply bind_inr in H as (wc & fdt' & Hcopy & H). unfold Copy in Hcopy.
  apply bind_inr in Hcopy as (wc1 & blob' & Hr & Hcopy).
  apply ReadFile_inv in Hr as [-> Hr]. rewrite Hc, Fb in Hr.
  injection Hr as <-.
  apply bind_inr in Hcopy as (wc2 & [] & Hw & Hcopy).
  apply WriteFile_inv in Hw. apply ret_inv in Hcopy as [-> ->].
  apply bind_inr in H as (wd & [] & Hput & H). unfold PutInteger in Hput.
  cbn [fname] in Hput, H.
  apply bind_inr in Hput as (wd1 & blob' & Hr & Hput).
  apply ReadFile_inv in Hr as [-> Hr]. rewrite Hw, lookup_insert_eq in Hr.
  injection Hr as <-. apply WriteFile_inv in Hput.
  apply bind_inr in H as (we & fdt_data & Hr & H).
  apply ReadFile_inv in Hr as [-> Hr]. rewrite Hput, lookup_insert_eq in Hr.
  injection Hr as <-.
  apply bind_inr in H as (wf & [] & Hwb & H). apply WriteFile_inv in Hwb.
  apply bind_inr in H as (wg & [] & Ho & H). apply OutputSize_inv in Ho.
  apply bind_inr in H as (wh & [] & Ho' & H). apply OutputSize_inv in Ho'.
  apply bind_inr in H as (wi & [] & Ho'' & H). apply OutputSize_inv in Ho''.
  apply bind_inr in H as (wj & signed & Hs & H).
  apply SignBootstub_returns in Hs
    as (-> & b0 & dump & b1 & bs1 & image & _ & _ & Hs).
  cbv zeta in Hs. destruct Hs as (_ & _ & _ & Hf).
  apply bind_inr in H as (wk & data & Hr & H).
  apply ReadFile_inv in Hr as [-> Hr]. apply ret_inv in H as [-> ->].
  cbn [so_bootstub so_data]. split; [reflexivity|]. split; [|exact Hr].
  rewrite Hf, Ho'', Ho', Ho, Hwb.
  rewrite lookup_insert_ne;
    [rewrite lookup_insert_ne; [apply lookup_insert_eq|]|];
    unfold boot_cfg_name, signed_name, bootstub_name;
    (apply outdir_names_differ; [reflexivity|reflexivity|discriminate]).
Qed.

(** X22: without a payload, [_CreateBootStub] that returns gives the names
    [<outdir>/u-boot-fdt.bin] and [<outdir>/signed-postload.bin]; the first
    file is U-Boot followed by the device tree with the post-load offset
    set to 0xffffffff, and the second is the signed image as it is. *)
Theorem bootstub_without_payload ext self uboot base_fdt postload w w' names
    u blob :
  given postload = None ->
  files w !! uboot = Some u ->
  files w !! fname base_fdt = Some blob ->
  _CreateBootStub ext self uboot base_fdt postload w = (w', inr names) ->
  names = (bootstub_name ext, signed_postload_name ext)
  /\ files w' !! bootstub_name ext = Some (u ++ bootstub_dtb ext blob)
  /\ exists image,
       files w' !! signed_name ext = Some image
       /\ files w' !! signed_postload_name ext = Some image.
Proof.
  intros Hg Fu Fb H. unfold _CreateBootStub in H. rewrite Hg in H.
  apply bind_inr in H as (w1 & so & H1 & H).
  apply (sign_first_returns _ _ _ _ _ _ _ _ _ Fu Fb) in H1 as (Hn & Hb & Hs).
  apply bind_inr in H as (w2 & [bootstub data] & Hr & H).
  apply ret_inv in Hr as [-> [= -> ->]].
  apply bind_inr in H as (w3 & [] & Hw & H). apply WriteFile_inv in Hw.
  apply bind_inr in H as (w4 & [] & Ho & H). apply OutputSize_inv in Ho.
  apply ret_inv in H as [-> ->]. rewrite Hn. split; [reflexivity|].
  rewrite Ho, Hw. split.
  - rewrite lookup_insert_ne; [exact Hb|].
    unfold signed_postload_name, bootstub_name.
    apply outdir_names_differ; [reflexivity|reflexivity|discriminate].
  - exists (so_data so). split; [|apply lookup_insert_eq].
    rewrite lookup_insert_ne; [exact Hs|].
    unfold signed_postload_name, signed_name.
    apply outdir_names_differ; [reflexivity|reflexivity|discriminate].
Qed.

Lemma bootstub_without_payload_witness :
  snd (_CreateBootStub ext0 bundle0 "u-boot.bin" dtb0 (Some "") world_boot)
  = inr (bootstub_name ext0, signed_postload_name ext0).
Proof.
  destruct (_CreateBootStub ext0 bundle0 "u-boot.bin" dtb0 (Some "")
              world_boot) as [w' [e|names]] eqn:E.
  - exfalso. vm_compute in E. discriminate.
  - cbn [snd]. f_equal.
    refine (proj1 (bootstub_without_payload ext0 bundle0 "u-boot.bin" dtb0
                     (Some "") world_boot w' names
                     (Py.le_bytes 4 0x12345678 ++ Py.le_bytes 4 0x108000)
                     (zeros 8) _ _ _ E)); reflexivity.
Defined.

(** ** Enabling and disabling nodes *)

(** X23: a name that is no path and that [/aliases] does not have, or has
    as the empty string, is skipped: one warning is written, the device
    tree is not, and the call returns. *)
Theorem unknown_alias_is_skipped ext more self node_name enabled w blob :
  Py.starts_with "/" node_name = false ->
  files w !! fname (fdt self) = Some blob ->
  (dtb_get_string ext blob "/aliases" node_name = None
   \/ dtb_get_string ext blob "/aliases" node_name = Some EmptyString) ->
  SetNodeEnabled ext more self node_name enabled w
  = (World (files w) (out w ++ [alias_warning node_name]), inr tt).
Proof.
  intros Hs Hf Ha. unfold SetNodeEnabled. rewrite Hs. cbn [negb].
  assert (Hg : GetString ext (fdt self) "/aliases" node_name "" w
               = (w, inr EmptyString)).
  { unfold GetString, bind, ReadFile. rewrite Hf.
    destruct Ha as [-> | ->]; reflexivity. }
  unfold bind at 1. unfold bind at 1. rewrite Hg. reflexivity.
Qed.

Lemma unknown_alias_is_skipped_witness :
  SetNodeEnabled ext0 more_writes bundle0 "console" 1 world_boot
  = (World (files world_boot) [alias_warning "console"], inr tt).
Proof.
  apply (unknown_alias_is_skipped ext0 more_writes bundle0 "console" 1
           world_boot (zeros 8)).
  - reflexivity.
  - reflexivity.
  - left. reflexivity.
Defined.

Lemma foreach_app {A S} (body : A -> S -> M S) (l1 l2 : list A) :
  forall s w,
  foreach (l1 ++ l2) body s w
  = bind (foreach l1 body s) (foreach l2 body) w.
Proof.
  induction l1 as [|a r IH]; intros s w; cbn [app foreach].
  - reflexivity.
  - unfold bind. destruct (body a s w) as [w1 [e|s1]]; [reflexivity|].
    rewrite IH. reflexivity.
Qed.

Lemma enable_value_invalid v :
  is_enable_flag v = false ->
  exists v', enable_value v = inl (bad_enable v').
Proof.
  unfold is_enable_flag, enable_value.
  destruct (match v with VInt z => Some z | VStr s => int10 s end) as [z|].
  - intros ->. cbn [negb]. eauto.
  - eauto.
Qed.

(** X24: the enable list is applied entry by entry and stops at the first
    value that does not read as 0 or 1, with [CmdError]: the entries before
    it stay applied to the device tree, the ones after it are not looked
    at. *)
Theorem enable_list_stops_at_invalid_value ext more self before node bad after
    w w1 :
  AddEnableList ext more self before w = (w1, inr tt) ->
  is_enable_flag bad = false ->
  exists v,
    AddEnableList ext more self (before ++ (node, bad) :: after) w
    = (w1, inl (bad_enable v)).
Proof.
  intros Hb Hv. destruct (enable_value_invalid bad Hv) as [v E].
  exists v. unfold AddEnableList in *. rewrite foreach_app.
  rewrite (bind_returns _ _ _ _ _ Hb). cbn [foreach].
  apply bind_raises. unfold enable_entry. apply bind_raises.
  unfold lift. rewrite E. reflexivity.
Qed.

Lemma enable_list_stops_at_invalid_value_witness :
  exists v,
    AddEnableList ext0 more_writes bundle0
      [("/uart@10200000", VStr "1"); ("/i2c@7000c000", VStr "yes");
       ("/spi@7000d600", VInt 0)] world_boot
    = (fst (AddEnableList ext0 more_writes bundle0
              [("/uart@10200000", VStr "1")] world_boot),
       inl (bad_enable v)).
Proof.
  apply (enable_list_stops_at_invalid_value ext0 more_writes bundle0
           [("/uart@10200000", VStr "1")] "/i2c@7000c000" (VStr "yes")
           [("/spi@7000d600", VInt 0)] world_boot).
  - vm_compute. reflexivity.
  - reflexivity.
Defined.

(** ** The read-only EC image *)

Lemma is_prefix_app (p l : bytes) :
  Py.is_prefix p l = true -> exists rest, l = p ++ rest.
Proof.
  revert l. induction p as [|a p IH]; intros l H.
  - exists l. reflexivity.
  - destruct l as [|b l]; [discriminate|]. cbn [Py.is_prefix] in H.
    apply andb_prop in H as [Hab H].
    apply Byte.byte_dec_bl in Hab. subst b.
    destruct (IH l H) as [rest ->]. exists rest. reflexivity.
Qed.

(** On a match the replacement is written and the search goes on after
    the match. *)
Lemma mangle_match rest :
  mangle_fmap (fmap_name ++ rest) = fmap_mangled ++ mangle_fmap rest.
Proof.
  unfold mangle_fmap. change (fmap_name ++ rest)
    with ("_"%byte :: (skipn 1 fmap_name ++ rest)).
  cbn [re_sub_from]. change (Py.is_prefix fmap_name
                               ("_"%byte :: skipn 1 fmap_name ++ rest))
    with true.
  reflexivity.
Qed.

Lemma mangle_no_match b r :
  Py.is_prefix fmap_name (b :: r) = false ->
  mangle_fmap (b :: r) = b :: mangle_fmap r.
Proof. unfold mangle_fmap. cbn [re_sub_from]. intros ->. reflexivity. Qed.

Lemma mangle_pointwise n : forall data,
  (length data <= n)%nat ->
  Forall2 kept_or_lowered data (mangle_fmap data).
Proof.
  induction n as [|n IH]; intros data Hn.
  - destruct data; [constructor|simpl in Hn; lia].
  - destruct data as [|b r]; [constructor|].
    destruct (Py.is_prefix fmap_name (b :: r)) eqn:E.
    + apply is_prefix_app in E as [rest E]. rewrite E, mangle_match.
      apply Forall2_app.
      * unfold fmap_name, fmap_mangled, kept_or_lowered.
        repeat constructor; tauto.
      * apply IH. rewrite E in Hn. rewrite length_app in Hn.
        simpl in Hn. lia.
    + rewrite mangle_no_match by exact E. constructor.
      * left. reflexivity.
      * apply IH. simpl in Hn. lia.
Qed.

(** X25: mangling the flash map name keeps the length of the image, and
    byte by byte it changes nothing but capital F into small f. *)
Theorem mangle_fmap_changes_only_F (data : bytes) :
  length (mangle_fmap data) = length data
  /\ Forall2 kept_or_lowered data (mangle_fmap data).
Proof.
  pose proof (mangle_pointwise (length data) data (le_n _)) as H.
  split; [symmetry; exact (Forall2_length _ _ _ H)|exact H].
Qed.

Lemma mangle_fixed_iff (data : bytes) : forall i,
  0 <= i ->
  (Py.find_from fmap_name data i = -1 <-> mangle_fmap data = data).
Proof.
  induction data as [|b r IH]; intros i Hi.
  - cbn. split; reflexivity.
  - cbn [Py.find_from]. destruct (Py.is_prefix fmap_name (b :: r)) eqn:E.
    + split; [lia|]. apply is_prefix_app in E as [rest E].
      rewrite E, mangle_match. discriminate.
    + rewrite mangle_no_match by exact E. rewrite (IH (i + 1)) by lia.
      split; [intros ->; reflexivity|intros [= H]; exact H].
Qed.

(** X26: for the blob type [ecro] the image is read, mangled and written
    to [<outdir>/updated-ecro.bin], whose name is the property; the copy is
    the image itself exactly when the image does not hold the flash map
    name. *)
Theorem ecro_copy_is_mangled ext ecro_fname w (data : bytes) :
  files w !! ecro_fname = Some data ->
  build_ecro ext ecro_fname w
  = (World (<[updated_ecro ext := mangle_fmap data]> (files w)) (out w),
     inr (updated_ecro ext))
  /\ (mangle_fmap data = data <-> Py.find data fmap_name = -1).
Proof.
  intros Hf. split.
  - unfold build_ecro, bind, ReadFile. rewrite Hf. reflexivity.
  - symmetry. apply mangle_fixed_iff. lia.
Qed.

Lemma ecro_copy_is_mangled_witness :
  files (fst (build_ecro ext0 "ec.RO.bin" world_ec)) !! "out/updated-ecro.bin"
  = Some (zeros 3 ++ fmap_mangled ++ zeros 2).
Proof.
  rewrite (proj1 (ecro_copy_is_mangled ext0 "ec.RO.bin" world_ec
                    (zeros 3 ++ fmap_name ++ zeros 2) eq_refl)).
  reflexivity.
Defined.

(** Two names that share their underscores: the search goes on after the
    first one, and the second one is still there after the mangling. *)
Example mangle_fmap_overlap :
  mangle_fmap (fmap_name ++ skipn 2 fmap_name)
  = fmap_mangled ++ skipn 2 fmap_name
  /\ Py.find (fmap_mangled ++ skipn 2 fmap_name) fmap_name = 6.
Proof. split; reflexivity. Qed.

(** ** File names and their defaults *)

Lemma path_join_set a b :
  b <> EmptyString -> Names.is_set (Some (Py.path_join a b)) = true.
Proof.
  intros Hb. unfold Py.path_join.
  destruct (Py.starts_with "/" b).
  - destruct b; [contradiction|reflexivity].
  - destruct (String.eqb a "" || Py.ends_with_slash a).
    + destruct a; [destruct b; [contradiction|reflexivity]|reflexivity].
    + destruct a; reflexivity.
Qed.

Lemma or_default_kept name default :
  Names.is_set (Some default) = true ->
  kept_if_set name (Names.or_default name default).
Proof.
  intros Hd. unfold kept_if_set, Names.or_default.
  destruct (Names.is_set name) eqn:E.
  - split; [exact E|reflexivity].
  - split; [exact Hd|discriminate].
Qed.

Lemma append_dts_set root : root +:+ ".dts" <> EmptyString.
Proof. destruct root; discriminate. Qed.

(** X27: [CheckOptions] raises [ValueError] when no board is set; when it
    returns, the device tree's name and the ten names it has a default
    for are all set, and each of the ten that was set before is as it
    was. *)
Theorem CheckOptions_sets_every_name glob ext (self : Names.t) :
  (Names.is_set (Names._board self) = false ->
   exists msg, Names.CheckOptions glob ext self = inl (ValueError msg))
  /\ (forall self',
        Names.CheckOptions glob ext self = inr self' ->
        Names.is_set (Names._board self) = true
        /\ Names.is_set (Names._fdt_fname self') = true
        /\ Forall2 kept_if_set (defaulted_names self) (defaulted_names self')).
Proof.
  unfold Names.CheckOptions. split.
  - intros ->. eexists. reflexivity.
  - intros self'. destruct (Names.is_set (Names._board self));
      [|discriminate].
    cbn [negb]. cbv zeta.
    set (name := if negb (Names.is_set (Names._fdt_fname self)) then _
                 else Names.text (Names._fdt_fname self)).
    destruct (OsPath.splitext name) as [root ext'] eqn:Es.
    intros [= <-]. split; [reflexivity|]. split.
    + cbn [Names._fdt_fname].
      destruct (String.eqb ext' "" && String.eqb (OsPath.dirname root) "")
        eqn:Ec.
      * apply path_join_set, append_dts_set.
      * destruct name as [|c r]; [|reflexivity].
        cbv in Es. injection Es as <- <-. discriminate.
    + unfold defaulted_names.
      cbn -[Py.path_join Names.or_default Names.build_root].
      repeat (constructor;
              [apply or_default_kept;
               first [apply path_join_set; discriminate|reflexivity]|]).
      constructor.
Qed.

Lemma CheckOptions_sets_every_name_witness :
  exists self',
    Names.CheckOptions no_glob ext0 names_daisy = inr self'
    /\ Names.is_set (Names._board names_daisy) = true
    /\ Names.is_set (Names._fdt_fname self') = true
    /\ Forall2 kept_if_set (defaulted_names names_daisy)
         (defaulted_names self').
Proof.
  eexists. split; [reflexivity|].
  exact (proj2 (CheckOptions_sets_every_name no_glob ext0 names_daisy)
           _ eq_refl).
Defined.

Lemma rfind_absent c s : forall i,
  has_code (Py.code c) s = false -> OsPath.rfind_from c s i = -1.
Proof.
  induction s as [|a r IH]; intros i H; [reflexivity|].
  cbn [has_code] in H. apply orb_false_elim in H as [Ha Hr].
  cbn [OsPath.rfind_from]. rewrite (IH (i + 1) Hr). cbn [Z.leb Z.compare].
  rewrite code_eqb in Ha. rewrite Ha. reflexivity.
Qed.

Lemma rfind_last c stem rest : forall i,
  0 <= i -> has_code (Py.code c) rest = false ->
  OsPath.rfind_from c (stem +:+ String c rest) i
  = i + Z.of_nat (String.length stem).
Proof.
  induction stem as [|a s IH]; intros i Hi Hr.
  - change (OsPath.rfind_from c (String c rest) i = i + 0).
    cbn [OsPath.rfind_from].
    rewrite (rfind_absent c rest (i + 1) Hr). cbn [Z.leb Z.compare].
    rewrite Ascii.eqb_refl. lia.
  - change (OsPath.rfind_from c (String a (s +:+ String c rest)) i
            = i + Z.of_nat (S (String.length s))).
    cbn [OsPath.rfind_from].
    rewrite (IH (i + 1)) by (lia || assumption).
    destruct (Z.leb_spec 0 (i + 1 + Z.of_nat (String.length s))); lia.
Qed.

Lemma str_from_append stem x :
  str_from (String.length stem) (stem +:+ x) = x.
Proof. induction stem as [|a s IH]; [destruct x; reflexivity|exact IH]. Qed.

(** The split of a name with no slash and no dot, and of such a name
    followed by [.dts]. *)
Lemma splitext_bare name :
  has_code 47 name = false -> has_code 46 name = false ->
  OsPath.splitext name = (name, EmptyString)
  /\ OsPath.dirname name = EmptyString.
Proof.
  intros Hs Hd. unfold OsPath.splitext, OsPath.dirname, OsPath.rfind.
  rewrite (rfind_absent "/" name 0 Hs), (rfind_absent "." name 0 Hd).
  split; [reflexivity|]. destruct name; reflexivity.
Qed.

Lemma splitext_dts stem :
  stem <> EmptyString ->
  has_code 47 stem = false -> has_code 46 stem = false ->
  snd (OsPath.splitext (stem +:+ ".dts")) = ".dts".
Proof.
  intros Hne Hs Hd. unfold OsPath.splitext, OsPath.rfind.
  assert (Hsl : has_code 47 (stem +:+ ".dts") = false)
    by (rewrite has_code_app, Hs; reflexivity).
  rewrite (rfind_absent "/" _ 0 Hsl).
  rewrite (rfind_last "." stem "dts" 0) by (lia || reflexivity).
  destruct stem as [|c r]; [contradiction|].
  cbn [has_code] in Hd. apply orb_false_elim in Hd as [Hc _].
  change 46 with (Py.code ".") in Hc. rewrite code_eqb in Hc.
  replace (Z.to_nat (0 + Z.of_nat (String.length (String c r)) - (-1 + 1)))
    with (S (String.length r)) by (cbn [String.length]; lia).
  replace (Z.to_nat (0 + Z.of_nat (String.length (String c r))))
    with (String.length (String c r)) by lia.
  change (Z.to_nat (-1 + 1)) with 0%nat.
  cbn [OsPath.has_stem].
  change (String.get 0 (String c r +:+ ".dts")) with (Some c).
  cbv beta iota. rewrite Hc. cbn [negb].
  destruct (Z.ltb_spec (-1) (0 + Z.of_nat (String.length (String c r))));
    [|lia].
  cbn [andb snd]. exact (str_from_append (String c r) ".dts").
Qed.

(** X28: a device tree name with no directory and no extension, such as
    [exynos5250-daisy], is looked for in the board's [dts] directory with
    [.dts] added; a name [<stem>.dts] with no directory is kept as it
    is. *)
Theorem CheckOptions_expands_bare_fdt_name glob ext (self self' : Names.t)
    board name :
  Names.CheckOptions glob ext self = inr self' ->
  Names._board self = Some board ->
  Names._fdt_fname self = Some name ->
  name <> EmptyString ->
  has_code 47 name = false ->
  (has_code 46 name = false ->
   Names._fdt_fname self'
   = Some (Py.path_join (Names.dts_dir board) (name +:+ ".dts")))
  /\ (forall stem,
        name = stem +:+ ".dts" -> stem <> EmptyString ->
        has_code 46 stem = false ->
        Names._fdt_fname self' = Some name).
Proof.
  unfold Names.CheckOptions. intros H Hb Hf Hne Hs.
  rewrite Hb, Hf in H.
  destruct (Names.is_set (Some board)); [|discriminate]. cbn [negb] in H.
  assert (Hset : Names.is_set (Some name) = true)
    by (destruct name; [contradiction|reflexivity]).
  rewrite Hset in H. cbn [negb Names.text] in H. cbv zeta in H. split.
  - intros Hd. destruct (splitext_bare name Hs Hd) as [E1 E2].
    rewrite E1, E2 in H. cbn [String.eqb andb] in H.
    injection H as <-. reflexivity.
  - intros stem -> Hst Hd.
    assert (Hs' : has_code 47 stem = false).
    { rewrite has_code_app in Hs. apply orb_false_elim in Hs as [Hs _].
      exact Hs. }
    pose proof (splitext_dts stem Hst Hs' Hd) as E.
    destruct (OsPath.splitext (stem +:+ ".dts")) as [root ext'].
    cbn [snd] in E. subst ext'. cbn [String.eqb andb] in H.
    injection H as <-. reflexivity.
Qed.

Lemma CheckOptions_expands_bare_fdt_name_witness :
  exists self',
    Names.CheckOptions no_glob ext0 names_daisy = inr self'
    /\ Names._fdt_fname self'
       = Some "##/build/daisy/firmware/dts/exynos5250-daisy.dts".
Proof.
  eexists. split; [reflexivity|].
  refine (proj1 (CheckOptions_expands_bare_fdt_name no_glob ext0 names_daisy _
                   "daisy" "exynos5250-daisy" eq_refl eq_refl eq_refl _ _) _).
  - discriminate.
  - reflexivity.
  - reflexivity.
Defined.

(** ** The boot stub signed a second time *)

Lemma not_scratch ext q :
  ~ In q (scratch_names ext) ->
  bootstub_name ext <> q /\ bootstub_dtb_name ext <> q
  /\ boot_cfg_name ext <> q /\ signed_name ext <> q
  /\ bootstub_postload_name ext <> q /\ postload_stub_name ext <> q.
Proof.
  intros H. unfold scratch_names in H. cbn [map In] in H.
  repeat split; intros E; apply H; rewrite <- E;
    unfold bootstub_name, bootstub_dtb_name, boot_cfg_name, signed_name,
      bootstub_postload_name, postload_stub_name; tauto.
Qed.

(** Two names of the output directory that are spelled differently. *)
Ltac other_name :=
  unfold bootstub_name, bootstub_dtb_name, boot_cfg_name, signed_name,
    bootstub_postload_name, postload_stub_name, signed_postload_name;
  apply outdir_names_differ; [reflexivity|reflexivity|discriminate].

(** A lookup under writes to other names. *)
Ltac past_writes :=
  repeat (rewrite lookup_insert_ne by (assumption || other_name)).

Lemma sign_first_signs ext self uboot base_fdt w w1 so u blob b :
  files w !! uboot = Some u ->
  files w !! fname base_fdt = Some blob ->
  files w !! Filename ext (bct_fname self) = Some b ->
  ~ In (Filename ext (bct_fname self)) (scratch_names ext) ->
  sign_first ext self uboot base_fdt w = (w1, inr so) ->
  so_bootstub so = bootstub_name ext
  /\ so_uboot_data so = u
  /\ fname (so_fdt so) = bootstub_dtb_name ext
  /\ result (CalcTextBase ext "" (fdt self) uboot) w
     = inr (so_text_base so)
  /\ exists dump,
       bct_dump ext b = inr dump
       /\ let cfg := sign_cfg (Filename ext (bct_fname self)) dump
                       (bootstub_name ext) (so_text_base so) in
          cbootimage ext cfg b (u ++ bootstub_dtb ext blob)
          = inr (so_data so)
          /\ files w1
             = <[signed_name ext := so_data so]>
                 (<[boot_cfg_name ext := String.list_byte_of_string cfg]>
                    (<[bootstub_name ext := u ++ bootstub_dtb ext blob]>
                       (<[bootstub_dtb_name ext := bootstub_dtb ext blob]>
                          (files w)))).
Proof.
  intros Fu Fb Fbct Hbct H.
  destruct (not_scratch ext _ Hbct) as (N1 & N2 & N3 & N4 & N5 & N6).
  unfold sign_first in H.
  fold (bootstub_name ext) (bootstub_dtb_name ext) in H.
  apply bind_inr in H as (wa & tb & Hc & H).
  assert (Htb : result (CalcTextBase ext "" (fdt self) uboot) w = inr tb)
    by (unfold result; rewrite Hc; reflexivity).
  apply CalcTextBase_inv in Hc.
  apply bind_inr in H as (wb & u' & Hr & H).
  apply ReadFile_inv in Hr as [-> Hr]. rewrite Hc, Fu in Hr.
  injection Hr as <-.
  apply bind_inr in H as (wc & fdt' & Hcopy & H). unfold Copy in Hcopy.
  apply bind_inr in Hcopy as (wc1 & blob' & Hr & Hcopy).
  apply ReadFile_inv in Hr as [-> Hr]. rewrite Hc, Fb in Hr.
  injection Hr as <-.
  apply bind_inr in Hcopy as (wc2 & [] & Hw & Hcopy).
  apply WriteFile_inv in Hw. apply ret_inv in Hcopy as [-> ->].
  apply bind_inr in H as (wd & [] & Hput & H). unfold PutInteger in Hput.
  cbn [fname] in Hput, H.
  apply bind_inr in Hput as (wd1 & blob' & Hr & Hput).
  apply ReadFile_inv in Hr as [-> Hr]. rewrite Hw, lookup_insert_eq in Hr.
  injection Hr as <-. apply WriteFile_inv in Hput.
  fold (bootstub_dtb ext blob) in Hput.
  apply bind_inr in H as (we & fdt_data & Hr & H).
  apply ReadFile_inv in Hr as [-> Hr]. rewrite Hput, lookup_insert_eq in Hr.
  injection Hr as <-.
  apply bind_inr in H as (wf & [] & Hwb & H). apply WriteFile_inv in Hwb.
  apply bind_inr in H as (wg & [] & Ho & H). apply OutputSize_inv in Ho.
  apply bind_inr in H as (wh & [] & Ho' & H). apply OutputSize_inv in Ho'.
  apply bind_inr in H as (wi & [] & Ho'' & H). apply OutputSize_inv in Ho''.
  apply bind_inr in H as (wj & signed & Hs & H).
  apply SignBootstub_returns in Hs
    as (-> & b0 & dump & b1 & bs1 & image & E0 & Hdump & Hs).
  cbv zeta in Hs. destruct Hs as (E1 & E2 & Hrun & Hf).
  apply bind_inr in H as (wk & data & Hr & H).
  apply ReadFile_inv in Hr as [-> Hr]. apply ret_inv in H as [-> ->].
  cbn [so_bootstub so_data so_uboot_data so_fdt so_text_base fname].
  rewrite Hf, lookup_insert_eq in Hr. injection Hr as <-.
  rewrite Ho'', Ho', Ho, Hwb, Hput, Hw, Hc, insert_insert_eq in E0, E1, E2, Hf.
  rewrite lookup_insert_ne in E2 by other_name.
  rewrite lookup_insert_eq in E2. injection E2 as <-.
  repeat (rewrite lookup_insert_ne in E0 by (assumption || other_name)). repeat (rewrite lookup_insert_ne in E1 by (assumption || other_name)).
  assert (b0 = b) as -> by congruence. assert (b1 = b) as -> by congruence.
  repeat (split; [reflexivity || assumption|]).
  exists dump. split; [exact Hdump|]. cbv zeta. unfold sign_cfg.
  split; [exact Hrun|exact Hf].
Qed.

Lemma sign_again_signs ext self so p w1 w2 bootstub signed bs dtb1 b post :
  so_bootstub so = bootstub_name ext ->
  fname (so_fdt so) = bootstub_dtb_name ext ->
  files w1 !! bootstub_name ext = Some bs ->
  files w1 !! bootstub_dtb_name ext = Some dtb1 ->
  files w1 !! Filename ext (bct_fname self) = Some b ->
  ~ In (Filename ext (bct_fname self)) (scratch_names ext) ->
  files w1 !! p = Some post ->
  sign_again ext self so p w1 = (w2, inr (bootstub, signed)) ->
  bootstub = bootstub_postload_name ext
  /\ signed = signed_name ext
  /\ exists dump image2,
       bct_dump ext b = inr dump
       /\ let dtb2 := dtb_put_integer ext dtb1 "/config" "postload-text-offset"
                        (Z.of_nat (length (so_data so))) in
          let cfg := sign_cfg (Filename ext (bct_fname self)) dump
                       (postload_stub_name ext) (so_text_base so) in
          cbootimage ext cfg b (so_uboot_data so ++ dtb2) = inr image2
          /\ files w2
             = <[signed_name ext := image2]>
                 (<[boot_cfg_name ext := String.list_byte_of_string cfg]>
                    (<[postload_stub_name ext := so_uboot_data so ++ dtb2]>
                       (<[bootstub_dtb_name ext := dtb2]>
                          (<[bootstub_postload_name ext := bs ++ post]>
                             (files w1))))).
Proof.
  intros Hbs Hfdt Fbs Fdtb Fbct Hbct Fp H.
  destruct (not_scratch ext _ Hbct) as (N1 & N2 & N3 & N4 & N5 & N6).
  unfold sign_again in H. rewrite Hbs in H.
  fold (bootstub_postload_name ext) (postload_stub_name ext) in H.
  apply bind_inr in H as (wa & bs' & Hr & H).
  apply ReadFile_inv in Hr as [-> Hr]. rewrite Fbs in Hr. injection Hr as <-.
  apply bind_inr in H as (wa & post' & Hr & H).
  apply ReadFile_inv in Hr as [-> Hr]. rewrite Fp in Hr. injection Hr as <-.
  apply bind_inr in H as (wb & [] & Hw & H). apply WriteFile_inv in Hw.
  apply bind_inr in H as (wc & [] & Ho & H). apply OutputSize_inv in Ho.
  apply bind_inr in H as (wd & [] & Hput & H). unfold PutInteger in Hput.
  rewrite Hfdt in Hput, H.
  apply bind_inr in Hput as (wd1 & blob' & Hr & Hput).
  apply ReadFile_inv in Hr as [-> Hr]. rewrite Ho, Hw in Hr.
  rewrite lookup_insert_ne in Hr by other_name. rewrite Fdtb in Hr.
  injection Hr as <-. apply WriteFile_inv in Hput.
  apply bind_inr in H as (we & fdt_data & Hr & H).
  apply ReadFile_inv in Hr as [-> Hr]. rewrite Hput, lookup_insert_eq in Hr.
  injection Hr as <-.
  apply bind_inr in H as (wf & [] & Hwb & H). apply WriteFile_inv in Hwb.
  apply bind_inr in H as (wg & signed' & Hs & H).
  apply SignBootstub_returns in Hs
    as (-> & b0 & dump & b1 & bs1 & image & E0 & Hdump & Hs).
  cbv zeta in Hs. destruct Hs as (E1 & E2 & Hrun & Hf).
  apply ret_inv in H as [-> [= -> ->]].
  rewrite Hwb, Hput, Ho, Hw in E0, E1, E2, Hf.
  rewrite lookup_insert_ne in E2 by other_name.
  rewrite lookup_insert_eq in E2. injection E2 as <-.
  repeat (rewrite lookup_insert_ne in E0 by (assumption || other_name)).
  repeat (rewrite lookup_insert_ne in E1 by (assumption || other_name)).
  assert (b0 = b) as -> by congruence. assert (b1 = b) as -> by congruence.
  split; [reflexivity|]. split; [reflexivity|].
  exists dump, image. split; [exact Hdump|]. cbv zeta. unfold sign_cfg.
  split; [exact Hrun|exact Hf].
Qed.

(** *** The steps that return *)

Lemma ReadFile_ok name w d :
  files w !! name = Some d -> ReadFile name w = (w, inr d).
Proof. unfold ReadFile. intros ->. reflexivity. Qed.

Lemma OutputSize_ok ext label name w :
  is_Some (files w !! name) ->
  exists w', OutputSize ext label name w = (w', inr tt)
             /\ files w' = files w.
Proof.
  intros [d Hd]. unfold OutputSize, getsize.
  rewrite (bind_returns _ _ _ _ _
             (bind_returns _ _ _ _ _ (ReadFile_ok _ _ _ Hd))).
  eexists. split; reflexivity.
Qed.

Lemma PutInteger_ok ext f node prop v w blob :
  files w !! fname f = Some blob ->
  exists w', PutInteger ext f node prop v w = (w', inr tt)
             /\ files w'
                = <[fname f := dtb_put_integer ext blob node prop v]> (files w).
Proof.
  intros Hf. unfold PutInteger.
  rewrite (bind_returns _ _ _ _ _ (ReadFile_ok _ _ _ Hf)).
  eexists. split; reflexivity.
Qed.

(** A file that is there stays there when another is written. *)
Lemma written_keeps (m : gmap string (list byte)) k v q :
  is_Some (m !! q) -> is_Some (<[k := v]> m !! q).
Proof.
  intros H. destruct (decide (k = q)) as [->|Hne].
  - rewrite lookup_insert_eq. eauto.
  - rewrite lookup_insert_ne by exact Hne. exact H.
Qed.

Lemma SignBootstub_progress ext bct bootstub text_base w b bs dump image :
  boot_cfg_name ext <> bct -> boot_cfg_name ext <> bootstub ->
  files w !! bct = Some b -> files w !! bootstub = Some bs ->
  bct_dump ext b = inr dump ->
  cbootimage ext (sign_cfg bct dump bootstub text_base) b bs = inr image ->
  exists w',
    _SignBootstub ext bct bootstub text_base w = (w', inr (signed_name ext)).
Proof.
  intros Nb Ns Fb Fs Hdump Hrun. unfold _SignBootstub.
  fold (signed_name ext) (boot_cfg_name ext).
  erewrite bind_returns by reflexivity.
  erewrite bind_returns by reflexivity.
  match goal with |- context [bind _ _ ?w0] => set (wa := w0) end.
  assert (Ea : Run_bct_dump ext bct wa = (wa, inr dump)).
  { unfold Run_bct_dump. subst wa. cbn [files].
    rewrite lookup_insert_ne by exact Nb. rewrite Fb, Hdump. reflexivity. }
  rewrite (bind_returns _ _ _ _ _ Ea).
  erewrite bind_returns by reflexivity.
  match goal with |- context [bind _ _ ?w0] => set (wb := w0) end.
  assert (Eb : Run_cbootimage ext (boot_cfg_name ext) (signed_name ext) bct
                 bootstub wb
               = (World (<[signed_name ext := image]> (files wb)) (out wb),
                  inr tt)).
  { unfold Run_cbootimage. subst wb wa. cbn [files].
    rewrite lookup_insert_eq.
    rewrite !(lookup_insert_ne _ (boot_cfg_name ext) bct) by exact Nb.
    rewrite !(lookup_insert_ne _ (boot_cfg_name ext) bootstub) by exact Ns.
    rewrite Fb, Fs, String.string_of_list_byte_of_string.
    fold (sign_cfg bct dump bootstub text_base). rewrite Hrun. reflexivity. }
  rewrite (bind_returns _ _ _ _ _ Eb).
  match goal with |- context [bind _ _ ?w0] => set (wc := w0) end.
  destruct (OutputSize_ok ext "BCT" bct wc) as (wd & Ed & Fd).
  { subst wc wb wa. cbn [files]. repeat apply written_keeps. eauto. }
  rewrite (bind_returns _ _ _ _ _ Ed).
  destruct (OutputSize_ok ext "Signed image" (signed_name ext) wd)
    as (we & Ee & Fe).
  { rewrite Fd. subst wc. cbn [files]. rewrite lookup_insert_eq. eauto. }
  rewrite (bind_returns _ _ _ _ _ Ee).
  eexists. reflexivity.
Qed.

Lemma Copy_ok fdt new_name w blob :
  files w !! fname fdt = Some blob ->
  Copy fdt new_name w
  = (World (<[new_name := blob]> (files w)) (out w),
     inr {| fname := new_name |}).
Proof.
  intros Hf. unfold Copy.
  rewrite (bind_returns _ _ _ _ _ (ReadFile_ok _ _ _ Hf)). reflexivity.
Qed.

Lemma sign_first_progress ext self uboot base_fdt w u blob b tb dump image1 :
  files w !! uboot = Some u ->
  files w !! fname base_fdt = Some blob ->
  files w !! Filename ext (bct_fname self) = Some b ->
  ~ In (Filename ext (bct_fname self)) (scratch_names ext) ->
  is_Some (files w !! uboot_fname self) ->
  is_Some (files w !! _fdt_fname self) ->
  result (CalcTextBase ext "" (fdt self) uboot) w = inr tb ->
  bct_dump ext b = inr dump ->
  cbootimage ext
    (sign_cfg (Filename ext (bct_fname self)) dump (bootstub_name ext) tb)
    b (u ++ bootstub_dtb ext blob) = inr image1 ->
  exists w1 so, sign_first ext self uboot base_fdt w = (w1, inr so).
Proof.
  intros Fu Fb Fbct Hbct Su Sf Htb Hdump Hrun.
  destruct (not_scratch ext _ Hbct) as (N1 & N2 & N3 & N4 & N5 & N6).
  unfold sign_first.
  fold (bootstub_name ext) (bootstub_dtb_name ext).
  destruct (CalcTextBase ext "" (fdt self) uboot w) as [wc r] eqn:Ec.
  unfold result in Htb. rewrite Ec in Htb. cbn [snd] in Htb. subst r.
  pose proof (CalcTextBase_inv _ _ _ _ _ _ _ Ec) as Fc.
  rewrite (bind_returns _ _ _ _ _ Ec).
  rewrite (bind_returns _ _ _ _ _ (ReadFile_ok uboot wc u ltac:(congruence))).
  rewrite (bind_returns _ _ _ _ _
             (Copy_ok base_fdt (bootstub_dtb_name ext) wc blob
                ltac:(congruence))).
  match goal with |- context [bind _ _ ?w0] => set (w2 := w0) end.
  destruct (PutInteger_ok ext {| fname := bootstub_dtb_name ext |} "/config"
              "postload-text-offset" 0xffffffff w2 blob) as (w3 & E3 & F3).
  { subst w2. cbn [files fname]. apply lookup_insert_eq. }
  rewrite (bind_returns _ _ _ _ _ E3). cbn [fname] in F3 |- *.
  fold (bootstub_dtb ext blob) in F3.
  rewrite (bind_returns _ _ _ _ _
             (ReadFile_ok (bootstub_dtb_name ext) w3 (bootstub_dtb ext blob)
                ltac:(rewrite F3; apply lookup_insert_eq))).
  erewrite bind_returns by reflexivity.
  match goal with |- context [bind _ _ ?w0] => set (w4 := w0) end.
  assert (F4 : files w4
               = <[bootstub_name ext := u ++ bootstub_dtb ext blob]>
                   (<[bootstub_dtb_name ext := bootstub_dtb ext blob]>
                      (files w))).
  { subst w4. cbn [files]. rewrite F3. subst w2. cbn [files].
    rewrite insert_insert_eq, Fc. reflexivity. }
  clearbody w4.
  destruct (OutputSize_ok ext "U-Boot binary" (uboot_fname self) w4)
    as (w5 & E5 & F5).
  { rewrite F4. repeat apply written_keeps. exact Su. }
  rewrite (bind_returns _ _ _ _ _ E5).
  destruct (OutputSize_ok ext "U-Boot fdt" (_fdt_fname self) w5)
    as (w6 & E6 & F6).
  { rewrite F5, F4. repeat apply written_keeps. exact Sf. }
  rewrite (bind_returns _ _ _ _ _ E6).
  destruct (OutputSize_ok ext "Combined binary" (bootstub_name ext) w6)
    as (w7 & E7 & F7).
  { rewrite F6, F5, F4, lookup_insert_eq. eauto. }
  rewrite (bind_returns _ _ _ _ _ E7).
  destruct (SignBootstub_progress ext (Filename ext (bct_fname self))
              (bootstub_name ext) tb w7 b (u ++ bootstub_dtb ext blob) dump
              image1) as (w8 & E8); try assumption.
  { other_name. }
  { rewrite F7, F6, F5, F4.
    repeat (rewrite lookup_insert_ne by (assumption || other_name)).
    exact Fbct. }
  { rewrite F7, F6, F5, F4. apply lookup_insert_eq. }
  rewrite (bind_returns _ _ _ _ _ E8).
  pose proof E8 as R8. apply SignBootstub_returns in R8
    as (_ & b0 & dump0 & b1 & bs1 & image & _ & _ & R8).
  cbv zeta in R8. destruct R8 as (_ & _ & _ & F8).
  rewrite (bind_returns _ _ _ _ _
             (ReadFile_ok (signed_name ext) w8 image
                ltac:(rewrite F8; apply lookup_insert_eq))).
  eexists _, _. reflexivity.
Qed.

Lemma sign_again_progress ext self so p w1 bs dtb1 b post dump image2 :
  so_bootstub so = bootstub_name ext ->
  fname (so_fdt so) = bootstub_dtb_name ext ->
  files w1 !! bootstub_name ext = Some bs ->
  files w1 !! bootstub_dtb_name ext = Some dtb1 ->
  files w1 !! Filename ext (bct_fname self) = Some b ->
  ~ In (Filename ext (bct_fname self)) (scratch_names ext) ->
  files w1 !! p = Some post ->
  bct_dump ext b = inr dump ->
  cbootimage ext
    (sign_cfg (Filename ext (bct_fname self)) dump (postload_stub_name ext)
       (so_text_base so))
    b (so_uboot_data so
       ++ dtb_put_integer ext dtb1 "/config" "postload-text-offset"
            (Z.of_nat (length (so_data so)))) = inr image2 ->
  exists w2 names, sign_again ext self so p w1 = (w2, inr names).
Proof.
  intros Hbs Hfdt Fbs Fdtb Fbct Hbct Fp Hdump Hrun.
  destruct (not_scratch ext _ Hbct) as (N1 & N2 & N3 & N4 & N5 & N6).
  unfold sign_again. rewrite Hbs.
  fold (bootstub_postload_name ext) (postload_stub_name ext).
  rewrite (bind_returns _ _ _ _ _ (ReadFile_ok _ _ _ Fbs)).
  rewrite (bind_returns _ _ _ _ _ (ReadFile_ok _ _ _ Fp)).
  erewrite bind_returns by reflexivity.
  match goal with |- context [bind _ _ ?w0] => set (w2 := w0) end.
  assert (F2 : files w2
               = <[bootstub_postload_name ext := bs ++ post]> (files w1))
    by reflexivity.
  clearbody w2.
  destruct (OutputSize_ok ext "Combined binary with postload"
              (bootstub_postload_name ext) w2) as (w3 & E3 & F3).
  { rewrite F2, lookup_insert_eq. eauto. }
  rewrite (bind_returns _ _ _ _ _ E3).
  destruct (PutInteger_ok ext (so_fdt so) "/config" "postload-text-offset"
              (Z.of_nat (length (so_data so))) w3 dtb1) as (w4 & E4 & F4).
  { rewrite Hfdt, F3, F2. rewrite lookup_insert_ne by other_name.
    exact Fdtb. }
  rewrite (bind_returns _ _ _ _ _ E4). rewrite Hfdt in F4 |- *.
  rewrite (bind_returns _ _ _ _ _
             (ReadFile_ok (bootstub_dtb_name ext) w4 _
                ltac:(rewrite F4; apply lookup_insert_eq))).
  erewrite bind_returns by reflexivity.
  match goal with |- context [bind _ _ ?w0] => set (w5 := w0) end.
  assert (F5 : files w5
               = <[postload_stub_name ext
                   := so_uboot_data so
                      ++ dtb_put_integer ext dtb1 "/config"
                           "postload-text-offset"
                           (Z.of_nat (length (so_data so)))]> (files w4))
    by reflexivity.
  clearbody w5.
  destruct (SignBootstub_progress ext (Filename ext (bct_fname self))
              (postload_stub_name ext) (so_text_base so) w5 b
              (so_uboot_data so
               ++ dtb_put_integer ext dtb1 "/config" "postload-text-offset"
                    (Z.of_nat (length (so_data so)))) dump image2)
    as (w6 & E6); try assumption.
  { other_name. }
  { rewrite F5, F4, F3, F2.
    repeat (rewrite lookup_insert_ne by (assumption || other_name)).
    exact Fbct. }
  { rewrite F5. apply lookup_insert_eq. }
  rewrite (bind_returns _ _ _ _ _ E6).
  eexists _, _. reflexivity.
Qed.

(** C1: with a post-load payload, the boot stub is signed a second time
    once the length of the first signed buffer is stored as the post-load
    offset of its device tree.  When [_CreateBootStub] returns, the two
    signed buffers have the same length and the final image is the second
    one followed by the payload; when the second signing gives a buffer of
    another length, [_CreateBootStub] raises [CmdError] with both lengths
    and the final image file is left as it was. *)
Theorem bootstub_resign_size_checked ext self uboot base_fdt postload p w
    u blob b post :
  given postload = Some p ->
  files w !! uboot = Some u ->
  files w !! fname base_fdt = Some blob ->
  files w !! Filename ext (bct_fname self) = Some b ->
  files w !! p = Some post ->
  ~ In (Filename ext (bct_fname self)) (scratch_names ext) ->
  ~ In p (scratch_names ext) ->
  (forall w' names,
     _CreateBootStub ext self uboot base_fdt postload w = (w', inr names) ->
     exists tb dump image1 image2,
       result (CalcTextBase ext "" (fdt self) uboot) w = inr tb
       /\ bct_dump ext b = inr dump
       /\ cbootimage ext
            (sign_cfg (Filename ext (bct_fname self)) dump
               (bootstub_name ext) tb)
            b (u ++ bootstub_dtb ext blob) = inr image1
       /\ cbootimage ext
            (sign_cfg (Filename ext (bct_fname self)) dump
               (postload_stub_name ext) tb)
            b (u ++ postload_dtb ext blob (Z.of_nat (length image1)))
          = inr image2
       /\ length image2 = length image1
       /\ names = (bootstub_postload_name ext, signed_postload_name ext)
       /\ files w' !! signed_postload_name ext = Some (image2 ++ post)
       /\ files w' !! bootstub_postload_name ext
          = Some ((u ++ bootstub_dtb ext blob) ++ post))
  /\ (forall tb dump image1 image2,
        result (CalcTextBase ext "" (fdt self) uboot) w = inr tb ->
        is_Some (files w !! uboot_fname self) ->
        is_Some (files w !! _fdt_fname self) ->
        bct_dump ext b = inr dump ->
        cbootimage ext
          (sign_cfg (Filename ext (bct_fname self)) dump
             (bootstub_name ext) tb)
          b (u ++ bootstub_dtb ext blob) = inr image1 ->
        cbootimage ext
          (sign_cfg (Filename ext (bct_fname self)) dump
             (postload_stub_name ext) tb)
          b (u ++ postload_dtb ext blob (Z.of_nat (length image1)))
        = inr image2 ->
        length image2 <> length image1 ->
        exists w',
          _CreateBootStub ext self uboot base_fdt postload w
          = (w', inl (CmdError (size_changed (Z.of_nat (length image1))
                                  (Z.of_nat (length image2)))))
          /\ files w' !! signed_postload_name ext
             = files w !! signed_postload_name ext).
Proof.
  intros Hp Fu Fb Fbct Fp Hbct Hpn.
  destruct (not_scratch ext _ Hbct) as (N1 & N2 & N3 & N4 & N5 & N6).
  destruct (not_scratch ext _ Hpn) as (P1 & P2 & P3 & P4 & P5 & P6).
  assert (first_pass : forall w1 so,
    sign_first ext self uboot base_fdt w = (w1, inr so) ->
    so_bootstub so = bootstub_name ext
    /\ so_uboot_data so = u
    /\ fname (so_fdt so) = bootstub_dtb_name ext
    /\ result (CalcTextBase ext "" (fdt self) uboot) w
       = inr (so_text_base so)
    /\ (exists dump,
          bct_dump ext b = inr dump
          /\ cbootimage ext
               (sign_cfg (Filename ext (bct_fname self)) dump
                  (bootstub_name ext) (so_text_base so))
               b (u ++ bootstub_dtb ext blob) = inr (so_data so))
    /\ files w1 !! bootstub_name ext = Some (u ++ bootstub_dtb ext blob)
    /\ files w1 !! bootstub_dtb_name ext = Some (bootstub_dtb ext blob)
    /\ files w1 !! Filename ext (bct_fname self) = Some b
    /\ files w1 !! p = Some post
    /\ files w1 !! signed_postload_name ext
       = files w !! signed_postload_name ext).
  { intros w1 so H1.
    destruct (sign_first_signs _ _ _ _ _ _ _ _ _ _ Fu Fb Fbct Hbct H1)
      as (S1 & S2 & S3 & S4 & dump & Hdump & Hs).
    cbv zeta in Hs. destruct Hs as (Hrun & F1).
    repeat (split; [assumption|]).
    split; [exists dump; split; assumption|].
    rewrite F1.
    repeat split;
      repeat (rewrite lookup_insert_ne by (assumption || other_name));
      first [ apply lookup_insert_eq | assumption | reflexivity ]. }
  assert (second_pass : forall w1 so w2 bootstub signed,
    sign_first ext self uboot base_fdt w = (w1, inr so) ->
    sign_again ext self so p w1 = (w2, inr (bootstub, signed)) ->
    bootstub = bootstub_postload_name ext
    /\ signed = signed_name ext
    /\ (exists dump image2,
          bct_dump ext b = inr dump
          /\ cbootimage ext
               (sign_cfg (Filename ext (bct_fname self)) dump
                  (postload_stub_name ext) (so_text_base so))
               b (u ++ postload_dtb ext blob
                         (Z.of_nat (length (so_data so)))) = inr image2
          /\ files w2 !! signed_name ext = Some image2)
    /\ files w2 !! bootstub_postload_name ext
       = Some ((u ++ bootstub_dtb ext blob) ++ post)
    /\ files w2 !! p = Some post
    /\ files w2 !! signed_postload_name ext
       = files w !! signed_postload_name ext).
  { intros w1 so w2 bootstub signed H1 H2.
    destruct (first_pass w1 so H1)
      as (S1 & S2 & S3 & S4 & _ & G1 & G2 & G3 & G4 & G5).
    destruct (sign_again_signs _ _ _ _ _ _ _ _ _ _ _ _ S1 S3 G1 G2 G3 Hbct G4
                H2) as (-> & -> & dump & image2 & Hdump & Hs).
    cbv zeta in Hs. destruct Hs as (Hrun & F2). rewrite S2 in Hrun, F2.
    split; [reflexivity|]. split; [reflexivity|]. rewrite F2. split.
    { exists dump, image2. split; [exact Hdump|]. split; [exact Hrun|].
      apply lookup_insert_eq. }
    repeat split;
      repeat (rewrite lookup_insert_ne by (assumption || other_name));
      first [ apply lookup_insert_eq | assumption ]. }
  split.
  - intros w' names H. unfold _CreateBootStub in H. rewrite Hp in H.
    apply bind_inr in H as (w1 & so & H1 & H).
    apply bind_inr in H as (w5 & [bootstub' data'] & Hbranch & H).
    apply bind_inr in Hbranch as (w2 & [bootstub signed] & H2 & Hbranch).
    destruct (first_pass w1 so H1)
      as (_ & _ & _ & S4 & (dump & Hdump & Hrun1) & _).
    destruct (second_pass w1 so w2 bootstub signed H1 H2)
      as (-> & -> & (dump' & image2 & Hdump' & Hrun2 & G1) & G2 & G3 & G4).
    assert (dump' = dump) as -> by congruence.
    apply bind_inr in Hbranch as (w3 & [] & Hc & Hbranch).
    apply check_signed_size_passes in Hc as (-> & d2 & Hf & Hlen).
    assert (d2 = image2) as -> by congruence.
    apply bind_inr in Hbranch as (w3 & data & Hr & Hbranch).
    apply ReadFile_inv in Hr as [-> Hr].
    assert (data = image2) as -> by congruence.
    apply bind_inr in Hbranch as (w3 & post' & Hr' & Hbranch).
    apply ReadFile_inv in Hr' as [-> Hr'].
    assert (post' = post) as -> by congruence.
    apply bind_inr in Hbranch as (w3 & [] & Ho & Hbranch).
    apply OutputSize_inv in Ho.
    apply ret_inv in Hbranch as [-> [= -> ->]].
    apply bind_inr in H as (w6 & [] & Hw & H). apply WriteFile_inv in Hw.
    apply bind_inr in H as (w7 & [] & Ho' & H). apply OutputSize_inv in Ho'.
    apply ret_inv in H as [-> ->].
    exists (so_text_base so), dump, (so_data so), image2.
    repeat (split; [assumption || reflexivity|]).
    rewrite Ho', Hw, Ho. split; [apply lookup_insert_eq|].
    rewrite lookup_insert_ne by other_name. exact G2.
  - intros tb dump image1 image2 Htb Su Sf Hdump Hrun1 Hrun2 Hne.
    destruct (sign_first_progress ext self uboot base_fdt w u blob b tb dump
                image1 Fu Fb Fbct Hbct Su Sf Htb Hdump Hrun1)
      as (w1 & so & H1).
    destruct (first_pass w1 so H1)
      as (S1 & S2 & S3 & S4 & (dump0 & Hdump0 & Hrun0) & G1 & G2 & G3 & G4
          & G5).
    assert (so_text_base so = tb) as Etb by congruence.
    assert (dump0 = dump) as -> by congruence.
    rewrite Etb in Hrun0.
    assert (so_data so = image1) as Edata by congruence.
    destruct (sign_again_progress ext self so p w1
                (u ++ bootstub_dtb ext blob) (bootstub_dtb ext blob) b post
                dump image2 S1 S3 G1 G2 G3 Hbct G4 Hdump)
      as (w2 & [bootstub signed] & H2).
    { rewrite Etb, S2, Edata. exact Hrun2. }
    destruct (second_pass w1 so w2 bootstub signed H1 H2)
      as (-> & -> & (dump' & image2' & Hdump' & Hrun2' & F1) & _ & _ & F4).
    assert (dump' = dump) as -> by congruence.
    rewrite Etb, Edata in Hrun2'.
    assert (image2' = image2) as -> by congruence.
    exists w2. split; [|exact F4].
    unfold _CreateBootStub. rewrite (bind_returns _ _ _ _ _ H1), Hp.
    unfold bind at 1. unfold bind at 1. rewrite H2.
    rewrite (bind_raises _ _ _ _ _
               (check_signed_size_fails (so_data so) _ _ _ F1
                  ltac:(rewrite Edata; exact Hne))).
    rewrite Edata. reflexivity.
Qed.

Lemma bootstub_resign_size_checked_witness :
  (exists image1 image2 : list byte,
     length image2 = length image1
     /\ files (fst (_CreateBootStub ext0 bundle0 "u-boot.bin" dtb0
                      (Some "u-boot-post.bin") world_boot))
          !! signed_postload_name ext0
        = Some (image2 ++ zeros 5))
  /\ (exists w',
        _CreateBootStub ext_growing bundle0 "u-boot.bin" dtb0
          (Some "u-boot-post.bin") world_boot
        = (w', inl (CmdError (size_changed 32 33)))
        /\ files w' !! signed_postload_name ext_growing = None).
Proof.
  assert (Hn : forall ext, outdir ext = "out" ->
                 forall q, q = "board.bct" \/ q = "u-boot-post.bin" ->
                 ~ In q (scratch_names ext)).
  { intros ext Ho q Hq. unfold scratch_names. rewrite Ho. cbn.
    destruct Hq as [-> | ->]; intuition discriminate. }
  split.
  - destruct (proj1 (bootstub_resign_size_checked ext0 bundle0 "u-boot.bin"
                       dtb0 (Some "u-boot-post.bin") "u-boot-post.bin"
                       world_boot
                       (Py.le_bytes 4 0x12345678 ++ Py.le_bytes 4 0x108000)
                       (zeros 8) (zeros 16) (zeros 5)
                       eq_refl eq_refl eq_refl eq_refl eq_refl
                       (Hn ext0 eq_refl _ (or_introl eq_refl))
                       (Hn ext0 eq_refl _ (or_intror eq_refl)))
                (fst (_CreateBootStub ext0 bundle0 "u-boot.bin" dtb0
                        (Some "u-boot-post.bin") world_boot))
                ("out/u-boot-fdt-postload.bin", "out/signed-postload.bin")
                ltac:(vm_compute; reflexivity))
      as (tb & dump & image1 & image2 & _ & _ & _ & _ & Hlen & _ & Hf & _).
    exists image1, image2. split; [exact Hlen|exact Hf].
  - edestruct (proj2 (bootstub_resign_size_checked ext_growing bundle0
                        "u-boot.bin" dtb0 (Some "u-boot-post.bin")
                        "u-boot-post.bin" world_boot
                        (Py.le_bytes 4 0x12345678 ++ Py.le_bytes 4 0x108000)
                        (zeros 8) (zeros 16) (zeros 5)
                        eq_refl eq_refl eq_refl eq_refl eq_refl
                        (Hn ext_growing eq_refl _ (or_introl eq_refl))
                        (Hn ext_growing eq_refl _ (or_intror eq_refl)))
                 0x108000 EmptyString
                 (zeros 16
                  ++ (Py.le_bytes 4 0x12345678 ++ Py.le_bytes 4 0x108000)
                  ++ zeros 8)
                 (zeros 16
                  ++ (Py.le_bytes 4 0x12345678 ++ Py.le_bytes 4 0x108000)
                  ++ zeros 9))
      as (w' & E & F).
    + reflexivity.
    + eexists. reflexivity.
    + eexists. reflexivity.
    + reflexivity.
    + vm_compute. reflexivity.
    + vm_compute. reflexivity.
    + vm_compute. discriminate.
    + exists w'. split; [exact E|]. rewrite F. reflexivity.
Defined.
